(** * eThekwini GIS MCP server: dataset discovery, cache and query builders

    A shallow embedding of [src/src/ethekwini_gis_mcp.py] (class
    [EThekwiniGISServer]) and the properties of its discovery walker, its
    cache and its request builders.

    Conventions of the embedding.
    - A Python [str] is a [string]; [str.lower] acts on the ASCII letters.
    - A value decoded by [response.json()] is a [json]; Python's [None] is
      [JNull], a [dict] is [JObj] and a [list] is [JArr].
    - A Python [dict] keeps insertion order: it is an association list
      without repeated keys ([pydict]).
    - Clock readings ([time.time()]) are rationals; rounding of floating
      point numbers is not modelled.
    - The remote ArcGIS server is a function from the requests issued so far
      and the current request to a reply; every request is appended to a
      log, so that network work can be counted.
    - Exceptions and the mutation that survives them are carried by a small
      state-and-exception monad. Logging is not modelled. *)

From Stdlib Require Import String Ascii List ZArith QArith Bool Lia.
From Stdlib Require Import DecimalString.
Import ListNotations.
Local Open Scope list_scope.
Local Open Scope string_scope.
Local Open Scope Z_scope.

Set Implicit Arguments.
Set Warnings "-register-all".

(* ================================================================== *)
(** ** Python strings *)

Module PyStr.

(** [c.lower()] for one character: only 'A'..'Z' change. *)
Definition lower_ascii (c : ascii) : ascii :=
  let n := N_of_ascii c in
  if (N.leb 65 n && N.leb n 90)%bool then ascii_of_N (n + 32) else c.

Fixpoint map_chars (f : ascii -> ascii) (s : string) : string :=
  match s with
  | EmptyString => EmptyString
  | String c r => String (f c) (map_chars f r)
  end.

(** [s.lower()] *)
Definition lower (s : string) : string := map_chars lower_ascii s.

(** [s.replace(old, new)] for one-character [old] and [new]. *)
Definition replace (old new : ascii) (s : string) : string :=
  map_chars (fun c => if Ascii.eqb c old then new else c) s.

(** [q in s] on strings: [q] occurs in [s] as a contiguous substring. *)
Fixpoint contains (q s : string) : bool :=
  (String.prefix q s ||
   match s with
   | EmptyString => false
   | String _ r => contains q r
   end)%bool.

(** [s.endswith(c)] for a one-character suffix. *)
Fixpoint endswith (c : ascii) (s : string) : bool :=
  match s with
  | EmptyString => false
  | String a EmptyString => Ascii.eqb a c
  | String _ r => endswith c r
  end.

(** The characters of [s] as one-character strings, as [for ch in s]. *)
Fixpoint chars (s : string) : list string :=
  match s with
  | EmptyString => []
  | String c r => String c EmptyString :: chars r
  end.

(** [str(n)] for an [int]. *)
Definition of_Z (z : Z) : string := NilZero.string_of_int (Z.to_int z).

(** [str(n)] for a length. *)
Definition of_nat (n : nat) : string := NilZero.string_of_uint (Nat.to_uint n).

(** [s.replace(old, new)] for an [old] that is not empty: the occurrences
    of [old] are taken from the left and do not overlap. [skip] counts the
    characters of an occurrence that are still to be dropped. *)
Fixpoint replace_from (old new : string) (skip : nat) (s : string) : string :=
  match s with
  | EmptyString => EmptyString
  | String c r =>
      match skip with
      | Datatypes.S k => replace_from old new k r
      | O =>
          if String.prefix old (String c r)
          then new ++ replace_from old new (String.length old - 1) r
          else String c (replace_from old new 0 r)
      end
  end.

Definition replace_all (old new : string) (s : string) : string :=
  replace_from old new 0 s.

(** [s.split(sep)] for a one-character separator. *)
Fixpoint split (sep : ascii) (s : string) : list string :=
  match s with
  | EmptyString => [EmptyString]
  | String c r =>
      if Ascii.eqb c sep then EmptyString :: split sep r
      else match split sep r with
           | [] => [String c EmptyString]
           | h :: t => String c h :: t
           end
  end.

(** [str(b).lower()] for a [bool]. *)
Definition of_bool (b : bool) : string := if b then "true" else "false".

End PyStr.

(* ================================================================== *)
(** ** JSON values, as Python sees them after [response.json()] *)

Inductive number : Type :=
| NInt (z : Z)
| NFloat (q : Q).

Inductive json : Type :=
| JNull
| JBool (b : bool)
| JNum (n : number)
| JStr (s : string)
| JArr (items : list json)
| JObj (fields : list (string * json)).

Definition number_truthy (n : number) : bool :=
  match n with
  | NInt z => negb (z =? 0)
  | NFloat q => negb (Qeq_bool q 0)
  end.

(** [bool(v)]: the test made by [if v:]. *)
Definition truthy (v : json) : bool :=
  match v with
  | JNull => false
  | JBool b => b
  | JNum n => number_truthy n
  | JStr s => negb (s =? "")%string
  | JArr l => match l with [] => false | _ => true end
  | JObj l => match l with [] => false | _ => true end
  end.

(* ================================================================== *)
(** ** Insertion-ordered dictionaries with string keys *)

Definition pydict (V : Type) : Type := list (string * V).

Section PyDict.
Variable V : Type.

(** [d.get(k)] *)
Fixpoint dict_get (k : string) (d : pydict V) : option V :=
  match d with
  | [] => None
  | (k', v) :: r => if (k =? k')%string then Some v else dict_get k r
  end.

(** [d[k] = v]: an existing key keeps its position, a new key goes last. *)
Fixpoint dict_set (k : string) (v : V) (d : pydict V) : pydict V :=
  match d with
  | [] => [(k, v)]
  | (k', v') :: r =>
      if (k =? k')%string then (k, v) :: r else (k', v') :: dict_set k v r
  end.

(** [k in d] *)
Definition dict_mem (k : string) (d : pydict V) : bool :=
  match dict_get k d with Some _ => true | None => false end.

Definition dict_keys (d : pydict V) : list string := map fst d.
Definition dict_values (d : pydict V) : list V := map snd d.

(** [d.get(k, default)] *)
Definition dict_get_default (k : string) (default : V) (d : pydict V) : V :=
  match dict_get k d with Some v => v | None => default end.

End PyDict.

(* ================================================================== *)
(** ** Exceptions and the state-and-exception monad *)

Inductive exn : Type :=
| AttributeError
| TypeError
| ValueError (msg : string)
| NetworkError
| JSONDecodeError
| HTTPStatusError (status : Z).

Inductive result (A : Type) : Type :=
| Ok (a : A)
| Raise (e : exn).
Arguments Ok {A} a.
Arguments Raise {A} e.

(** A computation over a mutable state [S]: the state it leaves is kept
    also when it raises, as Python keeps the mutations made before an
    exception. *)
Definition M (S A : Type) : Type := S -> result A * S.

Section Monad.
Variable S : Type.

Definition ret {A} (a : A) : M S A := fun s => (Ok a, s).

Definition bind {A B} (m : M S A) (k : A -> M S B) : M S B :=
  fun s =>
    match m s with
    | (Ok a, s') => k a s'
    | (Raise e, s') => (Raise e, s')
    end.

Definition raise {A} (e : exn) : M S A := fun s => (Raise e, s).

(** [try: m  except Exception as e: h e] *)
Definition try_except {A} (m : M S A) (h : exn -> M S A) : M S A :=
  fun s =>
    match m s with
    | (Ok a, s') => (Ok a, s')
    | (Raise e, s') => h e s'
    end.

Definition get_state : M S S := fun s => (Ok s, s).
Definition modify (f : S -> S) : M S unit := fun s => (Ok tt, f s).

(** [for x in l: body x] *)
Fixpoint for_each {A} (l : list A) (body : A -> M S unit) : M S unit :=
  match l with
  | [] => ret tt
  | x :: r => bind (body x) (fun _ => for_each r body)
  end.

End Monad.

Arguments ret {S A} a.
Arguments raise {S A} e.
Arguments get_state {S}.

Declare Scope monad_scope.
Delimit Scope monad_scope with monad.
Notation "x <- m ;; k" := (bind m (fun x => k))
  (at level 61, m at next level, right associativity) : monad_scope.
Notation "m ;; k" := (bind m (fun _ => k))
  (at level 61, right associativity) : monad_scope.
Local Open Scope monad_scope.

Definition exec {S A} (m : M S A) (s : S) : S := snd (m s).
Definition eval {S A} (m : M S A) (s : S) : result A := fst (m s).

(* ================================================================== *)
(** ** Dynamic operations of Python on decoded JSON *)

Section PyOps.
Variable S : Type.

(** [v.get(k, default)]: only a [dict] has the method. A decoded object
    has no repeated key, so the first binding is the binding. *)
Definition py_get (v : json) (k : string) (default : json) : M S json :=
  match v with
  | JObj fields => ret (dict_get_default k default fields)
  | _ => raise AttributeError
  end.

(** The items visited by [for x in v]. *)
Definition py_iter (v : json) : M S (list json) :=
  match v with
  | JArr items => ret items
  | JObj fields => ret (map (fun kv => JStr (fst kv)) fields)
  | JStr s => ret (map JStr (PyStr.chars s))
  | _ => raise TypeError
  end.

(** [v.lower()]: only a [str] has the method. *)
Definition py_lower (v : json) : M S string :=
  match v with
  | JStr s => ret (PyStr.lower s)
  | _ => raise AttributeError
  end.

(** [len(v)] *)
Definition py_len (v : json) : M S nat :=
  match v with
  | JStr s => ret (String.length s)
  | JArr items => ret (List.length items)
  | JObj fields => ret (List.length fields)
  | _ => raise TypeError
  end.

(** [v in d] for a dictionary with string keys: lists and dictionaries
    cannot be hashed, any other value that is not a string is no key. *)
Definition py_in_dict {V} (v : json) (d : pydict V) : M S bool :=
  match v with
  | JArr _ | JObj _ => raise TypeError
  | JStr s => ret (dict_mem s d)
  | _ => ret false
  end.

(** [sep.join(items)]: every item must be a [str]. *)
Fixpoint py_strings (items : list json) : M S (list string) :=
  match items with
  | [] => ret []
  | JStr s :: r => rest <- py_strings r ;; ret (s :: rest)
  | _ :: _ => raise TypeError
  end.

Definition py_join (sep : string) (items : list json) : M S string :=
  strs <- py_strings items ;; ret (String.concat sep strs).

End PyOps.

(** [v in ["FeatureServer", "MapServer"]]: the string when it is one of
    the two. *)
Definition server_type (v : json) : option string :=
  match v with
  | JStr ty =>
      if ((ty =? "FeatureServer") || (ty =? "MapServer"))%string
      then Some ty else None
  | _ => None
  end.

(* ================================================================== *)
(** ** The data model *)

(** The dictionary built for one dataset ([dataset_info]). *)
Record dataset_info : Type := {
  ds_id : string;
  ds_name : string;
  ds_title : json;
  ds_description : json;
  ds_type : string;
  ds_url : string;
  ds_created : string;
  ds_updated : string;
  ds_tags : list json;
  ds_categories : list json;
  ds_owner : string;  (* the name in the [owner] dictionary *)
  ds_service_info : json;
  ds_layers : json
}.

(** One entry of [all_services]. *)
Record service_entry : Type := {
  se_name : string;
  se_url : string;
  se_type : string;
  se_dataset_id : string;
  se_info : json
}.

(** A value of the [params] dictionary of a request. *)
Inductive param_value : Type :=
| PStr (s : string)
| PNum (n : number).

(** A GET issued through [self.client]; [req_timeout = None] is the
    client's default of 60 seconds. *)
Record request : Type := {
  req_url : string;
  req_params : pydict param_value;
  req_timeout : option Q
}.

(** What comes back: no answer at all ([client.get] raises), or a status
    with a body that [response.json()] decodes ([Some]) or rejects. *)
Inductive reply : Type :=
| Unreachable
| Http (status : Z) (body : option json).

(** The fields of [self], and the requests sent through [self.client]. *)
Record server : Type := {
  api_base : string;
  cached_datasets : pydict dataset_info;
  cached_services : pydict service_entry;
  last_refresh : option Q;
  known_services : pydict string;
  client_log : list request
}.

(** [EThekwiniGISServer.__init__] *)
Definition init_server : server := {|
  api_base := "https://services3.arcgis.com/HO0zfySJshlD6Twu/arcgis/rest/services";
  cached_datasets := [];
  cached_services := [];
  last_refresh := None;
  known_services :=
    [("Leases",
      "https://services3.arcgis.com/HO0zfySJshlD6Twu/arcgis/rest/services/Leases/FeatureServer")];
  client_log := []
|}.

(** [self] together with the locals of [_refresh_datasets]. *)
Record pass : Type := {
  self : server;
  all_datasets : pydict dataset_info;
  all_services : pydict service_entry
}.

Definition set_client_log (l : list request) (s : server) : server := {|
  api_base := api_base s;
  cached_datasets := cached_datasets s;
  cached_services := cached_services s;
  last_refresh := last_refresh s;
  known_services := known_services s;
  client_log := l
|}.

Definition set_known_services (k : pydict string) (s : server) : server := {|
  api_base := api_base s;
  cached_datasets := cached_datasets s;
  cached_services := cached_services s;
  last_refresh := last_refresh s;
  known_services := k;
  client_log := client_log s
|}.

(** Lines 640-642: the three assignments that end a pass. *)
Definition commit (now : Q) (p : pass) : pass := {|
  self := {|
    api_base := api_base (self p);
    cached_datasets := all_datasets p;
    cached_services := all_services p;
    last_refresh := Some now;
    known_services := known_services (self p);
    client_log := client_log (self p)
  |};
  all_datasets := all_datasets p;
  all_services := all_services p
|}.

(** Run a method of [self] inside the pass. *)
Definition lift_self {A} (m : M server A) : M pass A :=
  fun p =>
    let (r, s') := m (self p) in
    (r, {| self := s'; all_datasets := all_datasets p;
           all_services := all_services p |}).

(** [all_datasets[k] = d] *)
Definition set_dataset (k : string) (d : dataset_info) : M pass unit :=
  modify (fun p => {| self := self p;
                      all_datasets := dict_set k d (all_datasets p);
                      all_services := all_services p |}).

(** [all_services[k] = e] *)
Definition set_service (k : string) (e : service_entry) : M pass unit :=
  modify (fun p => {| self := self p;
                      all_datasets := all_datasets p;
                      all_services := dict_set k e (all_services p) |}).

Definition Qltb (x y : Q) : bool := negb (Qle_bool y x).

(* ================================================================== *)
(** ** The server, against a remote *)

Section Server.

(** The remote side: the reply to a request, given the requests that
    were sent before it. *)
Variable remote : list request -> request -> reply.

(** [str(v)] of a decoded value that is not a string, as an f-string
    formats it; its exact text is not modelled. *)
Variable py_repr : json -> string.

(** [json.dumps(v)]; the serialised text is not modelled. *)
Variable json_dumps : json -> string.

(** [f"{v}"] *)
Definition py_format (v : json) : string :=
  match v with
  | JStr s => s
  | _ => py_repr v
  end.

(** [await self.client.get(...)]: the request goes out, and is logged,
    whatever comes back. *)
Definition client_get (r : request) : M server (Z * option json) :=
  fun s =>
    let s' := set_client_log (client_log s ++ [r])%list s in
    match remote (client_log s) r with
    | Unreachable => (Raise NetworkError, s')
    | Http status body => (Ok (status, body), s')
    end.

(** [response.json()] *)
Definition response_json {S} (body : option json) : M S json :=
  match body with
  | Some v => ret v
  | None => raise JSONDecodeError
  end.

(** [response.raise_for_status()]: httpx raises unless the status is a
    success (2xx). *)
Definition raise_for_status {S} (status : Z) : M S unit :=
  if (200 <=? status) && (status <=? 299) then ret tt
  else raise (HTTPStatusError status).

(** The request of a metadata probe: [params={"f": "json"}], ten seconds. *)
Definition info_request (service_url : string) : request := {|
  req_url := service_url;
  req_params := [("f", PStr "json")];
  req_timeout := Some (10 # 1)
|}.

(** The request of a catalog probe: the query string is in the URL. *)
Definition catalog_request (base : string) : request := {|
  req_url := base ++ "?f=json";
  req_params := [];
  req_timeout := None
|}.

(** [_get_service_info]: the decoded descriptor, or [None]. *)
Definition _get_service_info (service_url : string) : M server json :=
  try_except
    (response <- client_get (info_request service_url) ;;
     if fst response =? 200 then response_json (snd response)
     else ret JNull)
    (fun _ => ret JNull).

(** Lines 507-538: one iteration of the loop over [self.known_services]. *)
Definition known_service (service_name service_url : string) : M pass unit :=
  try_except
    (service_info <- lift_self (_get_service_info service_url) ;;
     if truthy service_info then
       title <- py_get service_info "serviceDescription" (JStr service_name) ;;
       description <-
         py_get service_info "description"
           (JStr (service_name ++ " feature service from eThekwini municipality")) ;;
       layers <- py_get service_info "layers" (JArr []) ;;
       set_dataset (PyStr.lower service_name) {|
         ds_id := PyStr.lower service_name;
         ds_name := service_name;
         ds_title := title;
         ds_description := description;
         ds_type := "Feature Service";
         ds_url := service_url;
         ds_created := "";
         ds_updated := "";
         ds_tags := [JStr "eThekwini"; JStr "municipality"; JStr "GIS"];
         ds_categories := [JStr "Municipal Services"];
         ds_owner := "eThekwini Municipality";
         ds_service_info := service_info;
         ds_layers := layers
       |} ;;
       set_service service_name {|
         se_name := service_name;
         se_url := service_url;
         se_type := "Feature Service";
         se_dataset_id := PyStr.lower service_name;
         se_info := service_info
       |} ;;
       (* the count of layers written to the log *)
       logged <- py_get service_info "layers" (JArr []) ;;
       _ <- py_len logged ;;
       ret tt
     else ret tt)
    (fun _ => ret tt).

(** Lines 548-585: one iteration of the loop over the root services. *)
Definition root_service (service : json) : M pass unit :=
  service_name <- py_get service "name" (JStr "") ;;
  service_type <- py_get service "type" (JStr "") ;;
  match server_type service_type with
  | Some ty =>
      p <- get_state ;;
      is_known <- py_in_dict service_name (known_services (self p)) ;;
      if negb is_known then
        let service_url :=
          api_base (self p) ++ "/" ++ py_format service_name ++ "/" ++ ty in
        try_except
          (service_info <- lift_self (_get_service_info service_url) ;;
           if truthy service_info then
             dataset_id <- py_lower service_name ;;
             title <- py_get service_info "serviceDescription" service_name ;;
             description <-
               py_get service_info "description"
                 (JStr (py_format service_name
                        ++ " service from eThekwini municipality")) ;;
             layers <- py_get service_info "layers" (JArr []) ;;
             set_dataset dataset_id {|
               ds_id := dataset_id;
               ds_name := py_format service_name;
               ds_title := title;
               ds_description := description;
               ds_type := ty;
               ds_url := service_url;
               ds_created := "";
               ds_updated := "";
               ds_tags := [JStr "eThekwini"; JStr "municipality"; JStr "GIS"];
               ds_categories := [JStr "Municipal Services"];
               ds_owner := "eThekwini Municipality";
               ds_service_info := service_info;
               ds_layers := layers
             |} ;;
             set_service (py_format service_name) {|
               se_name := py_format service_name;
               se_url := service_url;
               se_type := ty;
               se_dataset_id := dataset_id;
               se_info := service_info
             |}
           else ret tt)
          (fun _ => ret tt)
      else ret tt
  | None => ret tt
  end.

(** Lines 595-633: one iteration of the loop over the services of a
    folder. *)
Definition folder_service (folder service : json) : M pass unit :=
  service_name <- py_get service "name" (JStr "") ;;
  service_type <- py_get service "type" (JStr "") ;;
  let full_service_name := py_format folder ++ "/" ++ py_format service_name in
  match server_type service_type with
  | Some ty =>
      p <- get_state ;;
      let service_url :=
        api_base (self p) ++ "/" ++ full_service_name ++ "/" ++ ty in
      try_except
        (service_info <- lift_self (_get_service_info service_url) ;;
         if truthy service_info then
           let dataset_id :=
             PyStr.replace "/" "_" (PyStr.lower full_service_name) in
           title <- py_get service_info "serviceDescription" service_name ;;
           description <-
             py_get service_info "description"
               (JStr (py_format service_name
                      ++ " service from eThekwini municipality")) ;;
           layers <- py_get service_info "layers" (JArr []) ;;
           set_dataset dataset_id {|
             ds_id := dataset_id;
             ds_name := full_service_name;
             ds_title := title;
             ds_description := description;
             ds_type := ty;
             ds_url := service_url;
             ds_created := "";
             ds_updated := "";
             ds_tags :=
               [JStr "eThekwini"; JStr "municipality"; JStr "GIS"; folder];
             ds_categories := [JStr "Municipal Services"; folder];
             ds_owner := "eThekwini Municipality";
             ds_service_info := service_info;
             ds_layers := layers
           |} ;;
           set_service full_service_name {|
             se_name := full_service_name;
             se_url := service_url;
             se_type := ty;
             se_dataset_id := dataset_id;
             se_info := service_info
           |}
         else ret tt)
        (fun _ => ret tt)
  | None => ret tt
  end.

(** Lines 589-635: one iteration of the loop over the folders. *)
Definition folder_services (folder : json) : M pass unit :=
  try_except
    (p <- get_state ;;
     folder_response <-
       lift_self (client_get
         (catalog_request (api_base (self p) ++ "/" ++ py_format folder))) ;;
     if fst folder_response =? 200 then
       folder_data <- response_json (snd folder_response) ;;
       services <- py_get folder_data "services" (JArr []) ;;
       items <- py_iter services ;;
       for_each items (folder_service folder)
     else ret tt)
    (fun _ => ret tt).

(** Lines 541-638: the root catalog, its services, its folders. *)
Definition discover_catalog : M pass unit :=
  try_except
    (p <- get_state ;;
     services_response <-
       lift_self (client_get (catalog_request (api_base (self p)))) ;;
     if fst services_response =? 200 then
       services_data <- response_json (snd services_response) ;;
       services <- py_get services_data "services" (JArr []) ;;
       items <- py_iter services ;;
       for_each items root_service ;;
       folders <- py_get services_data "folders" (JArr []) ;;
       folder_items <- py_iter folders ;;
       for_each folder_items folder_services
     else ret tt)
    (fun _ => ret tt).

(** Lines 506-538: the loop over [self.known_services.items()]. *)
Definition discover_known : M pass unit :=
  p <- get_state ;;
  for_each (known_services (self p))
    (fun item => known_service (fst item) (snd item)).

(** The test of line 496; [now] is the reading of [time.time()] there.
    A timestamp is tested for truth: [None] and [0.0] are both false. *)
Definition fresh (force : bool) (stamp : option Q) (now : Q) : bool :=
  negb force &&
  match stamp with
  | None => false
  | Some t => negb (Qeq_bool t 0) && Qltb (now - t) (900 # 1)
  end.

(** [_refresh_datasets(force)]; [now] is the clock at line 496 and
    [done] the clock at line 642. *)
Definition _refresh_datasets (force : bool) (now done : Q) : M server unit :=
  fun s =>
    if fresh force (last_refresh s) now then (Ok tt, s)
    else
      let (r, p) :=
        try_except
          (discover_known ;; discover_catalog ;; modify (commit done))
          (fun _ => ret tt)
          {| self := s; all_datasets := []; all_services := [] |} in
      (r, self p).

(* ---------------------------------------------------------------- *)
(** *** Lookups in the cache *)

(** Lines 661-670: the text test of one dataset. *)
Definition text_matches {S} (query : string) (d : dataset_info) : M S bool :=
  if negb (query =? "")%string then
    tags_text <- py_join " " (ds_tags d) ;;
    joined <-
      py_join " "
        [JStr (ds_name d); ds_title d; ds_description d; JStr tags_text] ;;
    ret (PyStr.contains (PyStr.lower query) (PyStr.lower joined))
  else ret true.

(** [cat.lower() for cat in categories] *)
Fixpoint lower_all {S} (cats : list json) : M S (list string) :=
  match cats with
  | [] => ret []
  | c :: r => lc <- py_lower c ;; rest <- lower_all r ;; ret (lc :: rest)
  end.

(** [bool(category)] for the optional argument. *)
Definition category_given (category : option string) : bool :=
  match category with
  | Some c => negb (c =? "")%string
  | None => false
  end.

(** Lines 672-675: the category test of one dataset. *)
Definition category_matches {S} (category : option string) (d : dataset_info)
  : M S bool :=
  match category with
  | Some c =>
      dataset_categories <- lower_all (ds_categories d) ;;
      ret (existsb (String.eqb (PyStr.lower c)) dataset_categories)
  | None => ret true
  end.

(** Lines 657-680: the loop over [self.cached_datasets.items()], with
    its [break]. *)
Fixpoint search_loop {S} (query : string) (category : option string)
    (limit : Z) (items : pydict dataset_info) (results : list dataset_info)
  : M S (list dataset_info) :=
  match items with
  | [] => ret results
  | (_, d) :: rest =>
      by_text <- text_matches query d ;;
      matches <-
        (if category_given category && by_text
         then category_matches category d else ret by_text) ;;
      if (matches : bool) then
        let results' := (results ++ [d])%list in
        if Z.of_nat (List.length results') >=? limit then ret results'
        else search_loop query category limit rest results'
      else search_loop query category limit rest results
  end.

(** [_search_datasets(query, category, limit)] *)
Definition _search_datasets (query : string) (category : option string)
    (limit : Z) (now done : Q) : M server (list dataset_info) :=
  _refresh_datasets false now done ;;
  s <- get_state ;;
  search_loop query category limit (cached_datasets s) [].

(** Lines 693-698: the scan by name and title, and the error after it. *)
Fixpoint find_by_name {S} (dataset_id : string) (items : pydict dataset_info)
  : M S dataset_info :=
  match items with
  | [] => raise (ValueError ("Dataset not found: " ++ dataset_id))
  | (_, d) :: rest =>
      if (PyStr.lower (ds_name d) =? PyStr.lower dataset_id)%string then ret d
      else
        title <- py_lower (ds_title d) ;;
        if (title =? PyStr.lower dataset_id)%string then ret d
        else find_by_name dataset_id rest
  end.

(** [_get_dataset_info(dataset_id)] *)
Definition _get_dataset_info (dataset_id : string) (now done : Q)
  : M server dataset_info :=
  _refresh_datasets false now done ;;
  s <- get_state ;;
  match dict_get dataset_id (cached_datasets s) with
  | Some d => ret d
  | None => find_by_name dataset_id (cached_datasets s)
  end.

(* ---------------------------------------------------------------- *)
(** *** Bounding-box query and registration *)

(** [bool(buffer_distance)] for the optional argument. *)
Definition buffer_given (buffer_distance : option number) : bool :=
  match buffer_distance with
  | Some n => number_truthy n
  | None => false
  end.

(** [_spatial_query_by_coordinates] *)
Definition _spatial_query_by_coordinates (service_url : string) (layer_id : Z)
    (xmin ymin xmax ymax : number) (buffer_distance : option number)
    (max_records : Z) : M server json :=
  let service_url :=
    if negb (PyStr.endswith "/" service_url) then service_url ++ "/"
    else service_url in
  let query_url := service_url ++ PyStr.of_Z layer_id ++ "/query" in
  let geometry :=
    JObj [("xmin", JNum xmin); ("ymin", JNum ymin);
          ("xmax", JNum xmax); ("ymax", JNum ymax);
          ("spatialReference", JObj [("wkid", JNum (NInt 4326))])] in
  let params :=
    [("geometry", PStr (json_dumps geometry));
     ("geometryType", PStr "esriGeometryEnvelope");
     ("spatialRel", PStr "esriSpatialRelIntersects");
     ("where", PStr "1=1");
     ("outFields", PStr "*");
     ("returnGeometry", PStr "true");
     ("f", PStr "json");
     ("resultRecordCount", PNum (NInt max_records))] in
  let params :=
    match buffer_distance with
    | Some distance =>
        if number_truthy distance then
          dict_set "units" (PStr "esriSRUnit_Meter")
            (dict_set "distance" (PNum distance) params)
        else params
    | None => params
    end in
  response <-
    client_get {| req_url := query_url; req_params := params;
                  req_timeout := None |} ;;
  raise_for_status (fst response) ;;
  response_json (snd response).

(** [str(e)] of an exception; its text is not modelled. *)
Variable exn_str : exn -> string.

(** [_add_known_service(service_name, service_url)] *)
Definition _add_known_service (service_name service_url : string)
    (now done : Q) : M server string :=
  try_except
    (modify (fun s =>
       set_known_services
         (dict_set service_name service_url (known_services s)) s) ;;
     _refresh_datasets true now done ;;
     s <- get_state ;;
     ret ("Successfully added service '" ++ service_name ++ "' at "
          ++ service_url ++ ". Found "
          ++ PyStr.of_nat (List.length (cached_datasets s))
          ++ " total datasets."))
    (fun e =>
       ret ("Error adding service '" ++ service_name ++ "': " ++ exn_str e)).

(* ---------------------------------------------------------------- *)
(** *** The other query builders *)

(** [service_url] with the separator appended when it is missing. *)
Definition with_slash (service_url : string) : string :=
  if negb (PyStr.endswith "/" service_url) then service_url ++ "/"
  else service_url.

(** [_query_feature_layer] *)
Definition _query_feature_layer (service_url : string) (layer_id : Z)
    (where_ : string) (geometry : option string) (spatial_rel : string)
    (return_geometry : bool) (max_records : Z) (out_fields : string)
  : M server json :=
  let service_url := with_slash service_url in
  let query_url := service_url ++ PyStr.of_Z layer_id ++ "/query" in
  let params :=
    [("where", PStr where_);
     ("outFields", PStr out_fields);
     ("returnGeometry", PStr (PyStr.of_bool return_geometry));
     ("f", PStr "json");
     ("resultRecordCount", PNum (NInt max_records));
     ("spatialRel", PStr spatial_rel)] in
  let params :=
    match geometry with
    | Some g =>
        if negb (g =? "")%string then
          dict_set "geometryType" (PStr "esriGeometryPolygon")
            (dict_set "geometry" (PStr g) params)
        else params
    | None => params
    end in
  response <-
    client_get {| req_url := query_url; req_params := params;
                  req_timeout := None |} ;;
  raise_for_status (fst response) ;;
  response_json (snd response).

(** [_get_layer_statistics] *)
Definition _get_layer_statistics (service_url : string) (layer_id : Z)
    (field_name statistic_type where_ : string) : M server json :=
  let service_url := with_slash service_url in
  let query_url := service_url ++ PyStr.of_Z layer_id ++ "/query" in
  let out_statistics :=
    JArr [JObj [("statisticType", JStr statistic_type);
                ("onStatisticField", JStr field_name);
                ("outStatisticFieldName",
                 JStr (statistic_type ++ "_" ++ field_name))]] in
  let params :=
    [("where", PStr where_);
     ("outStatistics", PStr (json_dumps out_statistics));
     ("f", PStr "json")] in
  response <-
    client_get {| req_url := query_url; req_params := params;
                  req_timeout := None |} ;;
  raise_for_status (fst response) ;;
  response_json (snd response).

(** One entry of the [fields] list of [_get_layer_fields]. *)
Record layer_field : Type := {
  lf_name : json;
  lf_type : json;
  lf_alias : json;
  lf_length : json;
  lf_nullable : json;
  lf_editable : json
}.

(** The dictionary [fields_info]. *)
Record fields_info : Type := {
  layer_name : json;
  layer_description : json;
  geometry_type : json;
  fields : list layer_field
}.

(** Lines 818-826: the loop that appends one entry per field. *)
Fixpoint describe_fields {S} (items : list json) (acc : list layer_field)
  : M S (list layer_field) :=
  match items with
  | [] => ret acc
  | field :: rest =>
      name <- py_get field "name" (JStr "") ;;
      type <- py_get field "type" (JStr "") ;;
      alias <- py_get field "alias" (JStr "") ;;
      length <- py_get field "length" JNull ;;
      nullable <- py_get field "nullable" (JBool true) ;;
      editable <- py_get field "editable" (JBool false) ;;
      describe_fields rest
        (acc ++ [{| lf_name := name; lf_type := type; lf_alias := alias;
                    lf_length := length; lf_nullable := nullable;
                    lf_editable := editable |}])%list
  end.

(** [_get_layer_fields] *)
Definition _get_layer_fields (service_url : string) (layer_id : Z)
  : M server fields_info :=
  let service_url := with_slash service_url in
  let layer_url := service_url ++ PyStr.of_Z layer_id in
  response <-
    client_get {| req_url := layer_url; req_params := [("f", PStr "json")];
                  req_timeout := None |} ;;
  raise_for_status (fst response) ;;
  data <- response_json (snd response) ;;
  name <- py_get data "name" (JStr "") ;;
  description <- py_get data "description" (JStr "") ;;
  geometry <- py_get data "geometryType" (JStr "") ;;
  listed_fields <- py_get data "fields" (JArr []) ;;
  items <- py_iter listed_fields ;;
  described <- describe_fields items [] ;;
  ret {| layer_name := name; layer_description := description;
         geometry_type := geometry; fields := described |}.

(** [_query_leases_dataset] *)
Definition _query_leases_dataset (where_ : string) (layer_id : Z)
    (format : string) (max_records : Z) : M server json :=
  let leases_url :=
    "https://services3.arcgis.com/HO0zfySJshlD6Twu/arcgis/rest/services/Leases/FeatureServer" in
  let query_url := leases_url ++ "/" ++ PyStr.of_Z layer_id ++ "/query" in
  let params :=
    [("where", PStr where_);
     ("outFields", PStr "*");
     ("f", PStr format);
     ("resultRecordCount", PNum (NInt max_records))] in
  let params :=
    if (PyStr.lower format =? "geojson")%string
    then dict_set "returnGeometry" (PStr "true") params
    else params in
  response <-
    client_get {| req_url := query_url; req_params := params;
                  req_timeout := None |} ;;
  raise_for_status (fst response) ;;
  response_json (snd response).

(* ---------------------------------------------------------------- *)
(** *** The summary of categories and service types *)

(** The number that Python compares when a [bool], an [int] or a [float]
    is a dictionary key: [True == 1 == 1.0]. *)
Definition key_number (v : json) : option Q :=
  match v with
  | JBool b => Some (if b then 1 # 1 else 0 # 1)
  | JNum (NInt z) => Some (inject_Z z)
  | JNum (NFloat q) => Some q
  | _ => None
  end.

(** Equality of two values that can be hashed, as a dictionary sees it. *)
Definition key_eqb (a b : json) : bool :=
  match a, b with
  | JNull, JNull => true
  | JStr x, JStr y => (x =? y)%string
  | _, _ =>
      match key_number a, key_number b with
      | Some x, Some y => Qeq_bool x y
      | _, _ => false
      end
  end.

(** A dictionary whose keys are decoded values; the key that was written
    first stays when an equal key is written again. *)
Definition jdict (V : Type) : Type := list (json * V).

(** Lines 779-781: [if category not in categories: categories[category] = []]
    followed by [categories[category].append(name)]. *)
Fixpoint add_name (category : json) (name : string)
    (categories : jdict (list string)) : jdict (list string) :=
  match categories with
  | [] => [(category, [name])]
  | (k, names) :: rest =>
      if key_eqb category k then (k, (names ++ [name])%list) :: rest
      else (k, names) :: add_name category name rest
  end.

(** Lines 778-781: the loop over the categories of one dataset; a category
    that cannot be hashed raises. *)
Fixpoint add_categories {S} (cats : list json) (name : string)
    (categories : jdict (list string)) : M S (jdict (list string)) :=
  match cats with
  | [] => ret categories
  | category :: rest =>
      match category with
      | JArr _ | JObj _ => raise TypeError
      | _ => add_categories rest name (add_name category name categories)
      end
  end.

(** Lines 784-787: one more dataset of the type [service_type]. *)
Definition count_type (service_type : string) (service_types : pydict Z)
  : pydict Z :=
  let service_types :=
    if dict_mem service_type service_types then service_types
    else dict_set service_type 0 service_types in
  dict_set service_type
    (dict_get_default service_type 0 service_types + 1) service_types.

(** Lines 776-787: the loop over [self.cached_datasets.items()]. *)
Fixpoint summarize {S} (items : pydict dataset_info)
    (categories : jdict (list string)) (service_types : pydict Z)
  : M S (jdict (list string) * pydict Z) :=
  match items with
  | [] => ret (categories, service_types)
  | (_, dataset_info) :: rest =>
      categories <-
        add_categories (ds_categories dataset_info) (ds_name dataset_info)
          categories ;;
      summarize rest categories
        (count_type (ds_type dataset_info) service_types)
  end.

(** The dictionary that [_list_municipal_services] returns. *)
Record summary : Type := {
  sm_categories : jdict (list string);
  sm_service_types : pydict Z;
  sm_total_datasets : nat;
  sm_total_services : nat
}.

(** [_list_municipal_services] *)
Definition _list_municipal_services (now done : Q) : M server summary :=
  _refresh_datasets false now done ;;
  s <- get_state ;;
  found <- summarize (cached_datasets s) [] [] ;;
  ret {| sm_categories := fst found;
         sm_service_types := snd found;
         sm_total_datasets := List.length (cached_datasets s);
         sm_total_services := List.length (cached_services s) |}.

(* ---------------------------------------------------------------- *)
(** *** Reading a resource *)

(** [json.dumps(d, indent=2)] of a cached dataset and of a cached service;
    the text is not modelled. *)
Variable dumps_dataset : dataset_info -> string.
Variable dumps_service : service_entry -> string.

(** [handle_read_resource(uri)] *)
Definition handle_read_resource (uri : string) (now done : Q)
  : M server string :=
  if negb (String.prefix "ethekwini-gis://" uri) then
    raise (ValueError ("Unsupported URI scheme: " ++ uri))
  else
    let parts := PyStr.split "/" (PyStr.replace_all "ethekwini-gis://" "" uri) in
    let resource_type := match parts with p0 :: _ => p0 | [] => "" end in
    let resource_id := match parts with _ :: p1 :: _ => p1 | _ => "" end in
    _refresh_datasets false now done ;;
    s <- get_state ;;
    match (resource_type =? "dataset")%string,
          dict_get resource_id (cached_datasets s) with
    | true, Some d => ret (dumps_dataset d)
    | _, _ =>
        match (resource_type =? "service")%string,
              dict_get resource_id (cached_services s) with
        | true, Some e => ret (dumps_service e)
        | _, _ => raise (ValueError ("Resource not found: " ++ uri))
        end
    end.

End Server.

(* ================================================================== *)
(** * The vocabulary of the properties *)

(** ** Relations that every step of a computation respects *)

Class Rely {S : Type} (R : S -> S -> Prop) : Prop := {
  rely_refl : forall s, R s s;
  rely_trans : forall s1 s2 s3, R s1 s2 -> R s2 s3 -> R s1 s3
}.

(** [keeps R m]: whatever [m] does, and whether it returns or raises, the
    state it leaves is related to the state it found. *)
Definition keeps {S A} (R : S -> S -> Prop) (m : M S A) : Prop :=
  forall s, R s (exec m s).

(** Two states of [self] that differ at most in the log of requests. *)
Definition same_fields (s s' : server) : Prop :=
  api_base s' = api_base s /\
  cached_datasets s' = cached_datasets s /\
  cached_services s' = cached_services s /\
  last_refresh s' = last_refresh s /\
  known_services s' = known_services s.

(** A relation between the states of a pass that tolerates the three
    things a pass does: sending requests, [all_datasets[d["id"]] = d] and
    [all_services[k] = e]. *)
Class PassRely (R : pass -> pass -> Prop) : Prop := {
  pass_rely :: Rely R;
  rely_client : forall p s',
    same_fields (self p) s' ->
    R p {| self := s'; all_datasets := all_datasets p;
           all_services := all_services p |};
  rely_dataset : forall p d,
    R p {| self := self p;
           all_datasets := dict_set (ds_id d) d (all_datasets p);
           all_services := all_services p |};
  rely_service : forall p k e,
    R p {| self := self p; all_datasets := all_datasets p;
           all_services := dict_set k e (all_services p) |}
}.

(** The state in which a pass starts: both working dictionaries empty. *)
Definition start (s : server) : pass :=
  {| self := s; all_datasets := []; all_services := [] |}.

(** ** A stub remote for concrete runs *)

Module Demo.

Definition base : string := api_base init_server.

Definition leases_url : string := base ++ "/Leases/FeatureServer".

(** A remote that never answers. *)
Definition remote_down (h : list request) (r : request) : reply := Unreachable.

(** A remote that serves the known service [Leases], a root catalog with
    three services (one of which fails its probe, one of which is no
    feature or map service) and one folder with one service. *)
Definition remote_up (h : list request) (r : request) : reply :=
  let u := req_url r in
  if (u =? leases_url)%string then
    Http 200 (Some (JObj [("serviceDescription", JStr "Lease register");
                          ("layers", JArr [JObj [("id", JNum (NInt 0))];
                                           JObj [("id", JNum (NInt 1))]])]))
  else if (u =? base ++ "?f=json")%string then
    Http 200 (Some (JObj
      [("services",
        JArr [JObj [("name", JStr "LEASES"); ("type", JStr "MapServer")];
              JObj [("name", JStr "Roads"); ("type", JStr "FeatureServer")];
              JObj [("name", JStr "Tiles"); ("type", JStr "ImageServer")]]);
       ("folders", JArr [JStr "Planning"])]))
  else if (u =? base ++ "/LEASES/MapServer")%string then
    Http 200 (Some (JObj [("description", JStr "Leases as a map")]))
  else if (u =? base ++ "/Roads/FeatureServer")%string then
    Http 500 None
  else if (u =? base ++ "/Planning?f=json")%string then
    Http 200 (Some (JObj
      [("services",
        JArr [JObj [("name", JStr "Zoning"); ("type", JStr "FeatureServer")]])]))
  else if (u =? base ++ "/Planning/Zoning/FeatureServer")%string then
    Http 200 (Some (JObj [("layers", JArr [])]))
  else Unreachable.

(** A remote that serves [Leases] but whose root catalog has a body that
    does not decode. *)
Definition remote_catalog_broken (h : list request) (r : request) : reply :=
  let u := req_url r in
  if (u =? leases_url)%string then
    Http 200 (Some (JObj [("layers", JArr [])]))
  else if (u =? base ++ "?f=json")%string then Http 200 None
  else Unreachable.

(** A remote that answers every request with the same small descriptor. *)
Definition remote_same (h : list request) (r : request) : reply :=
  Http 200 (Some (JObj [("layers", JArr [])])).

(** Non-string values are never formatted in the concrete runs. *)
Definition repr (v : json) : string := "?".

Definition dumps (v : json) : string := "?".

Definition exn_text (e : exn) : string := "error".

(** A server that refreshed at second 100. *)
Definition refreshed_at_100 : server := {|
api_base := base;
cached_datasets := [];
cached_services := [];
last_refresh := Some (100 # 1);
known_services := known_services init_server;
client_log := []
|}.

(** The server after a forced discovery against [remote_up], stamped at
    second 11. *)
Definition populated : server :=
  exec (_refresh_datasets remote_up repr true (10 # 1) (11 # 1)) init_server.

(** The same server after a later forced discovery in which the root
    catalog fails. *)
Definition known_only : server :=
  exec (_refresh_datasets remote_catalog_broken repr true (30 # 1) (31 # 1))
    populated.

End Demo.

(** ** The words of the claims *)

(** The envelope that [_spatial_query_by_coordinates] serialises. *)
Definition envelope (xmin ymin xmax ymax : number) : json :=
  JObj [("xmin", JNum xmin); ("ymin", JNum ymin);
        ("xmax", JNum xmax); ("ymax", JNum ymax);
        ("spatialReference", JObj [("wkid", JNum (NInt 4326))])].

(** What the claim asks of the parameters of the request, buffer apart. *)
Definition envelope_params (dumps : json -> string)
    (xmin ymin xmax ymax : number) (params : pydict param_value) : Prop :=
  dict_get "geometry" params = Some (PStr (dumps (envelope xmin ymin xmax ymax))) /\
  dict_get "geometryType" params = Some (PStr "esriGeometryEnvelope") /\
  dict_get "spatialRel" params = Some (PStr "esriSpatialRelIntersects") /\
  dict_get "where" params = Some (PStr "1=1") /\
  dict_get "outFields" params = Some (PStr "*") /\
  dict_get "returnGeometry" params = Some (PStr "true").

(** The state in which the forced discovery of [_add_known_service]
    starts: the registry already holds the new entry. *)
Definition registered (service_name service_url : string) (s : server) : server :=
  set_known_services (dict_set service_name service_url (known_services s)) s.




(** The strings of a list whose items are all strings. *)
Fixpoint strings_of (items : list json) : option (list string) :=
  match items with
  | [] => Some []
  | JStr s :: r =>
      match strings_of r with Some l => Some (s :: l) | None => None end
  | _ :: _ => None
  end.

(** The text that line 662 builds: name, title, description and the tags,
    joined by single spaces. It exists when all of them are strings. *)
Definition searchable_text (d : dataset_info) : option string :=
  match ds_title d, ds_description d, strings_of (ds_tags d) with
  | JStr title, JStr description, Some tags =>
      Some (String.concat " "
              [ds_name d; title; description; String.concat " " tags])
  | _, _, _ => None
  end.

(** The text test, as a function. *)
Definition by_text (query : string) (d : dataset_info) : bool :=
  (query =? "")%string ||
  match searchable_text d with
  | Some text => PyStr.contains (PyStr.lower query) (PyStr.lower text)
  | None => false
  end.

(** The category test, as a function. *)
Definition by_category (category : option string) (d : dataset_info) : bool :=
  negb (category_given category) ||
  match category, strings_of (ds_categories d) with
  | Some c, Some cats =>
      existsb (String.eqb (PyStr.lower c)) (map PyStr.lower cats)
  | _, _ => false
  end.

Definition is_match (query : string) (category : option string)
    (d : dataset_info) : bool :=
  by_text query d && by_category category d.

(** The text test, as the claim words it: the query is empty, or its
    lowercase occurs in the lowercase of the joined text. *)
Definition text_match (query : string) (d : dataset_info) : Prop :=
  query = "" \/
  exists text,
    searchable_text d = Some text /\
    exists before after,
      PyStr.lower text = before ++ PyStr.lower query ++ after.

(** The category test, as the claim words it, for a category that is
    given and not empty. *)
Definition category_match (category : option string) (d : dataset_info) : Prop :=
  forall c, category = Some c -> c <> "" ->
    exists cats,
      strings_of (ds_categories d) = Some cats /\
      In (PyStr.lower c) (map PyStr.lower cats).

(** The records on which neither test can raise. *)
Definition well_typed (d : dataset_info) : Prop :=
  (exists t, ds_title d = JStr t) /\
  (exists t, ds_description d = JStr t) /\
  (exists l, strings_of (ds_tags d) = Some l) /\
  (exists l, strings_of (ds_categories d) = Some l).

(** The value of a computation that returned. *)
Definition returned {A} (r : result A) : option A :=
  match r with
  | Ok a => Some a
  | Raise _ => None
  end.

(** The three dictionaries that the walk builds for a dataset, as functions
    of a descriptor that is a dictionary. *)
Definition known_dataset (service_name service_url : string)
    (info : pydict json) : dataset_info := {|
  ds_id := PyStr.lower service_name;
  ds_name := service_name;
  ds_title := dict_get_default "serviceDescription" (JStr service_name) info;
  ds_description :=
    dict_get_default "description"
      (JStr (service_name ++ " feature service from eThekwini municipality"))
      info;
  ds_type := "Feature Service";
  ds_url := service_url;
  ds_created := "";
  ds_updated := "";
  ds_tags := [JStr "eThekwini"; JStr "municipality"; JStr "GIS"];
  ds_categories := [JStr "Municipal Services"];
  ds_owner := "eThekwini Municipality";
  ds_service_info := JObj info;
  ds_layers := dict_get_default "layers" (JArr []) info
|}.

Definition root_dataset (service_name service_type service_url : string)
    (info : pydict json) : dataset_info := {|
  ds_id := PyStr.lower service_name;
  ds_name := service_name;
  ds_title := dict_get_default "serviceDescription" (JStr service_name) info;
  ds_description :=
    dict_get_default "description"
      (JStr (service_name ++ " service from eThekwini municipality")) info;
  ds_type := service_type;
  ds_url := service_url;
  ds_created := "";
  ds_updated := "";
  ds_tags := [JStr "eThekwini"; JStr "municipality"; JStr "GIS"];
  ds_categories := [JStr "Municipal Services"];
  ds_owner := "eThekwini Municipality";
  ds_service_info := JObj info;
  ds_layers := dict_get_default "layers" (JArr []) info
|}.

(** The entry of [all_services] that goes with a dataset. *)
Definition entry_of (d : dataset_info) : service_entry := {|
  se_name := ds_name d;
  se_url := ds_url d;
  se_type := ds_type d;
  se_dataset_id := ds_id d;
  se_info := ds_service_info d
|}.

(** The state after a request went out. *)
Definition sent (r : request) (p : pass) : pass := {|
  self := set_client_log (client_log (self p) ++ [r])%list (self p);
  all_datasets := all_datasets p;
  all_services := all_services p
|}.

(** The state after the two assignments that record a dataset. *)
Definition inserted (d : dataset_info) (p : pass) : pass := {|
  self := self p;
  all_datasets := dict_set (ds_id d) d (all_datasets p);
  all_services := dict_set (ds_name d) (entry_of d) (all_services p)
|}.

(** What [_get_service_info] makes of a reply. *)
Definition decoded (rep : reply) : json :=
  match rep with
  | Http status (Some v) => if status =? 200 then v else JNull
  | _ => JNull
  end.

(** A descriptor that passes [if service_info:] and has [get]: a
    dictionary that is not empty. *)
Definition descriptor (v : json) : option (pydict json) :=
  match v with
  | JObj (x :: r) => Some (x :: r)
  | _ => None
  end.

(** The walk never forgets: the fields of [self] other than the log stay,
    and both working dictionaries keep every key they have. *)
Definition extends (p p' : pass) : Prop :=
  same_fields (self p) (self p') /\
  incl (dict_keys (all_datasets p)) (dict_keys (all_datasets p')) /\
  incl (dict_keys (all_services p)) (dict_keys (all_services p')).

(** The root catalog probe throws: the request gets no answer, or the body
    of a 200 answer does not decode. *)
Definition throws (rep : reply) : Prop :=
  rep = Unreachable \/ rep = Http 200 None.

(** The keys are pairwise distinct and every key is the [id] of its
    record. *)
Definition cache_ok (d : pydict dataset_info) : Prop :=
  NoDup (dict_keys d) /\ forall k x, In (k, x) d -> ds_id x = k.

(** The step [m] records [d] without raising, and when the identifier of
    [d] was already a key of the working set it takes over that key: the
    record that was there is replaced, in place, and no key is added. *)
Definition overwrites (m : M pass unit) (d : dataset_info) (p : pass) : Prop :=
  eval m p = Ok tt /\
  dict_get (ds_id d) (all_datasets (exec m p)) = Some d /\
  (In (ds_id d) (dict_keys (all_datasets p)) ->
   dict_keys (all_datasets (exec m p)) = dict_keys (all_datasets p)).

(** The record that a step leaves under [key] has [text] as description. *)
Definition described (m : M pass unit) (p : pass) (key text : string) : Prop :=
  exists d,
    dict_get key (all_datasets (exec m p)) = Some d /\
    ds_description d = JStr text.

(** The record that a step leaves under [key] has the value [v] as
    description, whatever [v] is. *)
Definition description_is (m : M pass unit) (p : pass) (key : string)
    (v : json) : Prop :=
  exists d,
    dict_get key (all_datasets (exec m p)) = Some d /\
    ds_description d = v.

(** The record that a step leaves under [key] has [key] as identifier and
    [name] as name. *)
Definition identified (m : M pass unit) (p : pass) (key name : string) : Prop :=
  exists d,
    dict_get key (all_datasets (exec m p)) = Some d /\
    ds_id d = key /\
    ds_name d = name.

(** The remote answers the metadata probe of [u] with the descriptor
    [info], a dictionary that is not empty, whatever was asked before. *)
Definition serves (remote : list request -> request -> reply)
    (u : string) (info : pydict json) : Prop :=
  (forall h, remote h (info_request u) = Http 200 (Some (JObj info))) /\
  info <> [].

(** The remote answers the catalog probe of [base] with the listing
    [cat], whatever was asked before. *)
Definition lists (remote : list request -> request -> reply)
    (base : string) (cat : pydict json) : Prop :=
  forall h, remote h (catalog_request base) = Http 200 (Some (JObj cat)).

(** Both working dictionaries of [p] hold the dataset: its identifier is a
    key of the datasets and its name a key of the services. *)
Definition holds (p : pass) (dataset_id name : string) : Prop :=
  In dataset_id (dict_keys (all_datasets p)) /\
  In name (dict_keys (all_services p)).

(** The cache of [s] holds the dataset. *)
Definition cached (s : server) (dataset_id name : string) : Prop :=
  In dataset_id (dict_keys (cached_datasets s)) /\
  In name (dict_keys (cached_services s)).

(** ** The words of the further properties *)

(** What a data query makes of a reply: the decoded body of a success, or
    the exception that the caller sees. *)
Definition fetched (rep : reply) : result json :=
  match rep with
  | Unreachable => Raise NetworkError
  | Http status body =>
      if (200 <=? status) && (status <=? 299) then
        match body with
        | Some v => Ok v
        | None => Raise JSONDecodeError
        end
      else Raise (HTTPStatusError status)
  end.


(** A data query sent [r]: its result is what [fetched] makes of the
    reply, the log has grown by [r] alone and no other field changed. *)
Definition surfaces (remote : list request -> request -> reply)
    (m : M server json) (s : server) : Prop :=
  exists r,
    m s = (fetched (remote (client_log s) r),
           set_client_log (client_log s ++ [r])%list s).

(** The parameters of [_query_feature_layer] that do not depend on the
    geometry. *)
Definition feature_params (where_ out_fields spatial_rel : string)
    (return_geometry : bool) (max_records : Z)
    (params : pydict param_value) : Prop :=
  dict_get "where" params = Some (PStr where_) /\
  dict_get "outFields" params = Some (PStr out_fields) /\
  dict_get "returnGeometry" params
  = Some (PStr (if return_geometry then "true" else "false")) /\
  dict_get "f" params = Some (PStr "json") /\
  dict_get "resultRecordCount" params = Some (PNum (NInt max_records)) /\
  dict_get "spatialRel" params = Some (PStr spatial_rel).

(** [bool(geometry)] for the optional argument. *)
Definition geometry_given (geometry : option string) : bool :=
  match geometry with
  | Some g => negb (g =? "")%string
  | None => false
  end.



(** The scheme of the resource URIs. *)
Definition scheme : string := "ethekwini-gis://".

(** The URI of the resource [rid] of the kind [kind], followed by [rest]. *)
Definition resource_uri (kind rid rest : string) : string :=
  scheme ++ kind ++ "/" ++ rid ++ rest.

(** What may follow the identifier in a URI: nothing, or a slash and more. *)
Definition trailing (rest : string) : Prop :=
  rest = "" \/ exists t, rest = "/" ++ t.

(** Two servers with the same address and registry, and with logs of
    requests that are related by [L]. *)
Definition same_upto (L : list request -> list request -> Prop)
    (s1 s2 : server) : Prop :=
  api_base s1 = api_base s2 /\
  known_services s1 = known_services s2 /\
  L (client_log s1) (client_log s2).

(** Two servers with the same address, registry and log of requests: they
    differ at most in what is cached and in the timestamp. *)
Definition same_inputs (s1 s2 : server) : Prop := same_upto eq s1 s2.

(** Two states of a pass with the same working dictionaries, over servers
    with the same inputs. *)
Definition agree (L : list request -> list request -> Prop) (p q : pass)
  : Prop :=
  same_upto L (self p) (self q) /\
  all_datasets p = all_datasets q /\
  all_services p = all_services q.

(** [m] reads nothing else: from two states that agree it gives the same
    result and leaves two states that agree. *)
Definition respects (L : list request -> list request -> Prop) {A}
    (m : M pass A) : Prop :=
  forall p q, agree L p q ->
    fst (m p) = fst (m q) /\ agree L (snd (m p)) (snd (m q)).

(** The remote cannot tell two logs that [L] relates, and [L] still
    relates them after the same request was added to both. *)
Definition blind (remote : list request -> request -> reply)
    (L : list request -> list request -> Prop) : Prop :=
  (forall h h' r, L h h' -> remote h r = remote h' r) /\
  (forall h h' r, L h h' -> L (h ++ [r])%list (h' ++ [r])%list).

(** The answers of the remote do not depend on what was asked before. *)
Definition stateless (remote : list request -> request -> reply) : Prop :=
  forall h h' r, remote h r = remote h' r.

(** An entry of the root listing that the guard of line 552 passes over:
    a dictionary whose type is neither a feature nor a map service, or
    whose name is a string that is in the registry. *)
Definition passed_over (known : pydict string) (x : json) : Prop :=
  exists e,
    x = JObj e /\
    (server_type (dict_get_default "type" (JStr "") e) = None \/
     exists sn,
       dict_get_default "name" (JStr "") e = JStr sn /\
       dict_mem sn known = true).

(** The URL that [_query_leases_dataset] queries. *)
Definition leases_service : string :=
  "https://services3.arcgis.com/HO0zfySJshlD6Twu/arcgis/rest/services/Leases/FeatureServer".

Section Vocabulary.
Variable remote : list request -> request -> reply.
Variable py_repr : json -> string.

(** The walk of lines 505-638: known services, then the catalog. *)
Definition walk : M pass unit :=
  discover_known remote ;; discover_catalog remote py_repr.

(** [f"{folder}/{service_name}"] *)
Definition qualified (folder service_name : json) : string :=
  py_format py_repr folder ++ "/" ++ py_format py_repr service_name.

Definition folder_dataset (folder service_name : json)
    (service_type service_url : string) (info : pydict json) : dataset_info := {|
  ds_id := PyStr.replace "/" "_" (PyStr.lower (qualified folder service_name));
  ds_name := qualified folder service_name;
  ds_title := dict_get_default "serviceDescription" service_name info;
  ds_description :=
    dict_get_default "description"
      (JStr (py_format py_repr service_name
             ++ " service from eThekwini municipality")) info;
  ds_type := service_type;
  ds_url := service_url;
  ds_created := "";
  ds_updated := "";
  ds_tags := [JStr "eThekwini"; JStr "municipality"; JStr "GIS"; folder];
  ds_categories := [JStr "Municipal Services"; folder];
  ds_owner := "eThekwini Municipality";
  ds_service_info := JObj info;
  ds_layers := dict_get_default "layers" (JArr []) info
|}.

(** The reply that the probe of [u] gets in state [p]. *)
Definition probe (u : string) (p : pass) : json :=
  decoded (remote (client_log (self p)) (info_request u)).

(** A value that can be looked up in a dictionary. *)
Definition hashable (v : json) : Prop :=
  match v with
  | JArr _ | JObj _ => False
  | _ => True
  end.

(** The entry [x] of a listing is a dictionary that lists the service
    [name] with a type [ty] that is a feature or a map service. *)
Definition listed (x : json) (name : json) (ty : string) : Prop :=
  exists e,
    x = JObj e /\
    dict_get_default "name" (JStr "") e = name /\
    server_type (dict_get_default "type" (JStr "") e) = Some ty.

(** An entry of the root listing on which the loop body cannot raise: a
    dictionary whose name, when its type qualifies, can be hashed. *)
Definition root_entry_ok (x : json) : Prop :=
  exists e,
    x = JObj e /\
    (server_type (dict_get_default "type" (JStr "") e) = None \/
     hashable (dict_get_default "name" (JStr "") e)).

Definition is_object (x : json) : Prop := exists e, x = JObj e.

(** Lines 588-635, once the root listing is decoded. *)
Definition folders_part (services_data : json) : M pass unit :=
  folders <- py_get services_data "folders" (JArr []) ;;
  folder_items <- py_iter folders ;;
  for_each folder_items (folder_services remote py_repr).

(** The reply of the root catalog in state [p]. *)
Definition catalog_reply (p : pass) : reply :=
  remote (client_log (self p)) (catalog_request (api_base (self p))).

(** The reply of the catalog of [folder] in state [p]. *)
Definition folder_reply (folder : json) (p : pass) : reply :=
  remote (client_log (self p))
    (catalog_request (api_base (self p) ++ "/" ++ py_format py_repr folder)).

(** The state in which the loop over the root services starts. *)
Definition at_catalog (s : server) : pass :=
  sent (catalog_request (api_base s)) (exec (discover_known remote) (start s)).

(** The cached datasets that have the type [ty]. *)
Definition of_type (ty : string) (cache : pydict dataset_info)
  : list dataset_info :=
  filter (fun d => (ds_type d =? ty)%string) (dict_values cache).

(** What a dictionary of counts holds for something counted [n] times:
    nothing at all when [n] is zero. *)
Definition counted (n : nat) : option Z :=
  match n with
  | O => None
  | _ => Some (Z.of_nat n)
  end.

(** The sum of the counts. *)
Definition total (counts : pydict Z) : Z :=
  fold_right Z.add 0 (dict_values counts).

(** The summary lists the name [n] under a key equal to the category [c]. *)
Definition files (categories : jdict (list string)) (c : json) (n : string)
  : Prop :=
  exists key names,
    In (key, names) categories /\ key_eqb c key = true /\ In n names.

(** A remote that answers every request with the same listing: one service
    at the root, and one folder whose name is a list, not a string. *)
Definition remote_list_folder (h : list request) (r : request) : reply :=
  Http 200 (Some (JObj
    [("services",
      JArr [JObj [("name", JStr "Zoning"); ("type", JStr "FeatureServer")]]);
     ("folders", JArr [JArr []])])).

(** The counts after the loop of lines 776-787 went over [items]. *)
Definition count_all (items : pydict dataset_info) (t : pydict Z) : pydict Z :=
  fold_left (fun t kv => count_type (ds_type (snd kv)) t) items t.

(** The categories after the loop of lines 776-787 went over [items]. *)
Definition file_all (items : pydict dataset_info) (acc : jdict (list string))
  : jdict (list string) :=
  fold_left
    (fun a kv =>
       fold_left (fun a c => add_name c (ds_name (snd kv)) a)
         (ds_categories (snd kv)) a)
    items acc.

(** Every category of every record can be hashed. *)
Definition hashable_categories (items : pydict dataset_info) : Prop :=
  Forall (fun d => Forall hashable (ds_categories d)) (dict_values items).

(** The record [d] was built from the descriptor [info] that the probe of
    [u] returned: the fields that all three loops fill in the same way. *)
Definition recorded_from (u : string) (info : pydict json) (d : dataset_info)
  : Prop :=
  ds_url d = u /\
  ds_service_info d = JObj info /\
  ds_layers d = dict_get_default "layers" (JArr []) info /\
  (forall t, dict_get "serviceDescription" info = Some t -> ds_title d = t) /\
  (forall t, dict_get "description" info = Some t -> ds_description d = t) /\
  (exists more,
      ds_tags d
      = JStr "eThekwini" :: JStr "municipality" :: JStr "GIS" :: more) /\
  (exists more, ds_categories d = JStr "Municipal Services" :: more) /\
  (ds_type d = "Feature Service" \/
   ds_type d = "FeatureServer" \/ ds_type d = "MapServer").

(** A relation between the states of a pass that tolerates the two things
    an iteration does as a whole: sending a request, and recording the
    dataset built from the descriptor that the probe just returned. *)
Class Grows (R : pass -> pass -> Prop) : Prop := {
  grows_rely :: Rely R;
  grows_sent : forall r p, R p (sent r p);
  grows_recorded : forall u info d p,
    descriptor (probe u p) = Some info ->
    recorded_from u info d ->
    R p (inserted d (sent (info_request u) p))
}.

(** The log of [p'] is the log of [p] with more requests after it. *)
Definition log_extends (p p' : pass) : Prop :=
  exists l, client_log (self p') = (client_log (self p) ++ l)%list.

(** The remote served the record [d]: among the requests sent after those
    of [before] there is the metadata probe of the URL of [d], and the
    answer to it was the descriptor from which [d] was built, a dictionary
    that is not empty, with status 200. *)
Definition served (before log : list request) (d : dataset_info) : Prop :=
  exists sooner later info,
    log = ((before ++ sooner) ++ info_request (ds_url d) :: later)%list /\
    remote (before ++ sooner)%list (info_request (ds_url d))
    = Http 200 (Some (JObj info)) /\
    info <> [] /\
    recorded_from (ds_url d) info d.

(** Every dataset of the working set was served after [before]. *)
Definition sourced (before : list request) (p : pass) : Prop :=
  (exists l, client_log (self p) = (before ++ l)%list) /\
  forall k d, In (k, d) (all_datasets p) -> served before (client_log (self p)) d.

(** The two dictionaries refer to each other: every service entry is
    stored under its own name and names a dataset that is there, every
    dataset has a service entry under its name, and no service name is
    there twice. *)
Definition linked (datasets : pydict dataset_info)
    (services : pydict service_entry) : Prop :=
  (forall k e, In (k, e) services ->
     se_name e = k /\ In (se_dataset_id e) (dict_keys datasets)) /\
  (forall k d, In (k, d) datasets -> In (ds_name d) (dict_keys services)) /\
  NoDup (dict_keys services).

End Vocabulary.

(* ================================================================== *)
(** * Properties *)

(** ** Strings and dictionaries *)

Lemma Qltb_lt (x y : Q) : Qltb x y = true <-> (x < y)%Q.
Proof.
  unfold Qltb. rewrite negb_true_iff. split.
  - intros H. apply Qnot_le_lt. intros Hle.
    apply Qle_bool_iff in Hle. congruence.
  - intros H. destruct (Qle_bool y x) eqn:E; [|reflexivity].
    apply Qle_bool_iff in E. exfalso. exact (Qlt_not_le _ _ H E).
Qed.

Section PyDictFacts.
Variable V : Type.
Implicit Types (d : pydict V) (k : string) (v : V).

Lemma dict_get_set_same k v d : dict_get k (dict_set k v d) = Some v.
Proof.
  induction d as [|[k' v'] r IH]; simpl.
  - now rewrite String.eqb_refl.
  - destruct (k =? k')%string eqn:E; simpl; rewrite ?E, ?String.eqb_refl; auto.
Qed.

Lemma dict_get_set_other k k' v d :
  k' <> k -> dict_get k' (dict_set k v d) = dict_get k' d.
Proof.
  intros Hne. induction d as [|[k0 v0] r IH]; simpl.
  - apply String.eqb_neq in Hne. now rewrite Hne.
  - destruct (k =? k0)%string eqn:E; simpl.
    + apply String.eqb_eq in E. subst k0.
      apply String.eqb_neq in Hne. now rewrite Hne.
    + now rewrite IH.
Qed.

Lemma dict_get_In k v d : dict_get k d = Some v -> In (k, v) d.
Proof.
  induction d as [|[k' v'] r IH]; simpl; [discriminate|].
  destruct (k =? k')%string eqn:E.
  - apply String.eqb_eq in E. intros [= ->]. subst. now left.
  - intros H. right. auto.
Qed.

Lemma dict_get_None k d : dict_get k d = None <-> ~ In k (dict_keys d).
Proof.
  induction d as [|[k' v'] r IH]; simpl.
  - tauto.
  - destruct (k =? k')%string eqn:E.
    + apply String.eqb_eq in E. subst. split; [discriminate|]. tauto.
    + apply String.eqb_neq in E. rewrite IH. split.
      * intros Hn [H|H]; [congruence|tauto].
      * tauto.
Qed.

Lemma dict_get_Some_key k v d : dict_get k d = Some v -> In k (dict_keys d).
Proof.
  intros H. apply dict_get_In in H.
  unfold dict_keys. change k with (fst (k, v)). now apply in_map.
Qed.

(** Assignment keeps every key and adds at most its own. *)
Lemma dict_set_keys k k' v d :
  In k' (dict_keys (dict_set k v d)) <-> k' = k \/ In k' (dict_keys d).
Proof.
  induction d as [|[k0 v0] r IH]; simpl.
  - intuition.
  - destruct (k =? k0)%string eqn:E; simpl.
    + apply String.eqb_eq in E. subst k0. intuition.
    + rewrite IH. intuition.
Qed.

(** Assignment to a key that is present changes no key and no position. *)
Lemma dict_set_present_keys k v d :
  In k (dict_keys d) -> dict_keys (dict_set k v d) = dict_keys d.
Proof.
  induction d as [|[k0 v0] r IH]; simpl; [tauto|].
  destruct (k =? k0)%string eqn:E; simpl.
  - apply String.eqb_eq in E. now subst.
  - apply String.eqb_neq in E. intros [H|H]; [congruence|].
    now rewrite IH.
Qed.

(** Assignment to a key that is absent appends it. *)
Lemma dict_set_absent k v d :
  ~ In k (dict_keys d) -> dict_set k v d = (d ++ [(k, v)])%list.
Proof.
  induction d as [|[k0 v0] r IH]; simpl; [reflexivity|].
  intros Hn. destruct (k =? k0)%string eqn:E.
  - apply String.eqb_eq in E. subst. tauto.
  - rewrite IH; tauto.
Qed.

Lemma dict_set_NoDup k v d :
  NoDup (dict_keys d) -> NoDup (dict_keys (dict_set k v d)).
Proof.
  induction d as [|[k0 v0] r IH]; simpl; intros H.
  - constructor; [simpl; tauto | constructor].
  - inversion H as [|? ? Hnotin Hnd]; subst.
    destruct (k =? k0)%string eqn:E; simpl.
    + apply String.eqb_eq in E. subst. now constructor.
    + constructor; [|now apply IH].
      fold (dict_keys (dict_set k v r)). rewrite dict_set_keys.
      apply String.eqb_neq in E. intros [H1|H1]; [congruence|tauto].
Qed.

(** Every binding after an assignment is the new one or an old one. *)
Lemma dict_set_In k v d k' v' :
  In (k', v') (dict_set k v d) -> (k' = k /\ v' = v) \/ In (k', v') d.
Proof.
  induction d as [|[k0 v0] r IH]; simpl.
  - intros [[= <- <-]|[]]. now left.
  - destruct (k =? k0)%string eqn:E; simpl.
    + intros [[= <- <-]|H]; [now left | right; now right].
    + intros [H|H]; [right; now left|].
      destruct (IH H) as [?|?]; [now left | right; now right].
Qed.

(** In a dictionary without repeated keys a binding is what [get] finds. *)
Lemma dict_In_get k v d :
  NoDup (dict_keys d) -> In (k, v) d -> dict_get k d = Some v.
Proof.
  induction d as [|[k0 v0] r IH]; simpl; [tauto|].
  intros Hnd [H|H].
  - injection H as -> ->. now rewrite String.eqb_refl.
  - inversion Hnd as [|? ? Hnotin Hnd']; subst.
    destruct (k =? k0)%string eqn:E; [|auto].
    apply String.eqb_eq in E. subst k0. exfalso. apply Hnotin.
    change k with (fst (k, v)). now apply in_map.
Qed.

End PyDictFacts.

(** ** Running computations *)

Section MonadFacts.
Variable S : Type.

Lemma bind_ok {A B} (m : M S A) (k : A -> M S B) s a :
  eval m s = Ok a -> bind m k s = k a (exec m s).
Proof.
  unfold eval, exec, bind. destruct (m s) as [[x|e] s']; simpl; congruence.
Qed.

Lemma bind_raise {A B} (m : M S A) (k : A -> M S B) s e :
  eval m s = Raise e -> bind m k s = (Raise e, exec m s).
Proof.
  unfold eval, exec, bind. destruct (m s) as [[x|e'] s']; simpl; congruence.
Qed.

Lemma try_ok {A} (m : M S A) h s a :
  eval m s = Ok a -> try_except m h s = (Ok a, exec m s).
Proof.
  unfold eval, exec, try_except.
  destruct (m s) as [[x|e] s']; simpl; congruence.
Qed.

Lemma try_raise {A} (m : M S A) h s e :
  eval m s = Raise e -> try_except m h s = h e (exec m s).
Proof.
  unfold eval, exec, try_except.
  destruct (m s) as [[x|e'] s']; simpl; congruence.
Qed.

Lemma run_eta {A} (m : M S A) s : m s = (eval m s, exec m s).
Proof. unfold eval, exec. now destruct (m s). Qed.

(** A handler that swallows the exception makes the block total. *)
Lemma try_swallow (m : M S unit) s :
  eval (try_except m (fun _ => ret tt)) s = Ok tt.
Proof.
  unfold eval, try_except. destruct (m s) as [[[]|e] s']; reflexivity.
Qed.

(** The state left by such a block is the state left by its body. *)
Lemma try_swallow_exec (m : M S unit) s :
  exec (try_except m (fun _ => ret tt)) s = exec m s.
Proof.
  unfold exec, try_except. destruct (m s) as [[[]|e] s']; reflexivity.
Qed.

Lemma for_each_total {A} (l : list A) (body : A -> M S unit) :
  (forall x s, In x l -> eval (body x) s = Ok tt) ->
  forall s, eval (for_each l body) s = Ok tt.
Proof.
  induction l as [|x r IH]; intros Hb s; simpl.
  - reflexivity.
  - unfold eval. rewrite bind_ok with (a := tt) by (apply Hb; now left).
    apply IH. intros y s' Hy. apply Hb. now right.
Qed.

Lemma for_each_cons_exec {A} (x : A) r (body : A -> M S unit) s :
  eval (body x) s = Ok tt ->
  exec (for_each (x :: r) body) s = exec (for_each r body) (exec (body x) s).
Proof.
  intros H. unfold exec at 1. simpl. now rewrite bind_ok with (a := tt).
Qed.

End MonadFacts.

(** ** The rules of [keeps] *)

Section Keeps.
Context {S : Type} (R : S -> S -> Prop) `{!Rely R}.

Lemma keeps_ret {A} (a : A) : keeps R (ret a).
Proof. intros s. apply rely_refl. Qed.

Lemma keeps_raise {A} e : keeps R (@raise S A e).
Proof. intros s. apply rely_refl. Qed.

Lemma keeps_get_state : keeps R (@get_state S).
Proof. intros s. apply rely_refl. Qed.

Lemma keeps_bind {A B} (m : M S A) (k : A -> M S B) :
  keeps R m -> (forall a, keeps R (k a)) -> keeps R (bind m k).
Proof.
  intros Hm Hk s. specialize (Hm s). unfold exec, bind in *.
  destruct (m s) as [[a|e] s']; simpl in *; [|exact Hm].
  eapply rely_trans; [exact Hm | apply Hk].
Qed.

Lemma keeps_try {A} (m : M S A) h :
  keeps R m -> (forall e, keeps R (h e)) -> keeps R (try_except m h).
Proof.
  intros Hm Hh s. specialize (Hm s). unfold exec, try_except in *.
  destruct (m s) as [[a|e] s']; simpl in *; [exact Hm|].
  eapply rely_trans; [exact Hm | apply Hh].
Qed.

Lemma keeps_for_each {A} (l : list A) (body : A -> M S unit) :
  (forall x, keeps R (body x)) -> keeps R (for_each l body).
Proof.
  intros Hb. induction l as [|x r IH]; simpl.
  - apply keeps_ret.
  - apply keeps_bind; auto.
Qed.

Lemma keeps_py_get v k d : keeps R (@py_get S v k d).
Proof. destruct v; simpl; auto using @keeps_ret, @keeps_raise. Qed.

Lemma keeps_py_iter v : keeps R (@py_iter S v).
Proof. destruct v; simpl; auto using @keeps_ret, @keeps_raise. Qed.

Lemma keeps_py_lower v : keeps R (@py_lower S v).
Proof. destruct v; simpl; auto using @keeps_ret, @keeps_raise. Qed.

Lemma keeps_py_len v : keeps R (@py_len S v).
Proof. destruct v; simpl; auto using @keeps_ret, @keeps_raise. Qed.

Lemma keeps_py_in_dict {V} v (d : pydict V) : keeps R (@py_in_dict S V v d).
Proof. destruct v; simpl; auto using @keeps_ret, @keeps_raise. Qed.

Lemma keeps_response_json body : keeps R (@response_json S body).
Proof. destruct body; simpl; auto using @keeps_ret, @keeps_raise. Qed.

End Keeps.

Ltac rely_inst :=
  lazymatch goal with
  | |- Rely _ => typeclasses eauto
  | _ => idtac
  end.

(** One step of a proof that a block of the program keeps a relation:
    the rule of the construct at its head. *)
Ltac keeps_step :=
  lazymatch goal with
  | |- keeps _ (bind _ _) => apply keeps_bind; rely_inst; [|intros ?]
  | |- keeps _ (try_except _ _) => apply keeps_try; rely_inst; [|intros ?]
  | |- keeps _ (ret _) => apply keeps_ret; rely_inst
  | |- keeps _ (raise _) => apply keeps_raise; rely_inst
  | |- keeps _ get_state => apply keeps_get_state; rely_inst
  | |- keeps _ (for_each _ _) => apply keeps_for_each; rely_inst; intros ?
  | |- keeps _ (py_get _ _ _) => apply keeps_py_get; rely_inst
  | |- keeps _ (py_iter _) => apply keeps_py_iter; rely_inst
  | |- keeps _ (py_lower _) => apply keeps_py_lower; rely_inst
  | |- keeps _ (py_len _) => apply keeps_py_len; rely_inst
  | |- keeps _ (py_in_dict _ _) => apply keeps_py_in_dict; rely_inst
  | |- keeps _ (response_json _) => apply keeps_response_json; rely_inst
  | |- keeps _ (if ?b then _ else _) => destruct b
  | |- keeps _ (match ?x with _ => _ end) => destruct x
  end.

Ltac keeps_tac := repeat (cbv zeta; keeps_step); try assumption.

(** ** What a discovery pass leaves alone *)

#[global] Instance same_fields_rely : Rely same_fields.
Proof.
  split.
  - intros s. repeat split.
  - intros s1 s2 s3 (A1 & B1 & C1 & D1 & E1) (A2 & B2 & C2 & D2 & E2).
    repeat split; congruence.
Qed.

Section ServerKeeps.
Variable remote : list request -> request -> reply.
Variable py_repr : json -> string.

Lemma keeps_client_get r : keeps same_fields (client_get remote r).
Proof.
  intros s. unfold exec, client_get.
  destruct (remote (client_log s) r); simpl; repeat split.
Qed.

Lemma keeps_get_service_info u :
  keeps same_fields (_get_service_info remote u).
Proof.
  unfold _get_service_info. keeps_tac; apply keeps_client_get.
Qed.

Context (R : pass -> pass -> Prop) `{!PassRely R}.

Lemma keeps_lift_self {A} (m : M server A) :
  keeps same_fields m -> keeps R (lift_self m).
Proof.
  intros Hm p. specialize (Hm (self p)). unfold exec, lift_self in *.
  destruct (m (self p)) as [r s']; simpl in *. now apply rely_client.
Qed.

Lemma keeps_set_dataset k d : ds_id d = k -> keeps R (set_dataset k d).
Proof. intros <- p. apply rely_dataset. Qed.

Lemma keeps_set_service k e : keeps R (set_service k e).
Proof. intros p. apply rely_service. Qed.

Ltac pass_keeps :=
  keeps_tac;
  first [ apply keeps_set_dataset; reflexivity
        | apply keeps_set_service
        | apply keeps_lift_self;
          first [apply keeps_get_service_info | apply keeps_client_get] ].

Lemma keeps_known_service n u : keeps R (known_service remote n u).
Proof. unfold known_service. pass_keeps. Qed.

Lemma keeps_root_service x : keeps R (root_service remote py_repr x).
Proof. unfold root_service. pass_keeps. Qed.

Lemma keeps_folder_service f x : keeps R (folder_service remote py_repr f x).
Proof. unfold folder_service. pass_keeps. Qed.

Lemma keeps_folder_services f : keeps R (folder_services remote py_repr f).
Proof.
  unfold folder_services. keeps_tac;
    first [ apply keeps_folder_service
          | apply keeps_lift_self; apply keeps_client_get ].
Qed.

Lemma keeps_discover_catalog : keeps R (discover_catalog remote py_repr).
Proof.
  unfold discover_catalog. keeps_tac;
    first [ apply keeps_root_service | apply keeps_folder_services
          | apply keeps_lift_self; apply keeps_client_get ].
Qed.

Lemma keeps_discover_known : keeps R (discover_known remote).
Proof. unfold discover_known. keeps_tac. apply keeps_known_service. Qed.

End ServerKeeps.

#[global] Instance same_self_rely : PassRely (fun p p' => same_fields (self p) (self p')).
Proof.
  split.
  - split.
    + intros p. apply rely_refl.
    + intros p1 p2 p3. apply rely_trans.
  - intros p s' H. exact H.
  - intros p d. apply rely_refl.
  - intros p k e. apply rely_refl.
Qed.

(** ** The shape of a discovery pass *)

Section PassShape.
Variable remote : list request -> request -> reply.
Variable py_repr : json -> string.

Lemma known_service_total n u p : eval (known_service remote n u) p = Ok tt.
Proof. apply try_swallow. Qed.

Lemma discover_known_total p : eval (discover_known remote) p = Ok tt.
Proof.
  unfold discover_known, eval, bind, get_state.
  apply for_each_total. intros x s _. apply known_service_total.
Qed.

Lemma discover_catalog_total p :
  eval (discover_catalog remote py_repr) p = Ok tt.
Proof. apply try_swallow. Qed.

Lemma walk_total p : eval (walk remote py_repr) p = Ok tt.
Proof.
  unfold walk, eval.
  rewrite bind_ok with (a := tt) by apply discover_known_total.
  apply discover_catalog_total.
Qed.

Lemma walk_exec p :
  exec (walk remote py_repr) p =
  exec (discover_catalog remote py_repr) (exec (discover_known remote) p).
Proof.
  unfold walk. unfold exec at 1.
  now rewrite bind_ok with (a := tt) by apply discover_known_total.
Qed.

(** A call that passes the test of line 496 walks, then commits: the
    handler of line 646 is never entered. *)
Lemma refresh_runs force now done s :
  fresh force (last_refresh s) now = false ->
  _refresh_datasets remote py_repr force now done s =
  (Ok tt, self (commit done (exec (walk remote py_repr) (start s)))).
Proof.
  intros Hf. unfold _refresh_datasets. rewrite Hf.
  fold (start s).
  assert (E : (discover_known remote ;; discover_catalog remote py_repr ;;
               modify (commit done)) (start s)
              = (Ok tt, commit done (exec (walk remote py_repr) (start s)))).
  { rewrite bind_ok with (a := tt) by apply discover_known_total.
    rewrite bind_ok with (a := tt) by apply discover_catalog_total.
    unfold modify. now rewrite walk_exec. }
  unfold try_except. now rewrite E.
Qed.

Lemma refresh_forced now done s :
  _refresh_datasets remote py_repr true now done s =
  (Ok tt, self (commit done (exec (walk remote py_repr) (start s)))).
Proof. now apply refresh_runs. Qed.

(** A call that fails the test returns at once. *)
Lemma refresh_skips force now done s :
  fresh force (last_refresh s) now = true ->
  _refresh_datasets remote py_repr force now done s = (Ok tt, s).
Proof. intros Hf. unfold _refresh_datasets. now rewrite Hf. Qed.

Lemma refresh_total force now done s :
  eval (_refresh_datasets remote py_repr force now done) s = Ok tt.
Proof.
  unfold eval. destruct (fresh force (last_refresh s) now) eqn:E.
  - now rewrite refresh_skips.
  - now rewrite refresh_runs.
Qed.

Lemma keeps_walk R `{!PassRely R} : keeps R (walk remote py_repr).
Proof.
  unfold walk. apply keeps_bind; [typeclasses eauto | |intros _].
  - now apply keeps_discover_known.
  - now apply keeps_discover_catalog.
Qed.

(** The (walk remote py_repr) changes no field of [self] but the log. *)
Lemma walk_same_fields s : same_fields s (self (exec (walk remote py_repr) (start s))).
Proof. exact (keeps_walk (R := fun p p' => same_fields (self p) (self p')) (start s)). Qed.

End PassShape.

Lemma fresh_true_iff force stamp now :
  fresh force stamp now = true <->
  force = false /\
  exists t, stamp = Some t /\ ~ (t == 0)%Q /\ (now - t < 900 # 1)%Q.
Proof.
  unfold fresh. rewrite andb_true_iff, negb_true_iff. split.
  - intros [Hf H]. split; [exact Hf|]. destruct stamp as [t|]; [|discriminate].
    apply andb_true_iff in H. destruct H as [H1 H2].
    exists t. split; [reflexivity|]. split.
    + apply negb_true_iff in H1. now apply Qeq_bool_neq.
    + now apply Qltb_lt.
  - intros [Hf (t & -> & Hz & Hlt)]. split; [exact Hf|].
    apply andb_true_iff. split.
    + apply negb_true_iff. destruct (Qeq_bool t 0) eqn:E; [|reflexivity].
      apply Qeq_bool_iff in E. contradiction.
    + now apply Qltb_lt.
Qed.

(** ** C1: the staleness gate *)

(** C1. A call [_refresh_datasets(force=False)] made less than 900 seconds
    after the stored timestamp of the last refresh returns at once: its
    result is the state it was given, log of requests included, so no
    request is sent. Hence, after any call that ran a discovery pass and
    stamped it at [done0], a second call without [force] less than 900
    seconds later changes nothing and sends nothing. The timestamp is
    tested for truth by the code, so the reading [0.0] counts as unset; no
    clock reads it after 1970. *)
Theorem C1_refresh_skipped_when_fresh :
  forall remote py_repr (s : server) (now done : Q),
    (forall t,
        last_refresh s = Some t -> ~ (t == 0)%Q -> (now - t < 900 # 1)%Q ->
        _refresh_datasets remote py_repr false now done s = (Ok tt, s)) /\
    (forall force0 now0 done0,
        let s1 := exec (_refresh_datasets remote py_repr force0 now0 done0) s in
        fresh force0 (last_refresh s) now0 = false ->
        ~ (done0 == 0)%Q -> (now - done0 < 900 # 1)%Q ->
        last_refresh s1 = Some done0 /\
        _refresh_datasets remote py_repr false now done s1 = (Ok tt, s1)).
Proof.
  intros remote py_repr s now done. split.
  - intros t Ht Hz Hlt. apply refresh_skips.
    apply fresh_true_iff. split; [reflexivity|]. now exists t.
  - intros force0 now0 done0 s1 Hrun Hz Hlt.
    assert (Hs1 : last_refresh s1 = Some done0).
    { unfold s1, exec. now rewrite refresh_runs. }
    split; [exact Hs1|]. apply refresh_skips.
    apply fresh_true_iff. split; [reflexivity|]. now exists done0.
Qed.

(** ** Concrete runs against the stub *)

Example populated_cache :
  map (fun kv => (fst kv, ds_name (snd kv))) (cached_datasets Demo.populated)
  = [("leases", "LEASES"); ("planning_zoning", "Planning/Zoning")] /\
  dict_keys (cached_services Demo.populated)
  = ["Leases"; "LEASES"; "Planning/Zoning"] /\
  last_refresh Demo.populated = Some (11 # 1).
Proof. repeat split. Qed.

Lemma C1_refresh_skipped_when_fresh_witness :
  _refresh_datasets Demo.remote_down Demo.repr false (200 # 1) (201 # 1)
    Demo.refreshed_at_100 = (Ok tt, Demo.refreshed_at_100) /\
  (let s1 :=
     exec (_refresh_datasets Demo.remote_down Demo.repr true (10 # 1) (11 # 1))
       init_server in
   last_refresh s1 = Some (11 # 1) /\
   _refresh_datasets Demo.remote_down Demo.repr false (200 # 1) (201 # 1) s1
   = (Ok tt, s1)).
Proof.
  destruct (C1_refresh_skipped_when_fresh Demo.remote_down Demo.repr
              Demo.refreshed_at_100 (200 # 1) (201 # 1)) as [H1 _].
  destruct (C1_refresh_skipped_when_fresh Demo.remote_down Demo.repr
              init_server (200 # 1) (201 # 1)) as [_ H2].
  split.
  - apply (H1 (100 # 1)).
    + reflexivity.
    + intros H. discriminate H.
    + reflexivity.
  - apply (H2 true (10 # 1) (11 # 1)).
    + reflexivity.
    + intros H. discriminate H.
    + reflexivity.
Defined.

(** ** C8: the request of a bounding-box query *)

(** The claim as it is written fails when the buffer distance supplied is
    zero: the test [if buffer_distance:] is false for it, and the request
    carries neither the distance nor the units. *)
Lemma C8_zero_buffer_is_dropped :
  let s' :=
    exec (_spatial_query_by_coordinates Demo.remote_down Demo.dumps
            "https://example.org/FeatureServer" 0
            (NInt 31) (NInt (-30)) (NInt 32) (NInt (-29))
            (Some (NFloat 0)) 10)
         init_server in
  exists r,
    client_log s' = [r] /\
    dict_get "distance" (req_params r) = None /\
    dict_get "units" (req_params r) = None.
Proof. eexists. repeat split. Qed.

(** C8 (amended). For every service URL, layer, four ordinates, optional
    buffer and record cap, [_spatial_query_by_coordinates] sends exactly one
    request; its [geometry] parameter is the serialised envelope of the four
    ordinates with WKID 4326, the geometry type is the envelope type, the
    relation is [esriSpatialRelIntersects], the clause is ["1=1"], all
    fields and the geometry are asked for. When the buffer distance that is
    supplied is not zero, the request also carries it as [distance] with
    meter units; when it is absent or zero the request carries neither. *)
Theorem C8_bounding_box_request :
  forall remote dumps (service_url : string) (layer_id : Z)
         (xmin ymin xmax ymax : number) (buffer_distance : option number)
         (max_records : Z) (s : server),
    let s' :=
      exec (_spatial_query_by_coordinates remote dumps service_url layer_id
              xmin ymin xmax ymax buffer_distance max_records) s in
    exists r,
      client_log s' = (client_log s ++ [r])%list /\
      envelope_params dumps xmin ymin xmax ymax (req_params r) /\
      dict_get "resultRecordCount" (req_params r) = Some (PNum (NInt max_records)) /\
      (forall d, buffer_distance = Some d -> number_truthy d = true ->
                 dict_get "distance" (req_params r) = Some (PNum d) /\
                 dict_get "units" (req_params r) = Some (PStr "esriSRUnit_Meter")) /\
      (buffer_given buffer_distance = false ->
       dict_get "distance" (req_params r) = None /\
       dict_get "units" (req_params r) = None).
Proof.
  intros remote dumps service_url layer_id xmin ymin xmax ymax buffer
         max_records s s'.
  subst s'. unfold _spatial_query_by_coordinates, exec, bind, client_get.
  cbv zeta.
  match goal with
  | |- context [remote (client_log s) ?r] =>
      exists r; destruct (remote (client_log s) r) as [|status body]
  end.
  - simpl. split; [reflexivity|].
    destruct buffer as [d|]; [destruct (number_truthy d) eqn:E|];
      (split; [repeat split|]); (split; [reflexivity|]);
      (split; [intros d' [= <-] Hd; try congruence; now split
              | simpl; try rewrite E; intros; try discriminate; now split]).
  - set (s1 := set_client_log _ s).
    assert (H1 : client_log
                   (snd ((_ <- raise_for_status (fst (status, body)) ;;
                          response_json (snd (status, body))) s1))
                 = client_log s1).
    { unfold bind, raise_for_status, response_json. simpl.
      destruct ((200 <=? status) && (status <=? 299))%bool; simpl;
        [|reflexivity]. destruct body; reflexivity. }
    unfold bind in H1. unfold bind.
    split; [exact H1|].
    destruct buffer as [d|]; [destruct (number_truthy d) eqn:E|];
      (split; [repeat split|]); (split; [reflexivity|]);
      (split; [intros d' [= <-] Hd; try congruence; now split
              | simpl; try rewrite E; intros; try discriminate; now split]).
Qed.

Lemma C8_bounding_box_request_witness :
  let s' :=
    exec (_spatial_query_by_coordinates Demo.remote_down Demo.dumps
            "https://example.org/FeatureServer" 0
            (NInt 31) (NInt (-30)) (NInt 32) (NInt (-29))
            (Some (NInt 500)) 10)
         init_server in
  exists r,
    client_log s' = [r] /\
    dict_get "distance" (req_params r) = Some (PNum (NInt 500)) /\
    dict_get "units" (req_params r) = Some (PStr "esriSRUnit_Meter").
Proof.
  destruct (C8_bounding_box_request Demo.remote_down Demo.dumps
              "https://example.org/FeatureServer" 0
              (NInt 31) (NInt (-30)) (NInt 32) (NInt (-29))
              (Some (NInt 500)) 10 init_server)
    as (r & Hlog & _ & _ & Hbuf & _).
  exists r. split; [exact Hlog|].
  apply (Hbuf (NInt 500)); reflexivity.
Defined.

(** ** C10: registering a known service *)

(** A block whose handler returns never raises, whatever its body does. *)
Lemma try_handled {S A} (m : M S A) (h : exn -> A) s :
  exists a, eval (try_except m (fun e => ret (h e))) s = Ok a.
Proof.
  unfold eval, try_except. destruct (m s) as [[a|e] s']; simpl; eauto.
Qed.

Lemma add_known_service_run remote py_repr exn_str name url now done s :
  _add_known_service remote py_repr exn_str name url now done s =
  (let s' := exec (_refresh_datasets remote py_repr true now done)
                  (registered name url s) in
   (Ok ("Successfully added service '" ++ name ++ "' at " ++ url
        ++ ". Found " ++ PyStr.of_nat (List.length (cached_datasets s'))
        ++ " total datasets."), s')).
Proof.
  unfold _add_known_service, try_except, bind at 1, modify.
  fold (registered name url s).
  rewrite bind_ok with (a := tt) by apply refresh_total.
  reflexivity.
Qed.

(** C10. [_add_known_service(name, url)] never raises: it returns a text,
    which is the error text when its body fails. The entry is written to
    [self.known_services] first, the forced discovery then starts from the
    registry that holds it, and nothing removes it afterwards: whatever the
    remote answers, and also when every probe fails, the registry that is
    left is the old one with [name] bound to [url]. *)
Theorem C10_add_known_service_keeps_entry :
  forall remote py_repr exn_str (name url : string) (now done : Q) (s : server),
    let run := _add_known_service remote py_repr exn_str name url now done s in
    (exists text, fst run = Ok text) /\
    snd run = exec (_refresh_datasets remote py_repr true now done)
                   (registered name url s) /\
    known_services (snd run) = dict_set name url (known_services s) /\
    dict_get name (known_services (snd run)) = Some url.
Proof.
  intros remote py_repr exn_str name url now done s run.
  split.
  - apply (try_handled _ (fun e => "Error adding service '" ++ name ++ "': "
                                   ++ exn_str e)).
  - subst run. rewrite add_known_service_run. cbv zeta. simpl fst. simpl snd.
    split; [reflexivity|].
    assert (K : known_services
                  (exec (_refresh_datasets remote py_repr true now done)
                        (registered name url s))
                = dict_set name url (known_services s)).
    { unfold exec. rewrite refresh_forced. simpl.
      destruct (walk_same_fields remote py_repr (registered name url s))
        as (_ & _ & _ & _ & E).
      exact E. }
    split; [exact K|]. rewrite K. apply dict_get_set_same.
Qed.

(** With the remote down the discovery finds nothing, and the entry stays. *)
Example add_known_service_remote_down :
  let run := _add_known_service Demo.remote_down Demo.repr Demo.exn_text
               "Roads" "https://example.org/Roads/FeatureServer"
               (10 # 1) (11 # 1) init_server in
  fst run = Ok ("Successfully added service 'Roads' at "
                ++ "https://example.org/Roads/FeatureServer"
                ++ ". Found 0 total datasets.") /\
  dict_keys (known_services (snd run)) = ["Leases"; "Roads"] /\
  cached_datasets (snd run) = [].
Proof. repeat split. Qed.

(** ** C9: lookup by identifier, then by name or title *)

Section FindByName.
Variable S : Type.
Variable dataset_id : string.

Lemma find_by_name_exec items (s : S) :
  exec (find_by_name dataset_id items) s = s.
Proof.
  induction items as [|[k d] rest IH]; simpl; [reflexivity|].
  destruct (PyStr.lower (ds_name d) =? PyStr.lower dataset_id)%string;
    [reflexivity|].
  unfold exec, bind in *. destruct (ds_title d); simpl; try reflexivity.
  destruct (PyStr.lower s0 =? PyStr.lower dataset_id)%string;
    [reflexivity | exact IH].
Qed.




End FindByName.



(** ** C4: searching the cache *)

Lemma prefix_app (q s : string) :
  String.prefix q s = true <-> exists after, s = q ++ after.
Proof.
  revert s. induction q as [|a q IH]; intros s.
  - split; [intros _; exists s; reflexivity | intros _; now destruct s].
  - destruct s as [|b s]; simpl.
    + split; [discriminate | intros [after H]; discriminate H].
    + destruct (ascii_dec a b) as [->|Hne].
      * rewrite IH. split; intros [after H]; exists after.
        -- now rewrite H.
        -- now injection H.
      * split; [discriminate | intros [after H]; injection H; congruence].
Qed.

(** [PyStr.contains] is the substring test. *)
Lemma contains_app (q s : string) :
  PyStr.contains q s = true <-> exists before after, s = before ++ q ++ after.
Proof.
  induction s as [|c s IH].
  - cbn [PyStr.contains]. rewrite orb_false_r, prefix_app. split.
    + intros [after H]. now exists "", after.
    + intros (before & after & H). destruct before; [now exists after|].
      discriminate H.
  - cbn [PyStr.contains]. rewrite orb_true_iff, IH, prefix_app. split.
    + intros [[after H]|(before & after & H)].
      * now exists "", after.
      * exists (String c before), after. simpl. now rewrite H.
    + intros (before & after & H). destruct before as [|c' before].
      * left. now exists after.
      * right. exists before, after. simpl in H. now injection H.
Qed.

Section SearchFacts.
Variable S : Type.

Lemma py_strings_run items (s : S) :
  py_strings items s =
  (match strings_of items with Some l => Ok l | None => Raise TypeError end, s).
Proof.
  induction items as [|x r IH]; simpl; [reflexivity|].
  destruct x; try reflexivity.
  unfold bind. rewrite IH. now destruct (strings_of r).
Qed.

Lemma lower_all_run cats (s : S) :
  lower_all cats s =
  (match strings_of cats with
   | Some l => Ok (map PyStr.lower l)
   | None => Raise AttributeError
   end, s).
Proof.
  induction cats as [|x r IH]; simpl; [reflexivity|].
  destruct x; try reflexivity.
  unfold bind. simpl. rewrite IH. now destruct (strings_of r).
Qed.

Lemma text_matches_run query d (s : S) :
  exists r,
    text_matches query d s = (r, s) /\
    (forall b, r = Ok b -> by_text query d = b) /\
    (well_typed d -> exists b, r = Ok b).
Proof.
  unfold text_matches, by_text, searchable_text, py_join.
  destruct (query =? "")%string; cbn [negb orb].
  - eexists. split; [reflexivity|]. split; [now intros b [= <-] | eauto].
  - unfold bind. rewrite py_strings_run.
    destruct (strings_of (ds_tags d)) as [tags|] eqn:Et.
    + unfold ret at 1. cbv beta iota. rewrite py_strings_run.
      cbn [strings_of].
      destruct (ds_title d) eqn:E1;
        try (eexists; split; [reflexivity|]; split;
             [discriminate | intros ([t Ht] & _); congruence]).
      destruct (ds_description d) eqn:E2;
        try (eexists; split; [reflexivity|]; split;
             [discriminate | intros (_ & [t Ht] & _); congruence]).
      eexists. split; [reflexivity|]. split; [now intros b [= <-] | eauto].
    + eexists. split; [reflexivity|]. split; [discriminate|].
      intros (_ & _ & [l Hl] & _). congruence.
Qed.

Lemma category_matches_run category d (s : S) :
  category_given category = true ->
  exists r,
    category_matches category d s = (r, s) /\
    (forall b, r = Ok b -> by_category category d = b) /\
    (well_typed d -> exists b, r = Ok b).
Proof.
  intros Hg. unfold category_matches, by_category. rewrite Hg. simpl.
  destruct category as [c|]; [|discriminate].
  unfold bind. rewrite lower_all_run.
  destruct (strings_of (ds_categories d)) as [cats|] eqn:Ec.
  - eexists. split; [reflexivity|]. split; [now intros b [= <-] | eauto].
  - eexists. split; [reflexivity|]. split; [discriminate|].
    intros (_ & _ & _ & [l Hl]). congruence.
Qed.

(** Lines 659-675 decide [matches] without touching the state; when they
    do not raise the decision is [is_match]. *)
Lemma matches_run query category d (s : S) :
  exists r,
    (forall B (k : bool -> M S B),
       (by_text <- text_matches query d ;;
        matches <-
          (if category_given category && by_text
           then category_matches category d else ret by_text) ;;
        k matches) s
       = match r with Ok b => k b s | Raise e => (Raise e, s) end) /\
    (forall b, r = Ok b -> is_match query category d = b) /\
    (well_typed d -> exists b, r = Ok b).
Proof.
  destruct (text_matches_run query d s) as (r1 & E1 & S1 & T1).
  destruct r1 as [b1|e].
  - specialize (S1 b1 eq_refl).
    destruct (category_given category) eqn:Hg.
    + destruct b1.
      * destruct (category_matches_run category d s Hg) as (r2 & E2 & S2 & T2).
        exists r2. split; [|split; [|exact T2]].
        -- intros B k. unfold bind at 1. rewrite E1. cbn [andb].
           unfold bind at 1. rewrite E2. reflexivity.
        -- intros b Hb. unfold is_match. rewrite S1. simpl. auto.
      * exists (Ok false). split; [|split; [|eauto]].
        -- intros B k. unfold bind at 1. rewrite E1. reflexivity.
        -- intros b [= <-]. unfold is_match. now rewrite S1.
    + exists (Ok b1). split; [|split; [|eauto]].
      * intros B k. unfold bind at 1. rewrite E1. reflexivity.
      * intros b [= <-]. unfold is_match, by_category. rewrite S1, Hg.
        simpl. now rewrite andb_true_r.
  - exists (Raise e). split; [|split].
    + intros B k. unfold bind at 1. now rewrite E1.
    + discriminate.
    + intros Hw. destruct (T1 Hw) as [b Hb]. discriminate Hb.
Qed.

Variables (query : string) (category : option string) (limit : Z).
Hypothesis limit_pos : 1 <= limit.

(** The loop returns its accumulator followed by the matching records, in
    iteration order, up to [limit] records in all. *)
Lemma search_loop_ok items : forall results out (s : S),
  Z.of_nat (List.length results) < limit ->
  eval (search_loop query category limit items results) s = Ok out ->
  out = (results ++
         firstn (Z.to_nat limit - List.length results)
           (filter (is_match query category) (dict_values items)))%list.
Proof.
  induction items as [|[k d] rest IH]; intros results out s Hlen;
    cbn [search_loop dict_values map snd filter].
  - intros [= <-]. now rewrite firstn_nil, app_nil_r.
  - unfold eval. destruct (matches_run query category d s) as (r & E & Sd & _).
    rewrite E. destruct r as [b|e]; [|discriminate].
    rewrite (Sd b eq_refl). destruct b.
    + cbv zeta. rewrite length_app. cbn [List.length].
      destruct (Z.of_nat (List.length results + 1) >=? limit) eqn:Eg.
      * intros [= <-]. rewrite Z.geb_leb in Eg. apply Z.leb_le in Eg.
        replace (Z.to_nat limit - List.length results)%nat with 1%nat by lia.
        cbn [firstn]. reflexivity.
      * rewrite Z.geb_leb in Eg. apply Z.leb_gt in Eg.
        intros H. apply IH in H; [|rewrite length_app; cbn [List.length]; lia].
        rewrite H, length_app. cbn [List.length].
        replace (Z.to_nat limit - List.length results)%nat
          with (Datatypes.S (Z.to_nat limit - (List.length results + 1)))%nat
          by lia.
        cbn [firstn]. now rewrite <- app_assoc.
    + intros H. now apply IH in H.
Qed.

(** On records that are well typed the loop returns. *)
Lemma search_loop_total items : forall results (s : S),
  Forall well_typed (dict_values items) ->
  exists out, eval (search_loop query category limit items results) s = Ok out.
Proof.
  induction items as [|[k d] rest IH]; intros results s Hw;
    cbn [search_loop].
  - eexists. reflexivity.
  - inversion Hw as [|? ? Hd Hrest]; subst.
    unfold eval. destruct (matches_run query category d s) as (r & E & _ & T).
    rewrite E. destruct (T Hd) as [b ->].
    destruct b; [|now apply IH].
    cbv zeta.
    destruct (Z.of_nat (List.length (results ++ [d])) >=? limit);
      [eexists; reflexivity | now apply IH].
Qed.

End SearchFacts.

Lemma In_firstn {A} (x : A) n l : In x (firstn n l) -> In x l.
Proof.
  revert l. induction n as [|n IH]; intros [|y l]; simpl; try tauto.
  intros [H|H]; [now left | right; auto].
Qed.

Lemma by_text_match query d : by_text query d = true -> text_match query d.
Proof.
  unfold by_text, text_match. rewrite orb_true_iff.
  intros [H|H].
  - left. now apply String.eqb_eq.
  - right. destruct (searchable_text d) as [text|]; [|discriminate].
    exists text. split; [reflexivity|]. now apply contains_app.
Qed.

Lemma by_category_match category d :
  by_category category d = true -> category_match category d.
Proof.
  unfold by_category, category_match, category_given.
  intros H c -> Hc. apply String.eqb_neq in Hc. rewrite Hc in H. simpl in H.
  destruct (strings_of (ds_categories d)) as [cats|]; [|discriminate].
  exists cats. split; [reflexivity|].
  apply existsb_exists in H. destruct H as (x & Hin & Hx).
  apply String.eqb_eq in Hx. now subst x.
Qed.

(** The claim as it is written fails twice on the populated cache of the
    stub: with [limit = 0] one record is returned, and with the empty
    string as category the records returned do not have that category. *)
Lemma C4_limit_zero_and_empty_category :
  option_map (map ds_id)
    (returned (eval (_search_datasets Demo.remote_up Demo.repr "" None 0
                       (20 # 1) (21 # 1)) Demo.populated))
  = Some ["leases"] /\
  option_map (map ds_categories)
    (returned (eval (_search_datasets Demo.remote_up Demo.repr "" (Some "") 5
                       (20 # 1) (21 # 1)) Demo.populated))
  = Some [[JStr "Municipal Services"];
          [JStr "Municipal Services"; JStr "Planning"]] /\
  ~ In "" (map PyStr.lower ["Municipal Services"; "Planning"]).
Proof.
  split; [vm_compute; reflexivity|].
  split; [vm_compute; reflexivity|].
  simpl. intros [H|[H|[]]]; discriminate H.
Qed.

(** C4 (amended). For every query, optional category and limit of at least
    one, if [_search_datasets] returns then it returns the first [limit]
    records, in the iteration order of the refreshed cache, that pass both
    tests; so it returns at most [limit] records, each of which contains the
    query, up to case, in its name, title, description and tags joined by
    spaces (or the query is empty) and, when a category that is not the
    empty string is given, has it, up to case, among its categories. On a
    cache whose records hold only strings in these fields it does return. *)
Theorem C4_search_returns_first_matches :
  forall remote py_repr (query : string) (category : option string)
         (limit : Z) (now done : Q) (s : server),
    1 <= limit ->
    let cache :=
      cached_datasets (exec (_refresh_datasets remote py_repr false now done) s) in
    let r :=
      eval (_search_datasets remote py_repr query category limit now done) s in
    (forall out, r = Ok out ->
       out = firstn (Z.to_nat limit)
               (filter (is_match query category) (dict_values cache)) /\
       Z.of_nat (List.length out) <= limit /\
       Forall (fun d => text_match query d /\ category_match category d) out) /\
    (Forall well_typed (dict_values cache) -> exists out, r = Ok out).
Proof.
  intros remote py_repr query category limit now done s Hlimit cache r.
  assert (Hr : r = eval (search_loop query category limit cache [])
                        (exec (_refresh_datasets remote py_repr false now done) s)).
  { subst r cache. unfold _search_datasets, eval at 1.
    rewrite bind_ok with (a := tt) by apply refresh_total.
    reflexivity. }
  split.
  - intros out Hout. rewrite Hr in Hout.
    apply search_loop_ok in Hout; [|exact Hlimit|simpl; lia].
    simpl in Hout. rewrite Nat.sub_0_r in Hout.
    split; [exact Hout|]. split.
    + rewrite Hout, length_firstn. lia.
    + rewrite Hout. apply Forall_forall. intros d Hd.
      apply In_firstn in Hd. apply filter_In in Hd. destruct Hd as [_ Hd].
      unfold is_match in Hd. apply andb_true_iff in Hd.
      split; [apply by_text_match | apply by_category_match]; tauto.
  - intros Hw. rewrite Hr. now apply search_loop_total.
Qed.

Lemma C4_search_returns_first_matches_witness :
  option_map (map ds_id)
    (returned (eval (_search_datasets Demo.remote_up Demo.repr "ZONING"
                       (Some "planning") 1 (20 # 1) (21 # 1)) Demo.populated))
  = Some ["planning_zoning"].
Proof.
  assert (Hlimit : 1 <= 1) by lia.
  destruct (@C4_search_returns_first_matches Demo.remote_up Demo.repr
              "ZONING" (Some "planning") 1 (20 # 1) (21 # 1) Demo.populated
              Hlimit)
    as [Hout Htotal].
  destruct Htotal as [out Ho].
  - vm_compute. repeat constructor; eexists; reflexivity.
  - destruct (Hout out Ho) as (E & _ & _).
    rewrite Ho, E. vm_compute. reflexivity.
Defined.

(** ** One step of the discovery walk *)

Section Steps.
Variable remote : list request -> request -> reply.
Variable py_repr : json -> string.

Lemma get_service_info_run u s :
  _get_service_info remote u s =
  (Ok (decoded (remote (client_log s) (info_request u))),
   set_client_log (client_log s ++ [info_request u])%list s).
Proof.
  unfold _get_service_info, try_except, bind, client_get, decoded.
  destruct (remote (client_log s) (info_request u)) as [|status body];
    [reflexivity|].
  simpl. destruct (status =? 200); [|now destruct body].
  now destruct body.
Qed.

Lemma lift_get_service_info_run u p :
  lift_self (_get_service_info remote u) p =
  (Ok (decoded (remote (client_log (self p)) (info_request u))),
   sent (info_request u) p).
Proof. unfold lift_self. now rewrite get_service_info_run. Qed.

(** An iteration over a known service sends one probe and records the
    dataset exactly when the descriptor is a dictionary that is not
    empty. *)
Lemma known_service_exec n u p :
  exec (known_service remote n u) p =
  match descriptor (probe remote u p) with
  | Some info => inserted (known_dataset n u info) (sent (info_request u) p)
  | None => sent (info_request u) p
  end.
Proof.
  assert (L : forall (v : json) (s : pass),
             snd ((_ <- py_len v ;; ret tt) s) = s)
    by (intros v s; destruct v; reflexivity).
  unfold known_service. rewrite try_swallow_exec. unfold exec, bind at 1.
  rewrite lift_get_service_info_run. fold (probe remote u p).
  destruct (probe remote u p) as [| b | num | str | items | fields];
    cbn [truthy descriptor]; try reflexivity.
  - now destruct b.
  - now destruct (number_truthy num).
  - now destruct (negb (str =? "")%string).
  - now destruct items.
  - destruct fields as [|x r]; [reflexivity|].
    unfold py_get. unfold bind at 1, ret at 1. unfold bind at 1, ret at 1.
    unfold bind at 1, ret at 1. unfold bind at 1, set_dataset, modify.
    unfold bind at 1, set_service, modify. unfold bind at 1, ret at 1.
    rewrite L. reflexivity.
Qed.

Lemma bind_ret {S A B} (a : A) (k : A -> M S B) s : bind (ret a) k s = k a s.
Proof. reflexivity. Qed.

Lemma bind_get_state {S B} (k : S -> M S B) s : bind get_state k s = k s s.
Proof. reflexivity. Qed.

(** An iteration over a root service that is listed under a string name
    which is not in the registry: one probe, and the dataset is recorded
    exactly when the descriptor is a dictionary that is not empty. *)
Lemma root_service_run x sn ty p :
  listed x (JStr sn) ty ->
  dict_mem sn (known_services (self p)) = false ->
  let u := api_base (self p) ++ "/" ++ sn ++ "/" ++ ty in
  root_service remote py_repr x p =
  (Ok tt,
   match descriptor (probe remote u p) with
   | Some info => inserted (root_dataset sn ty u info) (sent (info_request u) p)
   | None => sent (info_request u) p
   end).
Proof.
  intros (e & -> & Hn & Ht) Hk u.
  unfold root_service. cbn [py_get]. rewrite !bind_ret. rewrite Hn, Ht.
  rewrite bind_get_state. cbn [py_in_dict]. rewrite bind_ret, Hk.
  cbn [negb py_format]. cbv zeta. fold u.
  match goal with |- ?m p = _ => rewrite (run_eta m p) end.
  rewrite try_swallow, try_swallow_exec. f_equal.
  unfold exec, bind at 1.
  rewrite lift_get_service_info_run. fold (probe remote u p).
  destruct (probe remote u p) as [| b | num | str | items | fields];
    cbn [truthy descriptor]; try reflexivity.
  - now destruct b.
  - now destruct (number_truthy num).
  - now destruct (negb (str =? "")%string).
  - now destruct items.
  - now destruct fields.
Qed.

Lemma root_service_total x p :
  root_entry_ok x -> eval (root_service remote py_repr x) p = Ok tt.
Proof.
  intros (e & -> & H).
  unfold root_service, eval. cbn [py_get]. rewrite !bind_ret.
  destruct (server_type (dict_get_default "type" (JStr "") e)) as [ty|];
    [|reflexivity].
  destruct H as [H|H]; [discriminate|].
  rewrite bind_get_state.
  destruct (dict_get_default "name" (JStr "") e) eqn:En; cbn [hashable] in H;
    try contradiction; cbn [py_in_dict]; rewrite bind_ret;
    try (cbn [negb]; apply try_swallow).
  destruct (negb _); [apply try_swallow | reflexivity].
Qed.

(** An iteration over a service listed in a folder: one probe, and the
    dataset is recorded exactly when the descriptor is a dictionary that
    is not empty. *)
Lemma folder_service_run f x name ty p :
  listed x name ty ->
  let u := api_base (self p) ++ "/" ++ qualified py_repr f name ++ "/" ++ ty in
  folder_service remote py_repr f x p =
  (Ok tt,
   match descriptor (probe remote u p) with
   | Some info =>
       inserted (folder_dataset py_repr f name ty u info)
         (sent (info_request u) p)
   | None => sent (info_request u) p
   end).
Proof.
  intros (e & -> & Hn & Ht) u.
  unfold folder_service. cbn [py_get]. rewrite !bind_ret. rewrite Hn, Ht.
  cbv zeta. rewrite bind_get_state. fold (qualified py_repr f name). fold u.
  match goal with |- ?m p = _ => rewrite (run_eta m p) end.
  rewrite try_swallow, try_swallow_exec. f_equal.
  unfold exec, bind at 1.
  rewrite lift_get_service_info_run. fold (probe remote u p).
  destruct (probe remote u p) as [| b | num | str | items | fields];
    cbn [truthy descriptor]; try reflexivity.
  - now destruct b.
  - now destruct (number_truthy num).
  - now destruct (negb (str =? "")%string).
  - now destruct items.
  - now destruct fields.
Qed.

Lemma folder_service_total f x p :
  is_object x -> eval (folder_service remote py_repr f x) p = Ok tt.
Proof.
  intros (e & ->).
  unfold folder_service, eval. cbn [py_get]. rewrite !bind_ret. cbv zeta.
  destruct (server_type (dict_get_default "type" (JStr "") e)) as [ty|];
    [|reflexivity].
  rewrite bind_get_state. apply try_swallow.
Qed.

End Steps.

(** ** Loops: every iteration is reached, and what it did stays *)

Lemma for_each_reaches {S A} (R : S -> S -> Prop) `{!Rely R}
    (l : list A) (body : A -> M S unit) (x : A) :
  In x l ->
  (forall y s, In y l -> eval (body y) s = Ok tt) ->
  (forall y, keeps R (body y)) ->
  forall s, exists s1,
    R s s1 /\ R (exec (body x) s1) (exec (for_each l body) s).
Proof.
  intros Hin Htotal Hkeeps.
  induction l as [|y r IH]; [destruct Hin|]. intros s.
  rewrite for_each_cons_exec by (apply Htotal; now left).
  destruct Hin as [->|Hin].
  - exists s. split; [apply rely_refl|].
    apply (keeps_for_each (R := R)). exact Hkeeps.
  - destruct (IH Hin (fun y s Hy => Htotal y s (or_intror Hy))
                 (exec (body y) s)) as (s1 & H1 & H2).
    exists s1. split; [|exact H2].
    eapply rely_trans; [apply Hkeeps | exact H1].
Qed.

#[global] Instance extends_rely : PassRely extends.
Proof.
  split.
  - split.
    + intros p. split; [apply rely_refl|]. split; apply incl_refl.
    + intros p1 p2 p3 (A1 & B1 & C1) (A2 & B2 & C2).
      split; [eapply rely_trans; eauto|].
      split; eapply incl_tran; eauto.
  - intros p s' H. split; [exact H|]. split; apply incl_refl.
  - intros p d. split; [apply rely_refl|]. split; [|apply incl_refl].
    intros k Hk. apply dict_set_keys. now right.
  - intros p k e. split; [apply rely_refl|]. split; [apply incl_refl|].
    intros k' Hk. apply dict_set_keys. now right.
Qed.

Lemma extends_sent r p : extends p (sent r p).
Proof. split; [repeat split|]. split; apply incl_refl. Qed.

Lemma inserted_keys d p :
  In (ds_id d) (dict_keys (all_datasets (inserted d p))) /\
  In (ds_name d) (dict_keys (all_services (inserted d p))).
Proof. split; apply dict_set_keys; now left. Qed.

Section Catalog.
Variable remote : list request -> request -> reply.
Variable py_repr : json -> string.

Lemma lift_client_get_run r p :
  lift_self (client_get remote r) p =
  (match remote (client_log (self p)) r with
   | Unreachable => Raise NetworkError
   | Http status body => Ok (status, body)
   end, sent r p).
Proof.
  unfold lift_self, client_get.
  now destruct (remote (client_log (self p)) r).
Qed.

Lemma bind_lift_client_get {B} r (k : Z * option json -> M pass B) p :
  bind (lift_self (client_get remote r)) k p =
  match remote (client_log (self p)) r with
  | Unreachable => (Raise NetworkError, sent r p)
  | Http status body => k (status, body) (sent r p)
  end.
Proof.
  unfold bind. rewrite lift_client_get_run.
  now destruct (remote (client_log (self p)) r).
Qed.

(** When the root catalog does not answer with a status 200 and a body that
    decodes, nothing beyond the request happens. *)
Lemma discover_catalog_fails p :
  (forall v, catalog_reply remote p <> Http 200 (Some v)) ->
  exec (discover_catalog remote py_repr) p =
  sent (catalog_request (api_base (self p))) p.
Proof.
  intros Hbad. unfold discover_catalog. rewrite try_swallow_exec.
  unfold exec. rewrite bind_get_state, bind_lift_client_get.
  fold (catalog_reply remote p).
  destruct (catalog_reply remote p) as [|status body]; [reflexivity|].
  cbn [fst snd]. destruct (status =? 200) eqn:E; [|reflexivity].
  apply Z.eqb_eq in E. subst status.
  destruct body as [v|]; [|reflexivity]. now destruct (Hbad v).
Qed.

(** When it answers with a dictionary whose services are a list of
    well-formed entries, the loop over them runs to its end and the
    folders are processed from the state it leaves. *)
Lemma discover_catalog_lists p cat items :
  catalog_reply remote p = Http 200 (Some (JObj cat)) ->
  dict_get_default "services" (JArr []) cat = JArr items ->
  Forall root_entry_ok items ->
  exec (discover_catalog remote py_repr) p =
  exec (folders_part remote py_repr (JObj cat))
    (exec (for_each items (root_service remote py_repr))
       (sent (catalog_request (api_base (self p))) p)).
Proof.
  intros Hrep Hsv Hok. unfold discover_catalog. rewrite try_swallow_exec.
  unfold exec at 1. rewrite bind_get_state, bind_lift_client_get.
  fold (catalog_reply remote p). rewrite Hrep.
  cbn [fst snd Z.eqb Pos.eqb response_json]. rewrite bind_ret.
  cbn [py_get]. rewrite bind_ret, Hsv. cbn [py_iter]. rewrite bind_ret.
  rewrite bind_ok with (a := tt).
  - reflexivity.
  - apply for_each_total. intros x s Hx. apply root_service_total.
    rewrite Forall_forall in Hok. now apply Hok.
Qed.

Lemma keeps_folders_part R `{!PassRely R} v : keeps R (folders_part remote py_repr v).
Proof.
  unfold folders_part. keeps_tac. now apply keeps_folder_services.
Qed.

Lemma folders_part_list p cat folders :
  dict_get_default "folders" (JArr []) cat = JArr folders ->
  exec (folders_part remote py_repr (JObj cat)) p =
  exec (for_each folders (folder_services remote py_repr)) p.
Proof.
  intros Hf. unfold folders_part, exec. cbn [py_get]. rewrite bind_ret, Hf.
  reflexivity.
Qed.

Lemma folder_services_lists folder p fcat items :
  folder_reply remote py_repr folder p = Http 200 (Some (JObj fcat)) ->
  dict_get_default "services" (JArr []) fcat = JArr items ->
  Forall is_object items ->
  exec (folder_services remote py_repr folder) p =
  exec (for_each items (folder_service remote py_repr folder))
    (sent (catalog_request
             (api_base (self p) ++ "/" ++ py_format py_repr folder)) p).
Proof.
  intros Hrep Hsv Hok. unfold folder_services. rewrite try_swallow_exec.
  unfold exec at 1. rewrite bind_get_state, bind_lift_client_get.
  fold (folder_reply remote py_repr folder p). rewrite Hrep.
  cbn [fst snd Z.eqb Pos.eqb response_json]. rewrite bind_ret.
  cbn [py_get]. rewrite bind_ret, Hsv. reflexivity.
Qed.

Lemma folder_services_total folder p :
  eval (folder_services remote py_repr folder) p = Ok tt.
Proof. apply try_swallow. Qed.

End Catalog.

(** ** C2: a root catalog that fails *)

(** The claim as it is written fails: after a pass in which the root
    catalog did not decode, the cache is the working set of that pass,
    which holds the known service only; the dataset of the earlier pass
    that came from a folder is gone and the timestamp is the new one. *)
Lemma C2_previous_cache_is_replaced :
  dict_keys (cached_datasets Demo.populated) = ["leases"; "planning_zoning"] /\
  dict_keys (cached_datasets Demo.known_only) = ["leases"] /\
  dict_keys (cached_services Demo.known_only) = ["Leases"] /\
  last_refresh Demo.known_only = Some (31 # 1).
Proof. repeat split; vm_compute; reflexivity. Qed.

(** C2 (amended). If, in a discovery pass, the root catalog probe throws,
    the exception is caught inside the pass (line 637): the pass does not
    abort and does not raise; the cache is replaced by the working set as
    the loop over the known services left it, and the timestamp is set.
    The previous cache is not kept. *)
Theorem C2_catalog_failure_commits_known_services :
  forall remote py_repr (force : bool) (now done : Q) (s : server),
    fresh force (last_refresh s) now = false ->
    let known := exec (discover_known remote) (start s) in
    throws (catalog_reply remote known) ->
    let run := _refresh_datasets remote py_repr force now done s in
    fst run = Ok tt /\
    cached_datasets (snd run) = all_datasets known /\
    cached_services (snd run) = all_services known /\
    last_refresh (snd run) = Some done.
Proof.
  intros remote py_repr force now done s Hrun known Hthrows run.
  subst run. rewrite refresh_runs by exact Hrun.
  rewrite walk_exec. fold known.
  rewrite discover_catalog_fails.
  - repeat split.
  - intros v Hv. destruct Hthrows as [H|H]; rewrite H in Hv; discriminate Hv.
Qed.

Lemma C2_catalog_failure_commits_known_services_witness :
  dict_keys (cached_datasets Demo.known_only) = ["leases"] /\
  last_refresh Demo.known_only = Some (31 # 1).
Proof.
  assert (Hrun : fresh true (last_refresh Demo.populated) (30 # 1) = false)
    by reflexivity.
  assert (Hthrows : throws (catalog_reply Demo.remote_catalog_broken
                      (exec (discover_known Demo.remote_catalog_broken)
                            (start Demo.populated))))
    by (right; vm_compute; reflexivity).
  destruct (@C2_catalog_failure_commits_known_services
              Demo.remote_catalog_broken Demo.repr true (30 # 1) (31 # 1)
              Demo.populated Hrun Hthrows) as (_ & Hd & _ & Ht).
  split.
  - unfold Demo.known_only, exec. rewrite Hd. vm_compute. reflexivity.
  - exact Ht.
Defined.

(** ** C3: keys of the dataset cache *)

Lemma cache_ok_set d x : cache_ok d -> cache_ok (dict_set (ds_id x) x d).
Proof.
  intros [Hnd Hid]. split.
  - now apply dict_set_NoDup.
  - intros k y Hin. apply dict_set_In in Hin.
    destruct Hin as [[-> ->]|Hin]; [reflexivity | now apply Hid].
Qed.

#[global] Instance cache_ok_rely :
  PassRely (fun p p' => cache_ok (all_datasets p) -> cache_ok (all_datasets p')).
Proof.
  split.
  - split; [intros p H; exact H | intros p1 p2 p3 H1 H2 H; auto].
  - intros p s' _ H. exact H.
  - intros p d H. now apply cache_ok_set.
  - intros p k e H. exact H.
Qed.

Lemma inserted_overwrites (m : M pass unit) d p q :
  eval m p = Ok tt ->
  exec m p = inserted d q ->
  all_datasets q = all_datasets p ->
  overwrites m d p.
Proof.
  intros Hev Hex Hq. split; [exact Hev|]. rewrite Hex. simpl. rewrite Hq.
  split; [apply dict_get_set_same | apply dict_set_present_keys].
Qed.

Section StepsOverwrite.
Variable remote : list request -> request -> reply.
Variable py_repr : json -> string.

Lemma known_service_overwrites p n u info :
  descriptor (probe remote u p) = Some info ->
  overwrites (known_service remote n u) (known_dataset n u info) p.
Proof.
  intros Hd.
  apply inserted_overwrites with (q := sent (info_request u) p).
  - apply known_service_total.
  - rewrite known_service_exec, Hd. reflexivity.
  - reflexivity.
Qed.

Lemma root_service_overwrites p x sn ty info :
  listed x (JStr sn) ty ->
  dict_mem sn (known_services (self p)) = false ->
  let u := api_base (self p) ++ "/" ++ sn ++ "/" ++ ty in
  descriptor (probe remote u p) = Some info ->
  overwrites (root_service remote py_repr x) (root_dataset sn ty u info) p.
Proof.
  intros Hl Hk u Hd.
  pose proof (root_service_run remote py_repr p Hl Hk) as Hrun.
  cbv zeta in Hrun. fold u in Hrun. rewrite Hd in Hrun.
  apply inserted_overwrites with (q := sent (info_request u) p).
  - unfold eval. now rewrite Hrun.
  - unfold exec. now rewrite Hrun.
  - reflexivity.
Qed.

Lemma folder_service_overwrites p f x name ty info :
  listed x name ty ->
  let u := api_base (self p) ++ "/" ++ qualified py_repr f name ++ "/" ++ ty in
  descriptor (probe remote u p) = Some info ->
  overwrites (folder_service remote py_repr f x)
    (folder_dataset py_repr f name ty u info) p.
Proof.
  intros Hl u Hd.
  pose proof (folder_service_run remote py_repr f p Hl) as Hrun.
  cbv zeta in Hrun. fold u in Hrun. rewrite Hd in Hrun.
  apply inserted_overwrites with (q := sent (info_request u) p).
  - unfold eval. now rewrite Hrun.
  - unfold exec. now rewrite Hrun.
  - reflexivity.
Qed.

(** A pass builds its working set from nothing, so it ends with keys that
    are distinct and equal to the identifiers. *)
Lemma walk_cache_ok s :
  cache_ok (all_datasets (exec (walk remote py_repr) (start s))).
Proof.
  apply (keeps_walk remote py_repr
           (R := fun p p' => cache_ok (all_datasets p) ->
                             cache_ok (all_datasets p')) (start s)).
  split; [constructor | intros k x []].
Qed.

End StepsOverwrite.

(** C3. After every discovery pass the keys of [cached_datasets] are
    pairwise distinct and each key is the [id] of the record it maps to;
    every later call keeps this. When a service is recorded whose
    identifier is already a key of the working set - whichever of the three
    loops finds it, and whatever was recorded before - the new record takes
    the place of the old one without any error: the later one wins. *)
Theorem C3_cache_keys_and_last_write_wins :
  forall remote py_repr (s : server) (now done : Q),
    cache_ok (cached_datasets
                (exec (_refresh_datasets remote py_repr true now done) s)) /\
    (forall force,
        cache_ok (cached_datasets s) ->
        cache_ok (cached_datasets
                    (exec (_refresh_datasets remote py_repr force now done) s))) /\
    (forall p n u info,
        descriptor (probe remote u p) = Some info ->
        overwrites (known_service remote n u) (known_dataset n u info) p) /\
    (forall p x sn ty info,
        listed x (JStr sn) ty ->
        dict_mem sn (known_services (self p)) = false ->
        let u := api_base (self p) ++ "/" ++ sn ++ "/" ++ ty in
        descriptor (probe remote u p) = Some info ->
        overwrites (root_service remote py_repr x) (root_dataset sn ty u info) p) /\
    (forall p f x name ty info,
        listed x name ty ->
        let u := api_base (self p) ++ "/" ++ qualified py_repr f name
                 ++ "/" ++ ty in
        descriptor (probe remote u p) = Some info ->
        overwrites (folder_service remote py_repr f x)
          (folder_dataset py_repr f name ty u info) p).
Proof.
  intros remote py_repr s now done.
  split; [|split; [|split; [|split]]].
  - unfold exec. rewrite refresh_forced. apply walk_cache_ok.
  - intros force Hok. unfold exec.
    destruct (fresh force (last_refresh s) now) eqn:E.
    + now rewrite refresh_skips.
    + rewrite refresh_runs by exact E. apply walk_cache_ok.
  - intros p n u info. apply known_service_overwrites.
  - intros p x sn ty info. apply root_service_overwrites.
  - intros p f x name ty info. apply folder_service_overwrites.
Qed.

Lemma C3_cache_keys_and_last_write_wins_witness :
  let p0 :=
    exec (known_service Demo.remote_up "Leases" Demo.leases_url)
         (start init_server) in
  let x := JObj [("name", JStr "LEASES"); ("type", JStr "MapServer")] in
  let u := Demo.base ++ "/LEASES/MapServer" in
  dict_keys (all_datasets p0) = ["leases"] /\
  overwrites (root_service Demo.remote_up Demo.repr x)
    (root_dataset "LEASES" "MapServer" u [("description", JStr "Leases as a map")])
    p0.
Proof.
  intros p0 x u. split; [vm_compute; reflexivity|].
  destruct (C3_cache_keys_and_last_write_wins Demo.remote_up Demo.repr
              init_server (10 # 1) (11 # 1)) as (_ & _ & _ & Hroot & _).
  apply (Hroot p0 x "LEASES" "MapServer").
  - exists [("name", JStr "LEASES"); ("type", JStr "MapServer")].
    repeat split.
  - vm_compute. reflexivity.
  - vm_compute. reflexivity.
Defined.

(** ** C5: the default description *)

Lemma default_description info text :
  dict_get "description" info = None ->
  dict_get_default "description" (JStr text) info = JStr text.
Proof. intros H. unfold dict_get_default. now rewrite H. Qed.

(** The claim as it is written fails for a known service: the descriptor
    of [Leases] has no description, and the description recorded reads
    "feature service", not "service". *)
Lemma C5_known_service_reads_feature_service :
  option_map ds_service_info
    (dict_get "leases" (cached_datasets Demo.known_only))
  = Some (JObj [("layers", JArr [])]) /\
  option_map ds_description
    (dict_get "leases" (cached_datasets Demo.known_only))
  = Some (JStr "Leases feature service from eThekwini municipality") /\
  JStr "Leases feature service from eThekwini municipality"
  <> JStr ("Leases" ++ " service from eThekwini municipality").
Proof.
  split; [vm_compute; reflexivity|].
  split; [vm_compute; reflexivity|].
  intros H. discriminate H.
Qed.

Lemma given_description info text v :
  dict_get "description" info = Some v ->
  dict_get_default "description" (JStr text) info = v.
Proof. intros H. unfold dict_get_default. now rewrite H. Qed.

(** C5 (amended). The default is the default of [dict.get]: it applies
    when the descriptor of a discovered service has no key [description],
    and only then. In that case a known service gets the description
    ["{name} feature service from eThekwini municipality"]; a root service
    gets ["{name} service from eThekwini municipality"]; a service of a
    folder gets the same text with the name under which the folder lists
    it, which is neither the folder name nor the folder-qualified name.
    When the descriptor has the key, in each of the three loops, its value
    is recorded as it is, whatever it is: a descriptor that gives [null] or
    the empty string as description leaves [null] or the empty string in
    the record, not the default text. *)
Theorem C5_default_description :
  forall remote py_repr,
    (forall p n u info,
        descriptor (probe remote u p) = Some info ->
        dict_get "description" info = None ->
        described (known_service remote n u) p (PyStr.lower n)
          (n ++ " feature service from eThekwini municipality")) /\
    (forall p x sn ty info,
        listed x (JStr sn) ty ->
        dict_mem sn (known_services (self p)) = false ->
        descriptor
          (probe remote (api_base (self p) ++ "/" ++ sn ++ "/" ++ ty) p)
        = Some info ->
        dict_get "description" info = None ->
        described (root_service remote py_repr x) p (PyStr.lower sn)
          (sn ++ " service from eThekwini municipality")) /\
    (forall p f x name ty info,
        listed x name ty ->
        descriptor
          (probe remote
             (api_base (self p) ++ "/" ++ qualified py_repr f name ++ "/" ++ ty)
             p)
        = Some info ->
        dict_get "description" info = None ->
        described (folder_service remote py_repr f x) p
          (PyStr.replace "/" "_" (PyStr.lower (qualified py_repr f name)))
          (py_format py_repr name ++ " service from eThekwini municipality")) /\
    (forall p n u info v,
        descriptor (probe remote u p) = Some info ->
        dict_get "description" info = Some v ->
        description_is (known_service remote n u) p (PyStr.lower n) v) /\
    (forall p x sn ty info v,
        listed x (JStr sn) ty ->
        dict_mem sn (known_services (self p)) = false ->
        descriptor
          (probe remote (api_base (self p) ++ "/" ++ sn ++ "/" ++ ty) p)
        = Some info ->
        dict_get "description" info = Some v ->
        description_is (root_service remote py_repr x) p (PyStr.lower sn) v) /\
    (forall p f x name ty info v,
        listed x name ty ->
        descriptor
          (probe remote
             (api_base (self p) ++ "/" ++ qualified py_repr f name ++ "/" ++ ty)
             p)
        = Some info ->
        dict_get "description" info = Some v ->
        description_is (folder_service remote py_repr f x) p
          (PyStr.replace "/" "_" (PyStr.lower (qualified py_repr f name))) v).
Proof.
  intros remote py_repr. split; [|split; [|split; [|split; [|split]]]].
  - intros p n u info Hd Hnone.
    destruct (@known_service_overwrites remote p n u info Hd) as (_ & Hget & _).
    eexists. split; [exact Hget|]. now apply default_description.
  - intros p x sn ty info Hl Hk Hd Hnone.
    destruct (@root_service_overwrites remote py_repr p x sn ty info Hl Hk Hd)
      as (_ & Hget & _).
    eexists. split; [exact Hget|]. now apply default_description.
  - intros p f x name ty info Hl Hd Hnone.
    destruct (@folder_service_overwrites remote py_repr p f x name ty info
                Hl Hd) as (_ & Hget & _).
    eexists. split; [exact Hget|]. now apply default_description.
  - intros p n u info v Hd Hsome.
    destruct (@known_service_overwrites remote p n u info Hd) as (_ & Hget & _).
    eexists. split; [exact Hget|]. now apply given_description.
  - intros p x sn ty info v Hl Hk Hd Hsome.
    destruct (@root_service_overwrites remote py_repr p x sn ty info Hl Hk Hd)
      as (_ & Hget & _).
    eexists. split; [exact Hget|]. now apply given_description.
  - intros p f x name ty info v Hl Hd Hsome.
    destruct (@folder_service_overwrites remote py_repr p f x name ty info
                Hl Hd) as (_ & Hget & _).
    eexists. split; [exact Hget|]. now apply given_description.
Qed.

Lemma C5_default_description_witness :
  described
    (folder_service Demo.remote_up Demo.repr (JStr "Planning")
       (JObj [("name", JStr "Zoning"); ("type", JStr "FeatureServer")]))
    (start init_server) "planning_zoning"
    "Zoning service from eThekwini municipality" /\
  description_is
    (known_service
       (fun _ _ => Http 200 (Some (JObj [("description", JNull)])))
       "Leases" Demo.leases_url)
    (start init_server) "leases" JNull /\
  description_is
    (root_service
       (fun _ _ => Http 200 (Some (JObj [("description", JStr "")])))
       Demo.repr
       (JObj [("name", JStr "Roads"); ("type", JStr "MapServer")]))
    (start init_server) "roads" (JStr "").
Proof.
  split; [|split].
  - destruct (C5_default_description Demo.remote_up Demo.repr) as (_ & _ & H & _).
    apply (H (start init_server) (JStr "Planning")
             (JObj [("name", JStr "Zoning"); ("type", JStr "FeatureServer")])
             (JStr "Zoning") "FeatureServer" [("layers", JArr [])]).
    + exists [("name", JStr "Zoning"); ("type", JStr "FeatureServer")].
      repeat split.
    + vm_compute. reflexivity.
    + reflexivity.
  - destruct (C5_default_description
                (fun _ _ => Http 200 (Some (JObj [("description", JNull)])))
                Demo.repr) as (_ & _ & _ & H & _).
    apply (H (start init_server) "Leases" Demo.leases_url
             [("description", JNull)] JNull).
    + vm_compute. reflexivity.
    + reflexivity.
  - destruct (C5_default_description
                (fun _ _ => Http 200 (Some (JObj [("description", JStr "")])))
                Demo.repr) as (_ & _ & _ & _ & H & _).
    apply (H (start init_server)
             (JObj [("name", JStr "Roads"); ("type", JStr "MapServer")])
             "Roads" "MapServer" [("description", JStr "")] (JStr "")).
    + exists [("name", JStr "Roads"); ("type", JStr "MapServer")].
      repeat split.
    + reflexivity.
    + vm_compute. reflexivity.
    + reflexivity.
Defined.

(** ** C6: the identifier of a dataset *)

Lemma lower_ascii_slash c :
  Ascii.eqb (PyStr.lower_ascii c) "/" = Ascii.eqb c "/".
Proof. destruct c as [[] [] [] [] [] [] [] []]; reflexivity. Qed.

Lemma contains_slash_cons c r :
  PyStr.contains "/" (String c r) = (Ascii.eqb c "/" || PyStr.contains "/" r)%bool.
Proof.
  cbn [PyStr.contains String.prefix].
  destruct (ascii_dec "/" c) as [<-|Hne].
  - now destruct r.
  - destruct (Ascii.eqb_spec c "/") as [->|_]; [contradiction|reflexivity].
Qed.

(** Lowering a name that has no slash gives a text in which there is
    nothing to replace. *)
Lemma replace_without_slash n :
  PyStr.contains "/" n = false ->
  PyStr.replace "/" "_" (PyStr.lower n) = PyStr.lower n.
Proof.
  induction n as [|c r IH]; [reflexivity|].
  rewrite contains_slash_cons. intros H.
  apply orb_false_iff in H. destruct H as [Hc Hr].
  unfold PyStr.replace, PyStr.lower in *. cbn [PyStr.map_chars].
  rewrite lower_ascii_slash, Hc. f_equal. now apply IH.
Qed.

(** The claim as it is written fails for a known service whose name has a
    slash: registered under the name of the example, [Leases/Active], it is
    cached under [leases/active], not under [leases_active]. *)
Lemma C6_known_service_keeps_slash :
  dict_keys
    (cached_datasets
       (exec (_add_known_service Demo.remote_same Demo.repr Demo.exn_text
                "Leases/Active" "https://example.org/Leases/Active/FeatureServer"
                (10 # 1) (11 # 1))
             init_server))
  = ["leases"; "leases/active"] /\
  PyStr.replace "/" "_" (PyStr.lower "Leases/Active") = "leases_active".
Proof. split; vm_compute; reflexivity. Qed.

(** C6 (amended). The identifier of a service found in a folder is the
    lowercase of its folder-qualified name with every ['/'] replaced by
    ['_']: folder [Leases] and service [Active] give [leases_active]. The
    identifier of a known service and of a root service is the lowercase of
    its name, with no replacement; it is the same as with the replacement
    when the name has no ['/']. In each case the record is stored under its
    identifier. *)
Theorem C6_dataset_identifier :
  forall remote py_repr,
    (forall p f x name ty info,
        listed x name ty ->
        descriptor
          (probe remote
             (api_base (self p) ++ "/" ++ qualified py_repr f name ++ "/" ++ ty)
             p)
        = Some info ->
        identified (folder_service remote py_repr f x) p
          (PyStr.replace "/" "_" (PyStr.lower (qualified py_repr f name)))
          (qualified py_repr f name)) /\
    PyStr.replace "/" "_"
      (PyStr.lower (qualified py_repr (JStr "Leases") (JStr "Active")))
    = "leases_active" /\
    (forall p n u info,
        descriptor (probe remote u p) = Some info ->
        identified (known_service remote n u) p (PyStr.lower n) n) /\
    (forall p x sn ty info,
        listed x (JStr sn) ty ->
        dict_mem sn (known_services (self p)) = false ->
        descriptor
          (probe remote (api_base (self p) ++ "/" ++ sn ++ "/" ++ ty) p)
        = Some info ->
        identified (root_service remote py_repr x) p (PyStr.lower sn) sn) /\
    (forall n,
        PyStr.contains "/" n = false ->
        PyStr.lower n = PyStr.replace "/" "_" (PyStr.lower n)).
Proof.
  intros remote py_repr. split; [|split; [|split; [|split]]].
  - intros p f x name ty info Hl Hd.
    destruct (@folder_service_overwrites remote py_repr p f x name ty info
                Hl Hd) as (_ & Hget & _).
    eexists. split; [exact Hget|]. split; reflexivity.
  - reflexivity.
  - intros p n u info Hd.
    destruct (@known_service_overwrites remote p n u info Hd) as (_ & Hget & _).
    eexists. split; [exact Hget|]. split; reflexivity.
  - intros p x sn ty info Hl Hk Hd.
    destruct (@root_service_overwrites remote py_repr p x sn ty info Hl Hk Hd)
      as (_ & Hget & _).
    eexists. split; [exact Hget|]. split; reflexivity.
  - intros n Hn. symmetry. now apply replace_without_slash.
Qed.

Lemma C6_dataset_identifier_witness :
  identified
    (folder_service Demo.remote_same Demo.repr (JStr "Leases")
       (JObj [("name", JStr "Active"); ("type", JStr "FeatureServer")]))
    (start init_server) "leases_active" "Leases/Active" /\
  PyStr.lower "Roads" = PyStr.replace "/" "_" (PyStr.lower "Roads").
Proof.
  destruct (C6_dataset_identifier Demo.remote_same Demo.repr)
    as (Hfolder & _ & _ & _ & Hplain).
  split.
  - apply (Hfolder (start init_server) (JStr "Leases")
             (JObj [("name", JStr "Active"); ("type", JStr "FeatureServer")])
             (JStr "Active") "FeatureServer" [("layers", JArr [])]).
    + exists [("name", JStr "Active"); ("type", JStr "FeatureServer")].
      repeat split.
    + vm_compute. reflexivity.
  - apply Hplain. reflexivity.
Defined.

(** ** C7: a failing probe stops nothing else *)

Lemma holds_extends p p' dataset_id name :
  extends p p' -> holds p dataset_id name -> holds p' dataset_id name.
Proof. intros (_ & Hd & Hs) [H1 H2]. split; auto. Qed.

Lemma holds_inserted d p : holds (inserted d p) (ds_id d) (ds_name d).
Proof. apply inserted_keys. Qed.

Section Found.
Variable remote : list request -> request -> reply.
Variable py_repr : json -> string.

Lemma serves_descriptor u info p :
  serves remote u info -> descriptor (probe remote u p) = Some info.
Proof.
  intros [Hrep Hne]. unfold probe. rewrite Hrep. simpl.
  destruct info; [contradiction | reflexivity].
Qed.

Lemma extends_api_base p p' :
  extends p p' -> api_base (self p') = api_base (self p).
Proof. now intros ((H & _) & _). Qed.

Lemma extends_known p p' :
  extends p p' -> known_services (self p') = known_services (self p).
Proof. now intros ((_ & _ & _ & _ & H) & _). Qed.

(** The loop over the known services records every known service whose
    own probe is served. *)
Lemma known_found s n u info :
  In (n, u) (known_services s) ->
  serves remote u info ->
  holds (exec (walk remote py_repr) (start s)) (PyStr.lower n) n.
Proof.
  intros Hin Hserves. rewrite walk_exec.
  eapply holds_extends;
    [apply (keeps_discover_catalog remote py_repr (R := extends))|].
  unfold discover_known, exec. rewrite bind_get_state. cbn [self start].
  destruct (for_each_reaches (R := extends)
              (known_services s)
              (fun item => known_service remote (fst item) (snd item))
              (n, u) Hin
              (fun y p _ => known_service_total remote (fst y) (snd y) p)
              (fun y => keeps_known_service remote (R := extends) (fst y) (snd y))
              (start s))
    as (p1 & _ & Hlater).
  eapply holds_extends; [exact Hlater|].
  cbn [fst snd]. rewrite known_service_exec.
  rewrite (serves_descriptor p1 Hserves).
  apply (holds_inserted (known_dataset n u info)).
Qed.

Lemma at_catalog_extends s : extends (start s) (at_catalog remote s).
Proof.
  eapply rely_trans; [|apply extends_sent].
  apply (keeps_discover_known remote (R := extends)).
Qed.

(** With a root listing that is served and well formed, the walk is the
    loop over its services followed by the part on the folders. *)
Lemma walk_lists s cat items :
  lists remote (api_base s) cat ->
  dict_get_default "services" (JArr []) cat = JArr items ->
  Forall root_entry_ok items ->
  exec (walk remote py_repr) (start s) =
  exec (folders_part remote py_repr (JObj cat))
    (exec (for_each items (root_service remote py_repr)) (at_catalog remote s)).
Proof.
  intros Hlists Hsv Hok. rewrite walk_exec.
  assert (Hb : api_base (self (exec (discover_known remote) (start s)))
               = api_base s).
  { apply (extends_api_base (p := start s)).
    apply (keeps_discover_known remote (R := extends)). }
  rewrite discover_catalog_lists with (cat := cat) (items := items);
    [now rewrite Hb | | exact Hsv | exact Hok].
  unfold catalog_reply. rewrite Hb. apply Hlists.
Qed.

(** The loop over the root services records every listed service that is
    not in the registry and whose own probe is served. *)
Lemma root_found s cat items x sn ty info :
  lists remote (api_base s) cat ->
  dict_get_default "services" (JArr []) cat = JArr items ->
  Forall root_entry_ok items ->
  In x items ->
  listed x (JStr sn) ty ->
  dict_mem sn (known_services s) = false ->
  serves remote (api_base s ++ "/" ++ sn ++ "/" ++ ty) info ->
  holds (exec (walk remote py_repr) (start s)) (PyStr.lower sn) sn.
Proof.
  intros Hlists Hsv Hok Hin Hl Hk Hserves.
  rewrite (walk_lists s Hlists Hsv Hok).
  eapply holds_extends;
    [apply (keeps_folders_part remote py_repr (R := extends))|].
  destruct (for_each_reaches (R := extends) items
              (root_service remote py_repr) x Hin
              (fun y p Hy => root_service_total remote py_repr p
                               (proj1 (Forall_forall _ _) Hok y Hy))
              (keeps_root_service remote py_repr (R := extends))
              (at_catalog remote s))
    as (p1 & Hp1 & Hlater).
  eapply holds_extends; [exact Hlater|].
  assert (H1 : extends (start s) p1)
    by (eapply rely_trans; [apply at_catalog_extends | exact Hp1]).
  pose proof (extends_api_base H1) as Hb.
  pose proof (extends_known H1) as Hkn. cbn [self start] in Hb, Hkn.
  assert (Hk1 : dict_mem sn (known_services (self p1)) = false)
    by now rewrite Hkn.
  pose proof (root_service_run remote py_repr p1 Hl Hk1) as Hrun.
  cbv zeta in Hrun. rewrite Hb in Hrun.
  rewrite (serves_descriptor p1 Hserves) in Hrun.
  unfold exec at 1. rewrite Hrun. cbn [snd].
  apply (holds_inserted
           (root_dataset sn ty (api_base s ++ "/" ++ sn ++ "/" ++ ty) info)).
Qed.

(** The loop over the folders records every service that a served folder
    lists and whose own probe is served. *)
Lemma folder_found s cat items folders f fcat fitems x name ty info :
  lists remote (api_base s) cat ->
  dict_get_default "services" (JArr []) cat = JArr items ->
  Forall root_entry_ok items ->
  dict_get_default "folders" (JArr []) cat = JArr folders ->
  In f folders ->
  lists remote (api_base s ++ "/" ++ py_format py_repr f) fcat ->
  dict_get_default "services" (JArr []) fcat = JArr fitems ->
  Forall is_object fitems ->
  In x fitems ->
  listed x name ty ->
  serves remote
    (api_base s ++ "/" ++ qualified py_repr f name ++ "/" ++ ty) info ->
  holds (exec (walk remote py_repr) (start s))
    (PyStr.replace "/" "_" (PyStr.lower (qualified py_repr f name)))
    (qualified py_repr f name).
Proof.
  intros Hlists Hsv Hok Hfolders Hf Hflists Hfsv Hfok Hin Hl Hserves.
  rewrite (walk_lists s Hlists Hsv Hok).
  rewrite (folders_part_list remote py_repr _ cat Hfolders).
  set (pa := exec (for_each items (root_service remote py_repr)) (at_catalog remote s)).
  assert (Hpa : extends (start s) pa).
  { eapply rely_trans; [apply at_catalog_extends|].
    apply (keeps_for_each (R := extends)). intros y.
    apply (keeps_root_service remote py_repr (R := extends)). }
  destruct (for_each_reaches (R := extends) folders
              (folder_services remote py_repr) f Hf
              (fun y p _ => folder_services_total remote py_repr y p)
              (keeps_folder_services remote py_repr (R := extends))
              pa)
    as (p1 & Hp1 & Hlater).
  eapply holds_extends; [exact Hlater|].
  assert (H1 : extends (start s) p1)
    by (eapply rely_trans; [exact Hpa | exact Hp1]).
  pose proof (extends_api_base H1) as Hb1. cbn [self start] in Hb1.
  rewrite folder_services_lists with (fcat := fcat) (items := fitems);
    [ | unfold folder_reply; rewrite Hb1; apply Hflists | exact Hfsv
      | exact Hfok ].
  rewrite Hb1.
  set (p1' := sent _ p1).
  assert (H1' : extends (start s) p1')
    by (eapply rely_trans; [exact H1 | apply extends_sent]).
  destruct (for_each_reaches (R := extends) fitems
              (folder_service remote py_repr f) x Hin
              (fun y p Hy => folder_service_total remote py_repr f p
                               (proj1 (Forall_forall _ _) Hfok y Hy))
              (keeps_folder_service remote py_repr (R := extends) f)
              p1')
    as (p2 & Hp2 & Hlater2).
  eapply holds_extends; [exact Hlater2|].
  assert (H2 : extends (start s) p2)
    by (eapply rely_trans; [exact H1' | exact Hp2]).
  pose proof (extends_api_base H2) as Hb2. cbn [self start] in Hb2.
  pose proof (folder_service_run remote py_repr f p2 Hl) as Hrun.
  cbv zeta in Hrun. rewrite Hb2 in Hrun.
  rewrite (serves_descriptor p2 Hserves) in Hrun.
  unfold exec at 1. rewrite Hrun. cbn [snd].
  apply (holds_inserted
           (folder_dataset py_repr f name ty
              (api_base s ++ "/" ++ qualified py_repr f name ++ "/" ++ ty)
              info)).
Qed.

End Found.

(** C7. A discovery pass always runs to its end: it returns normally and
    stamps the cache, whatever the remote does. In it every item stands on
    its own probe: a known service whose probe is served is in the cache; so
    is a service of the root listing that qualifies, is not in the registry
    and whose probe is served; so is a service listed by a folder whose
    catalog is served, when its own probe is served. Nothing is asked of any
    other probe: each of them may be unreachable, answer with an error
    status or with a body that is malformed. *)
Theorem C7_probe_failures_are_local :
  forall remote py_repr (s : server) (now done : Q),
    let run := _refresh_datasets remote py_repr true now done s in
    fst run = Ok tt /\
    last_refresh (snd run) = Some done /\
    (forall n u info,
        In (n, u) (known_services s) ->
        serves remote u info ->
        cached (snd run) (PyStr.lower n) n) /\
    (forall cat items x sn ty info,
        lists remote (api_base s) cat ->
        dict_get_default "services" (JArr []) cat = JArr items ->
        Forall root_entry_ok items ->
        In x items ->
        listed x (JStr sn) ty ->
        dict_mem sn (known_services s) = false ->
        serves remote (api_base s ++ "/" ++ sn ++ "/" ++ ty) info ->
        cached (snd run) (PyStr.lower sn) sn) /\
    (forall cat items folders f fcat fitems x name ty info,
        lists remote (api_base s) cat ->
        dict_get_default "services" (JArr []) cat = JArr items ->
        Forall root_entry_ok items ->
        dict_get_default "folders" (JArr []) cat = JArr folders ->
        In f folders ->
        lists remote (api_base s ++ "/" ++ py_format py_repr f) fcat ->
        dict_get_default "services" (JArr []) fcat = JArr fitems ->
        Forall is_object fitems ->
        In x fitems ->
        listed x name ty ->
        serves remote
          (api_base s ++ "/" ++ qualified py_repr f name ++ "/" ++ ty) info ->
        cached (snd run)
          (PyStr.replace "/" "_" (PyStr.lower (qualified py_repr f name)))
          (qualified py_repr f name)).
Proof.
  intros remote py_repr s now done run. subst run.
  rewrite refresh_forced. cbn [fst snd].
  split; [reflexivity|]. split; [reflexivity|].
  unfold cached. cbn [commit self cached_datasets cached_services].
  split; [|split].
  - intros n u info Hin Hserves.
    exact (@known_found remote py_repr s n u info Hin Hserves).
  - intros cat items x sn ty info Hlists Hsv Hok Hin Hl Hk Hserves.
    exact (@root_found remote py_repr s cat items x sn ty info
             Hlists Hsv Hok Hin Hl Hk Hserves).
  - intros cat items folders f fcat fitems x name ty info
           Hlists Hsv Hok Hfolders Hf Hflists Hfsv Hfok Hin Hl Hserves.
    exact (@folder_found remote py_repr s cat items folders f fcat fitems x
             name ty info Hlists Hsv Hok Hfolders Hf Hflists Hfsv Hfok
             Hin Hl Hserves).
Qed.

(** In the run against the stub the probe of [Roads] fails with status
    500; the services around it are cached all the same. *)
Lemma C7_probe_failures_are_local_witness :
  Demo.remote_up [] (info_request (Demo.base ++ "/Roads/FeatureServer"))
  = Http 500 None /\
  cached Demo.populated "leases" "Leases" /\
  cached Demo.populated "leases" "LEASES" /\
  cached Demo.populated "planning_zoning" "Planning/Zoning".
Proof.
  pose (cat :=
    [("services",
      JArr [JObj [("name", JStr "LEASES"); ("type", JStr "MapServer")];
            JObj [("name", JStr "Roads"); ("type", JStr "FeatureServer")];
            JObj [("name", JStr "Tiles"); ("type", JStr "ImageServer")]]);
     ("folders", JArr [JStr "Planning"])]).
  pose (items :=
    [JObj [("name", JStr "LEASES"); ("type", JStr "MapServer")];
     JObj [("name", JStr "Roads"); ("type", JStr "FeatureServer")];
     JObj [("name", JStr "Tiles"); ("type", JStr "ImageServer")]]).
  pose (fcat :=
    [("services",
      JArr [JObj [("name", JStr "Zoning"); ("type", JStr "FeatureServer")]])]).
  pose (fitems :=
    [JObj [("name", JStr "Zoning"); ("type", JStr "FeatureServer")]]).
  assert (Hlists : lists Demo.remote_up (api_base init_server) cat)
    by (intros h; vm_compute; reflexivity).
  assert (Hsv : dict_get_default "services" (JArr []) cat = JArr items)
    by reflexivity.
  assert (Hok : Forall root_entry_ok items).
  { repeat constructor.
    - eexists. split; [reflexivity|]. right. exact I.
    - eexists. split; [reflexivity|]. right. exact I.
    - eexists. split; [reflexivity|]. left. reflexivity. }
  destruct (C7_probe_failures_are_local Demo.remote_up Demo.repr init_server
              (10 # 1) (11 # 1)) as (_ & _ & Hknown & Hroot & Hfolder).
  split; [vm_compute; reflexivity|]. split; [|split].
  - apply (Hknown "Leases" Demo.leases_url
             [("serviceDescription", JStr "Lease register");
              ("layers", JArr [JObj [("id", JNum (NInt 0))];
                               JObj [("id", JNum (NInt 1))]])]).
    + left. reflexivity.
    + split; [intros h; vm_compute; reflexivity | discriminate].
  - apply (Hroot cat items
             (JObj [("name", JStr "LEASES"); ("type", JStr "MapServer")])
             "LEASES" "MapServer" [("description", JStr "Leases as a map")]
             Hlists Hsv Hok).
    + left. reflexivity.
    + eexists. repeat split.
    + reflexivity.
    + split; [intros h; vm_compute; reflexivity | discriminate].
  - apply (Hfolder cat items [JStr "Planning"] (JStr "Planning") fcat fitems
             (JObj [("name", JStr "Zoning"); ("type", JStr "FeatureServer")])
             (JStr "Zoning") "FeatureServer" [("layers", JArr [])]
             Hlists Hsv Hok).
    + reflexivity.
    + left. reflexivity.
    + intros h. vm_compute. reflexivity.
    + reflexivity.
    + repeat constructor. eexists. reflexivity.
    + left. reflexivity.
    + eexists. repeat split.
    + split; [intros h; vm_compute; reflexivity | discriminate].
Defined.

(* ================================================================== *)
(** * Further properties of the code *)

(** ** Probes absorb failures, data queries surface them *)

(** X1. [_get_service_info] never raises and sends exactly one request, the
    probe of the URL; it changes no other field of [self]. It returns the
    decoded body when the status is 200 and the body decodes, and [None] in
    every other case: no answer, another status, a body that does not
    decode. *)
Theorem X1_service_info_absorbs_failures :
  forall remote (service_url : string) (s : server),
    let rep := remote (client_log s) (info_request service_url) in
    let run := _get_service_info remote service_url s in
    client_log (snd run) = (client_log s ++ [info_request service_url])%list /\
    same_fields s (snd run) /\
    (forall v, rep = Http 200 (Some v) -> fst run = Ok v) /\
    ((forall v, rep <> Http 200 (Some v)) -> fst run = Ok JNull).
Proof.
  intros remote u s rep run. subst run. rewrite get_service_info_run.
  fold rep. cbn [fst snd]. split; [reflexivity|]. split; [repeat split|].
  split.
  - intros v ->. reflexivity.
  - intros Hbad. destruct rep as [|status body]; [reflexivity|].
    cbn [decoded]. destruct body as [v|]; [|reflexivity].
    destruct (status =? 200) eqn:E; [|reflexivity].
    apply Z.eqb_eq in E. subst status. now destruct (Hbad v).
Qed.

Lemma X1_service_info_absorbs_failures_witness :
  fst (_get_service_info Demo.remote_up
         (Demo.base ++ "/Roads/FeatureServer") init_server) = Ok JNull.
Proof.
  destruct (X1_service_info_absorbs_failures Demo.remote_up
              (Demo.base ++ "/Roads/FeatureServer") init_server)
    as (_ & _ & _ & H).
  apply H. intros v Hv. vm_compute in Hv. discriminate Hv.
Defined.

(** The three lines that end every data query: send, check the status,
    decode. *)
Lemma fetch_run remote r s :
  (response <- client_get remote r ;;
   raise_for_status (fst response) ;;
   response_json (snd response)) s =
  (fetched (remote (client_log s) r),
   set_client_log (client_log s ++ [r])%list s).
Proof.
  unfold bind at 1, client_get, fetched.
  destruct (remote (client_log s) r) as [|status body]; [reflexivity|].
  cbn [fst snd]. unfold bind, raise_for_status.
  destruct ((200 <=? status) && (status <=? 299))%bool; [|reflexivity].
  now destruct body.
Qed.

(** X2. The four data queries send exactly one request and do not swallow
    its failure: no answer raises the network error, a status outside 2xx
    raises the status error, a body that does not decode raises the
    decoding error, and only a decoded 2xx body is returned. The caches, the
    registry and the timestamp are left as they were. *)
Theorem X2_data_queries_surface_failures :
  forall remote dumps (s : server),
    (forall url layer where_ geometry rel rg max_records out_fields,
        surfaces remote
          (_query_feature_layer remote url layer where_ geometry rel rg
             max_records out_fields) s) /\
    (forall url layer field stat where_,
        surfaces remote
          (_get_layer_statistics remote dumps url layer field stat where_) s) /\
    (forall url layer xmin ymin xmax ymax buffer max_records,
        surfaces remote
          (_spatial_query_by_coordinates remote dumps url layer
             xmin ymin xmax ymax buffer max_records) s) /\
    (forall where_ layer format max_records,
        surfaces remote
          (_query_leases_dataset remote where_ layer format max_records) s).
Proof.
  intros remote dumps s. repeat split; intros; eexists; apply fetch_run.
Qed.

(** ** The URL of a layer *)

Lemma endswith_app_slash u : PyStr.endswith "/" (u ++ "/") = true.
Proof.
  induction u as [|a r IH]; [reflexivity|].
  destruct r as [|b r']; [reflexivity|]. exact IH.
Qed.

Lemma with_slash_app u :
  PyStr.endswith "/" u = false -> with_slash (u ++ "/") = with_slash u.
Proof.
  intros H. unfold with_slash. now rewrite endswith_app_slash, H.
Qed.

Lemma with_slash_ends u : PyStr.endswith "/" (with_slash u) = true.
Proof.
  unfold with_slash. destruct (PyStr.endswith "/" u) eqn:E; simpl.
  - exact E.
  - apply endswith_app_slash.
Qed.

(** X3. The separator at the end of the service URL does not matter: a URL
    that does not end with ['/'] and the same URL followed by ['/'] give the
    same request and the same result, in the attribute query, the statistics
    query, the field listing and the bounding-box query. The separator is
    added once only: normalising twice is normalising once. *)
Theorem X3_trailing_slash_is_normalised :
  forall remote dumps (u : string),
    PyStr.endswith "/" u = false ->
    (forall layer where_ geometry rel rg max_records out_fields s,
        _query_feature_layer remote (u ++ "/") layer where_ geometry rel rg
          max_records out_fields s
        = _query_feature_layer remote u layer where_ geometry rel rg
            max_records out_fields s) /\
    (forall layer field stat where_ s,
        _get_layer_statistics remote dumps (u ++ "/") layer field stat where_ s
        = _get_layer_statistics remote dumps u layer field stat where_ s) /\
    (forall layer s,
        _get_layer_fields remote (u ++ "/") layer s
        = _get_layer_fields remote u layer s) /\
    (forall layer xmin ymin xmax ymax buffer max_records s,
        _spatial_query_by_coordinates remote dumps (u ++ "/") layer
          xmin ymin xmax ymax buffer max_records s
        = _spatial_query_by_coordinates remote dumps u layer
            xmin ymin xmax ymax buffer max_records s) /\
    with_slash (with_slash u) = with_slash u.
Proof.
  intros remote dumps u Hu.
  pose proof (with_slash_app u Hu) as Hs.
  split; [|split; [|split; [|split]]].
  - intros. unfold _query_feature_layer. now rewrite Hs.
  - intros. unfold _get_layer_statistics. now rewrite Hs.
  - intros. unfold _get_layer_fields. now rewrite Hs.
  - intros. unfold _spatial_query_by_coordinates.
    fold (with_slash (u ++ "/")). fold (with_slash u). now rewrite Hs.
  - unfold with_slash at 1. now rewrite with_slash_ends.
Qed.

Lemma X3_trailing_slash_is_normalised_witness :
  _get_layer_fields Demo.remote_down "https://example.org/Roads/" 4 init_server
  = _get_layer_fields Demo.remote_down "https://example.org/Roads" 4 init_server.
Proof.
  assert (H : PyStr.endswith "/" "https://example.org/Roads" = false)
    by reflexivity.
  destruct (@X3_trailing_slash_is_normalised Demo.remote_down Demo.dumps
              "https://example.org/Roads" H) as (_ & _ & Hf & _).
  apply Hf.
Defined.

(** ** The request of an attribute query *)

(** X4. [_query_feature_layer] sends one request to
    [{service_url}/{layer_id}/query] with the clause, the fields, the cap
    and the flag [returnGeometry] written as [true] or [false]; the spatial
    relation is sent in every case. A geometry goes out only when it is not
    the empty string, and then always with the geometry type polygon; with
    no geometry, or an empty one, neither [geometry] nor [geometryType] is
    sent. *)
Theorem X4_feature_query_request :
  forall remote (url : string) (layer : Z) (where_ : string)
         (geometry : option string) (rel : string) (rg : bool)
         (max_records : Z) (out_fields : string) (s : server),
    let s' :=
      exec (_query_feature_layer remote url layer where_ geometry rel rg
              max_records out_fields) s in
    exists r,
      client_log s' = (client_log s ++ [r])%list /\
      req_url r = with_slash url ++ PyStr.of_Z layer ++ "/query" /\
      feature_params where_ out_fields rel rg max_records (req_params r) /\
      (forall g, geometry = Some g -> g <> "" ->
         dict_get "geometry" (req_params r) = Some (PStr g) /\
         dict_get "geometryType" (req_params r)
         = Some (PStr "esriGeometryPolygon")) /\
      (geometry_given geometry = false ->
         dict_get "geometry" (req_params r) = None /\
         dict_get "geometryType" (req_params r) = None).
Proof.
  intros remote url layer where_ geometry rel rg max_records out_fields s s'.
  subst s'. unfold _query_feature_layer, exec. cbv zeta.
  rewrite fetch_run. cbn [snd set_client_log client_log].
  eexists. split; [reflexivity|]. cbn [req_url req_params].
  split; [reflexivity|].
  destruct geometry as [g|]; [destruct (g =? "")%string eqn:E|];
    cbn [negb geometry_given].
  - split; [destruct rg; repeat split|]. split.
    + intros g' [= <-] Hg. apply String.eqb_eq in E. contradiction.
    + intros _. now split.
  - split; [destruct rg; repeat split|]. split.
    + intros g' [= <-] _. now split.
    + rewrite E. discriminate.
  - split; [destruct rg; repeat split|]. split.
    + discriminate.
    + intros _. now split.
Qed.

Lemma X4_feature_query_request_witness :
  exists r,
    client_log
      (exec (_query_feature_layer Demo.remote_down "https://example.org/Roads"
               2 "1=1" (Some "{}") "esriSpatialRelIntersects" true 100 "*")
            init_server) = [r] /\
    dict_get "geometryType" (req_params r) = Some (PStr "esriGeometryPolygon").
Proof.
  destruct (X4_feature_query_request Demo.remote_down
              "https://example.org/Roads" 2 "1=1" (Some "{}")
              "esriSpatialRelIntersects" true 100 "*" init_server)
    as (r & Hlog & _ & _ & Hg & _).
  exists r. split; [exact Hlog|].
  apply (Hg "{}"); [reflexivity | discriminate].
Defined.

(** ** The fields of a layer *)







(** ** The summary of categories and service types *)

Section Summary.
Variable S : Type.

Lemma count_type_get k ty (t : pydict Z) :
  dict_get ty (count_type k t) =
  if (ty =? k)%string then Some (dict_get_default k 0 t + 1)
  else dict_get ty t.
Proof.
  unfold count_type, dict_mem, dict_get_default.
  destruct (String.eqb_spec ty k) as [->|Hne].
  - rewrite dict_get_set_same. f_equal. f_equal.
    destruct (dict_get k t) eqn:E; [now rewrite E|].
    now rewrite dict_get_set_same.
  - rewrite dict_get_set_other by exact Hne.
    destruct (dict_get k t); [reflexivity|].
    now rewrite dict_get_set_other by exact Hne.
Qed.

Lemma total_set k v (t : pydict Z) :
  total (dict_set k v t) = total t - dict_get_default k 0 t + v.
Proof.
  induction t as [|[k' v'] r IH].
  - unfold total, dict_get_default. simpl. lia.
  - unfold total, dict_get_default in *. simpl.
    destruct (k =? k')%string; simpl; lia.
Qed.

Lemma count_type_total k (t : pydict Z) : total (count_type k t) = total t + 1.
Proof.
  unfold count_type. cbv zeta. destruct (dict_mem k t) eqn:E.
  - rewrite total_set. lia.
  - rewrite !total_set.
    assert (Z : dict_get_default k 0 t = 0).
    { unfold dict_mem in E. unfold dict_get_default.
      now destruct (dict_get k t). }
    lia.
Qed.

Lemma count_type_NoDup k (t : pydict Z) :
  NoDup (dict_keys t) -> NoDup (dict_keys (count_type k t)).
Proof.
  intros H. unfold count_type. apply dict_set_NoDup.
  destruct (dict_mem k t); [exact H | now apply dict_set_NoDup].
Qed.

(** The loop over the categories of one dataset leaves the state alone; it
    returns the dictionary with the name filed under every category, or
    raises at the first category that cannot be hashed. *)
Lemma add_categories_run cats name : forall acc (s : S),
  snd (add_categories cats name acc s) = s /\
  (Forall hashable cats ->
   fst (add_categories cats name acc s)
   = Ok (fold_left (fun a c => add_name c name a) cats acc)) /\
  (~ Forall hashable cats ->
   fst (add_categories cats name acc s) = Raise TypeError).
Proof.
  induction cats as [|c r IH]; intros acc s; cbn [add_categories fold_left].
  - split; [reflexivity|]. split; [reflexivity|].
    intros H. destruct H. constructor.
  - destruct (IH (add_name c name acc) s) as (I1 & I2 & I3).
    destruct c; cbn [hashable];
      try (split; [exact I1|]; split;
           [ intros H; apply I2; now inversion H
           | intros H; apply I3; intros Hr; apply H; constructor;
             [exact I | exact Hr] ]);
      (split; [reflexivity|]; split;
       [ intros H; inversion H; contradiction | reflexivity ]).
Qed.

Lemma hashable_or_not (l : list json) :
  Forall hashable l \/ ~ Forall hashable l.
Proof.
  induction l as [|x r [IH|IH]].
  - left. constructor.
  - destruct x; cbn [hashable];
      try (left; constructor; [exact I | exact IH]);
      right; intros H; inversion H; contradiction.
  - right. intros H. inversion H. contradiction.
Qed.

Lemma summarize_run items : forall acc t (s : S),
  snd (summarize items acc t s) = s /\
  (hashable_categories items ->
   fst (summarize items acc t s) = Ok (file_all items acc, count_all items t)) /\
  (~ hashable_categories items ->
   fst (summarize items acc t s) = Raise TypeError).
Proof.
  unfold hashable_categories.
  induction items as [|[k d] r IH]; intros acc t s;
    cbn [summarize dict_values map].
  - split; [reflexivity|]. split; [reflexivity|].
    intros H. destruct H. constructor.
  - destruct (add_categories_run (ds_categories d) (ds_name d) acc s)
      as (A1 & A2 & A3).
    unfold bind.
    destruct (hashable_or_not (ds_categories d)) as [Hd|Hd].
    + specialize (A2 Hd).
      destruct (add_categories (ds_categories d) (ds_name d) acc s)
        as [[c|e] s1]; cbn [fst snd] in A1, A2; subst s1; [|discriminate].
      injection A2 as ->.
      destruct (IH (fold_left (fun a c => add_name c (ds_name d) a)
                      (ds_categories d) acc)
                   (count_type (ds_type d) t) s) as (I1 & I2 & I3).
      split; [exact I1|]. split.
      * intros H. inversion H as [|? ? _ Hr]; subst. now rewrite (I2 Hr).
      * intros H. apply I3. intros Hr. apply H. now constructor.
    + specialize (A3 Hd).
      destruct (add_categories (ds_categories d) (ds_name d) acc s)
        as [[c|e] s1]; cbn [fst snd] in A1, A3; subst s1; [discriminate|].
      injection A3 as ->.
      split; [reflexivity|]. split; [|reflexivity].
      intros H. inversion H. contradiction.
Qed.

End Summary.

Lemma hashable_categories_or_not (items : pydict dataset_info) :
  hashable_categories items \/ ~ hashable_categories items.
Proof.
  unfold hashable_categories.
  induction (dict_values items) as [|d r [IH|IH]].
  - left. constructor.
  - destruct (hashable_or_not (ds_categories d)) as [H|H].
    + left. now constructor.
    + right. intros H'. inversion H'. contradiction.
  - right. intros H'. inversion H'. contradiction.
Qed.

Lemma list_services_run remote py_repr now done s :
  let s' := exec (_refresh_datasets remote py_repr false now done) s in
  let cache := cached_datasets s' in
  (hashable_categories cache ->
   _list_municipal_services remote py_repr now done s =
   (Ok {| sm_categories := file_all cache [];
          sm_service_types := count_all cache [];
          sm_total_datasets := List.length cache;
          sm_total_services := List.length (cached_services s') |}, s')) /\
  (~ hashable_categories cache ->
   _list_municipal_services remote py_repr now done s = (Raise TypeError, s')).
Proof.
  intros s' cache.
  assert (E : forall B (k : M server B),
             (_refresh_datasets remote py_repr false now done ;; k) s
             = k s').
  { intros B k. unfold bind.
    rewrite (run_eta (_refresh_datasets remote py_repr false now done) s).
    now rewrite refresh_total. }
  destruct (summarize_run cache [] [] s') as (A1 & A2 & A3).
  unfold _list_municipal_services.
  split; intros H; rewrite E, bind_get_state; unfold bind; fold cache;
    rewrite (surjective_pairing (summarize cache [] [] s')), A1.
  - now rewrite (A2 H).
  - now rewrite (A3 H).
Qed.

Lemma of_type_cons ty k d (r : pydict dataset_info) :
  List.length (of_type ty ((k, d) :: r)) =
  ((if (ds_type d =? ty)%string then 1 else 0) + List.length (of_type ty r))%nat.
Proof.
  unfold of_type. cbn [dict_values map snd filter].
  now destruct (ds_type d =? ty)%string.
Qed.

Lemma counted_default k (t : pydict Z) n :
  dict_get k t = counted n -> dict_get_default k 0 t = Z.of_nat n.
Proof.
  unfold dict_get_default. intros ->. now destruct n.
Qed.

Lemma count_all_get items : forall (t : pydict Z) (c : string -> nat),
  (forall ty, dict_get ty t = counted (c ty)) ->
  forall ty,
    dict_get ty (count_all items t)
    = counted (c ty + List.length (of_type ty items)).
Proof.
  induction items as [|[k d] r IH]; intros t c Hc ty.
  - cbn. now rewrite Nat.add_0_r.
  - unfold count_all. cbn [fold_left snd]. fold (count_all r).
    rewrite (IH (count_type (ds_type d) t)
               (fun ty => (c ty + if (ds_type d =? ty)%string then 1 else 0)%nat)).
    + rewrite of_type_cons. f_equal. lia.
    + intros ty'. rewrite count_type_get, String.eqb_sym.
      destruct (String.eqb_spec (ds_type d) ty') as [<-|_].
      * rewrite (@counted_default _ _ _ (Hc (ds_type d))).
        rewrite Nat.add_1_r. cbn [counted]. f_equal. lia.
      * now rewrite Nat.add_0_r.
Qed.

Lemma count_all_total items : forall t : pydict Z,
  total (count_all items t) = total t + Z.of_nat (List.length items).
Proof.
  induction items as [|[k d] r IH]; intros t.
  - cbn [count_all fold_left List.length]. lia.
  - unfold count_all. cbn [fold_left snd]. fold (count_all r).
    rewrite IH, count_type_total. cbn [List.length]. lia.
Qed.

Lemma count_all_NoDup items : forall t : pydict Z,
  NoDup (dict_keys t) -> NoDup (dict_keys (count_all items t)).
Proof.
  induction items as [|[k d] r IH]; intros t H; [exact H|].
  unfold count_all. cbn [fold_left snd]. fold (count_all r).
  apply IH. now apply count_type_NoDup.
Qed.

(** X6. When [_list_municipal_services] returns, its [service_types] holds,
    for every type, the number of cached datasets of that type, and no key
    for a type that no cached dataset has; no type is listed twice, and the
    counts add up to [total_datasets], the size of the refreshed cache. *)
Theorem X6_service_type_counts :
  forall remote py_repr (now done : Q) (s : server) (sm : summary),
    eval (_list_municipal_services remote py_repr now done) s = Ok sm ->
    let cache :=
      cached_datasets (exec (_refresh_datasets remote py_repr false now done) s) in
    (forall ty,
        dict_get ty (sm_service_types sm)
        = counted (List.length (of_type ty cache))) /\
    NoDup (dict_keys (sm_service_types sm)) /\
    total (sm_service_types sm) = Z.of_nat (sm_total_datasets sm) /\
    sm_total_datasets sm = List.length cache.
Proof.
  intros remote py_repr now done s sm Hsm cache.
  destruct (list_services_run remote py_repr now done s) as [Hok Hbad].
  cbv zeta in Hok, Hbad. fold cache in Hok, Hbad.
  destruct (hashable_categories_or_not cache) as [H|H].
  - unfold eval in Hsm. rewrite (Hok H) in Hsm. injection Hsm as <-.
    cbn [sm_service_types sm_total_datasets]. repeat split.
    + intros ty. now rewrite (count_all_get cache [] (fun _ => 0%nat)).
    + apply count_all_NoDup. constructor.
    + now rewrite count_all_total.
  - unfold eval in Hsm. rewrite (Hbad H) in Hsm. discriminate Hsm.
Qed.

Lemma X6_service_type_counts_witness :
  exists sm,
    eval (_list_municipal_services Demo.remote_up Demo.repr (20 # 1) (21 # 1))
      Demo.populated = Ok sm /\
    sm_service_types sm = [("MapServer", 1); ("FeatureServer", 1)] /\
    total (sm_service_types sm) = Z.of_nat (sm_total_datasets sm).
Proof.
  eexists. split; [vm_compute; reflexivity|].
  split; [reflexivity|].
  refine (proj1 (proj2 (proj2
            (@X6_service_type_counts Demo.remote_up Demo.repr (20 # 1) (21 # 1)
               Demo.populated _ _)))).
  vm_compute. reflexivity.
Defined.

Lemma key_eqb_refl c : hashable c -> key_eqb c c = true.
Proof.
  destruct c as [| b | [z|q] | str | |]; cbn [hashable key_eqb key_number];
    try tauto; intros _.
  - apply Qeq_bool_iff. reflexivity.
  - apply Qeq_bool_iff. reflexivity.
  - apply Qeq_bool_iff. reflexivity.
  - apply String.eqb_refl.
Qed.

Lemma add_name_files c n acc : hashable c -> files (add_name c n acc) c n.
Proof.
  intros Hc. induction acc as [|[k names] r IH]; cbn [add_name].
  - exists c, [n]. repeat split; [now left | now apply key_eqb_refl | now left].
  - destruct (key_eqb c k) eqn:E.
    + exists k, (names ++ [n])%list. repeat split; [now left | exact E |].
      apply in_or_app. right. now left.
    + destruct IH as (key & names' & H1 & H2 & H3).
      exists key, names'. repeat split; [now right | exact H2 | exact H3].
Qed.

Lemma add_name_keeps c n acc c' n' :
  files acc c' n' -> files (add_name c n acc) c' n'.
Proof.
  intros (key & names & Hin & Hk & Hn).
  induction acc as [|[k ns] r IH]; [destruct Hin|]. cbn [add_name].
  destruct Hin as [[= -> ->]|Hin].
  - destruct (key_eqb c key).
    + exists key, (names ++ [n])%list. repeat split; [now left | exact Hk |].
      apply in_or_app. now left.
    + exists key, names. repeat split; [now left | exact Hk | exact Hn].
  - destruct (key_eqb c k).
    + exists key, names. repeat split; [now right | exact Hk | exact Hn].
    + destruct (IH Hin) as (key' & names' & H1 & H2 & H3).
      exists key', names'. repeat split; [now right | exact H2 | exact H3].
Qed.

(** A name listed after [add_name] was listed before, or is the name that
    was added, under a key equal to its category. *)
Lemma add_name_from c n acc key names n' :
  hashable c ->
  In (key, names) (add_name c n acc) -> In n' names ->
  (key_eqb c key = true /\ n' = n) \/
  (exists names0, In (key, names0) acc /\ In n' names0).
Proof.
  intros Hc. induction acc as [|[k ns] r IH]; cbn [add_name].
  - intros [[= <- <-]|[]] [<-|[]]. left. split; [now apply key_eqb_refl|reflexivity].
  - destruct (key_eqb c k) eqn:E.
    + intros [[= <- <-]|Hin] Hn.
      * apply in_app_or in Hn. destruct Hn as [Hn|[<-|[]]].
        -- right. exists ns. split; [now left | exact Hn].
        -- left. now split.
      * right. exists names. split; [now right | exact Hn].
    + intros [[= <- <-]|Hin] Hn.
      * right. exists ns. split; [now left | exact Hn].
      * destruct (IH Hin Hn) as [H|(names0 & H1 & H2)]; [now left|].
        right. exists names0. split; [now right | exact H2].
Qed.

(** The categories of one dataset, filed one after the other. *)
Lemma file_one cats n : forall acc,
  Forall hashable cats ->
  let out := fold_left (fun a c => add_name c n a) cats acc in
  (forall c' n', files acc c' n' -> files out c' n') /\
  (forall c, In c cats -> files out c n) /\
  (forall key names n',
      In (key, names) out -> In n' names ->
      (exists c, In c cats /\ key_eqb c key = true /\ n' = n) \/
      (exists names0, In (key, names0) acc /\ In n' names0)).
Proof.
  induction cats as [|c r IH]; intros acc Hh; cbn [fold_left].
  - split; [tauto|]. split; [intros c []|].
    intros key names n' Hin Hn. right. now exists names.
  - inversion Hh as [|? ? Hc Hr]; subst.
    destruct (IH (add_name c n acc) Hr) as (I1 & I2 & I3). cbv zeta in *.
    split; [|split].
    + intros c' n' H. apply I1. now apply add_name_keeps.
    + intros c' [<-|Hin]; [|now apply I2].
      apply I1. now apply add_name_files.
    + intros key names n' Hin Hn.
      destruct (I3 key names n' Hin Hn) as [(c' & H1 & H2 & H3)|(names0 & H1 & H2)].
      * left. exists c'. repeat split; [now right | exact H2 | exact H3].
      * destruct (@add_name_from c n acc _ _ _ Hc H1 H2) as [[H3 H4]|H3].
        -- left. exists c. repeat split; [now left | exact H3 | exact H4].
        -- now right.
Qed.

Lemma file_all_run items : forall acc,
  hashable_categories items ->
  let out := file_all items acc in
  (forall c' n', files acc c' n' -> files out c' n') /\
  (forall k d c, In (k, d) items -> In c (ds_categories d) ->
                 files out c (ds_name d)) /\
  (forall key names n,
      In (key, names) out -> In n names ->
      (exists k d c, In (k, d) items /\ ds_name d = n /\
                     In c (ds_categories d) /\ key_eqb c key = true) \/
      (exists names0, In (key, names0) acc /\ In n names0)).
Proof.
  unfold hashable_categories.
  induction items as [|[k d] r IH]; intros acc Hh;
    cbn [file_all fold_left dict_values map snd] in *.
  - split; [tauto|]. split; [intros k d c []|].
    intros key names n' Hin Hn. right. now exists names.
  - inversion Hh as [|? ? Hd Hr]; subst.
    destruct (@file_one (ds_categories d) (ds_name d) acc Hd) as (O1 & O2 & O3).
    destruct (IH (fold_left (fun a c => add_name c (ds_name d) a)
                    (ds_categories d) acc) Hr) as (I1 & I2 & I3).
    cbv zeta in *. fold (file_all r) in *.
    split; [|split].
    + intros c' n' H. apply I1. now apply O1.
    + intros k' d' c [[= <- <-]|Hin] Hc.
      * apply I1. now apply O2.
      * now apply (I2 k' d' c).
    + intros key names n Hin Hn.
      destruct (I3 key names n Hin Hn)
        as [(k' & d' & c & H1 & H2 & H3 & H4)|(names0 & H1 & H2)].
      * left. exists k', d', c. repeat split; try assumption. now right.
      * destruct (O3 key names0 n H1 H2) as [(c & H3 & H4 & H5)|H3].
        -- left. exists k, d, c. repeat split; try assumption; [now left | now symmetry].
        -- now right.
Qed.

(** X7. When [_list_municipal_services] returns, its [categories] lists
    the name of every cached dataset under each category of that dataset,
    and lists nothing else: every name found under a key is the name of a
    cached dataset that has a category equal to the key. *)
Theorem X7_categories_list_names :
  forall remote py_repr (now done : Q) (s : server) (sm : summary),
    eval (_list_municipal_services remote py_repr now done) s = Ok sm ->
    let cache :=
      cached_datasets (exec (_refresh_datasets remote py_repr false now done) s) in
    (forall k d c,
        In (k, d) cache -> In c (ds_categories d) ->
        files (sm_categories sm) c (ds_name d)) /\
    (forall key names n,
        In (key, names) (sm_categories sm) -> In n names ->
        exists k d c,
          In (k, d) cache /\ ds_name d = n /\
          In c (ds_categories d) /\ key_eqb c key = true).
Proof.
  intros remote py_repr now done s sm Hsm cache.
  destruct (list_services_run remote py_repr now done s) as [Hok Hbad].
  cbv zeta in Hok, Hbad. fold cache in Hok, Hbad.
  destruct (hashable_categories_or_not cache) as [H|H].
  - unfold eval in Hsm. rewrite (Hok H) in Hsm. injection Hsm as <-.
    cbn [sm_categories].
    destruct (@file_all_run cache [] H) as (_ & F2 & F3). cbv zeta in F2, F3.
    split; [exact F2|].
    intros key names n Hin Hn.
    destruct (F3 key names n Hin Hn) as [Hfound|(names0 & [] & _)].
    exact Hfound.
  - unfold eval in Hsm. rewrite (Hbad H) in Hsm. discriminate Hsm.
Qed.

Lemma X7_categories_list_names_witness :
  exists sm,
    eval (_list_municipal_services Demo.remote_up Demo.repr (20 # 1) (21 # 1))
      Demo.populated = Ok sm /\
    sm_categories sm
    = [(JStr "Municipal Services", ["LEASES"; "Planning/Zoning"]);
       (JStr "Planning", ["Planning/Zoning"])] /\
    forall key names n,
      In (key, names) (sm_categories sm) -> In n names ->
      exists k d c,
        In (k, d)
          (cached_datasets
             (exec (_refresh_datasets Demo.remote_up Demo.repr false
                      (20 # 1) (21 # 1)) Demo.populated)) /\
        ds_name d = n /\ In c (ds_categories d) /\ key_eqb c key = true.
Proof.
  assert (H : exists sm,
             eval (_list_municipal_services Demo.remote_up Demo.repr
                     (20 # 1) (21 # 1)) Demo.populated = Ok sm /\
             sm_categories sm
             = [(JStr "Municipal Services", ["LEASES"; "Planning/Zoning"]);
                (JStr "Planning", ["Planning/Zoning"])]).
  { eexists. split; vm_compute; reflexivity. }
  destruct H as (sm & Hsm & Hcat).
  exists sm. split; [exact Hsm|]. split; [exact Hcat|].
  exact (proj2 (@X7_categories_list_names Demo.remote_up Demo.repr
                  (20 # 1) (21 # 1) Demo.populated sm Hsm)).
Defined.

(** X8. [_list_municipal_services] returns exactly when every category of
    every cached dataset can be hashed; a category that is a list or a
    dictionary, which a folder of the catalog can be, makes it raise
    [TypeError]. In both cases the state it leaves is the refreshed one. *)
Theorem X8_summary_needs_hashable_categories :
  forall remote py_repr (now done : Q) (s : server),
    let s' := exec (_refresh_datasets remote py_repr false now done) s in
    let run := _list_municipal_services remote py_repr now done s in
    snd run = s' /\
    (hashable_categories (cached_datasets s') -> exists sm, fst run = Ok sm) /\
    (forall k d c,
        In (k, d) (cached_datasets s') -> In c (ds_categories d) ->
        ~ hashable c -> fst run = Raise TypeError).
Proof.
  intros remote py_repr now done s s' run.
  destruct (list_services_run remote py_repr now done s) as [Hok Hbad].
  cbv zeta in Hok, Hbad. fold s' in Hok, Hbad. fold run in Hok, Hbad.
  assert (Hnot : forall k d c,
             In (k, d) (cached_datasets s') -> In c (ds_categories d) ->
             ~ hashable c -> ~ hashable_categories (cached_datasets s')).
  { intros k d c Hin Hc Hn Hall. unfold hashable_categories in Hall.
    rewrite Forall_forall in Hall.
    assert (Hd : In d (dict_values (cached_datasets s')))
      by (unfold dict_values; change d with (snd (k, d)); now apply in_map).
    specialize (Hall d Hd). rewrite Forall_forall in Hall.
    exact (Hn (Hall c Hc)). }
  split; [|split].
  - destruct (hashable_categories_or_not (cached_datasets s')) as [H|H].
    + now rewrite (Hok H).
    + now rewrite (Hbad H).
  - intros H. rewrite (Hok H). eexists. reflexivity.
  - intros k d c Hin Hc Hn. now rewrite (Hbad (Hnot k d c Hin Hc Hn)).
Qed.

Lemma X8_summary_needs_hashable_categories_witness :
  eval (_list_municipal_services remote_list_folder Demo.repr (10 # 1) (11 # 1))
    init_server = Raise TypeError.
Proof.
  destruct (@X8_summary_needs_hashable_categories remote_list_folder Demo.repr
              (10 # 1) (11 # 1) init_server) as (_ & _ & H).
  pose (cache := cached_datasets
                   (exec (_refresh_datasets remote_list_folder Demo.repr false
                            (10 # 1) (11 # 1)) init_server)).
  pose (kd := nth 2 cache ("", known_dataset "" "" [])).
  apply (H (fst kd) (snd kd) (JArr [])).
  - vm_compute. right. right. now left.
  - vm_compute. right. now left.
  - intros Hh. exact Hh.
Defined.

(** ** Reading a resource *)

Lemma refresh_then {B} remote py_repr force now done (k : M server B) s :
  (_refresh_datasets remote py_repr force now done ;; k) s
  = k (exec (_refresh_datasets remote py_repr force now done) s).
Proof.
  unfold bind.
  rewrite (run_eta (_refresh_datasets remote py_repr force now done) s).
  now rewrite refresh_total.
Qed.

Lemma replace_from_skip old new t : forall s,
  PyStr.replace_from old new (String.length t) (t ++ s)
  = PyStr.replace_from old new 0 s.
Proof.
  induction t as [|c t IH]; intros s; [reflexivity|].
  cbn [String.length append PyStr.replace_from]. apply IH.
Qed.

Lemma replace_all_absent old new s :
  PyStr.contains old s = false -> PyStr.replace_all old new s = s.
Proof.
  unfold PyStr.replace_all. induction s as [|c r IH]; [reflexivity|].
  cbn [PyStr.contains PyStr.replace_from]. intros H.
  apply orb_false_iff in H. destruct H as [Hp Hr].
  rewrite Hp. f_equal. now apply IH.
Qed.

Lemma replace_all_prefix a o new rest :
  PyStr.replace_all (String a o) new (String a o ++ rest)
  = new ++ PyStr.replace_all (String a o) new rest.
Proof.
  unfold PyStr.replace_all.
  assert (Hp : String.prefix (String a o) (String a (o ++ rest)) = true)
    by (apply prefix_app; now exists rest).
  cbn [append]. cbn [PyStr.replace_from]. rewrite Hp.
  cbn [String.length]. rewrite Nat.sub_succ, Nat.sub_0_r.
  now rewrite replace_from_skip.
Qed.

Lemma split_whole a :
  PyStr.contains "/" a = false -> PyStr.split "/" a = [a].
Proof.
  induction a as [|c r IH]; [reflexivity|].
  rewrite contains_slash_cons. intros H.
  apply orb_false_iff in H. destruct H as [Hc Hr].
  cbn [PyStr.split]. rewrite Hc, (IH Hr). reflexivity.
Qed.

Lemma split_first a b :
  PyStr.contains "/" a = false ->
  PyStr.split "/" (a ++ "/" ++ b) = a :: PyStr.split "/" b.
Proof.
  induction a as [|c r IH].
  - intros _. reflexivity.
  - rewrite contains_slash_cons. intros H.
    apply orb_false_iff in H. destruct H as [Hc Hr].
    cbn [append PyStr.split]. rewrite Hc.
    cbn [append] in IH. now rewrite (IH Hr).
Qed.

Lemma append_empty (s : string) : s ++ "" = s.
Proof. induction s as [|c r IH]; [reflexivity|]. cbn. now rewrite IH. Qed.

Lemma replace_scheme rest :
  PyStr.contains scheme rest = false ->
  PyStr.replace_all scheme "" (scheme ++ rest) = rest.
Proof.
  intros Hs. unfold scheme at 1 2. rewrite replace_all_prefix. fold scheme.
  cbn [append]. now apply replace_all_absent.
Qed.

(** The parts of a resource URI, as line 99 takes it apart. *)
Lemma resource_uri_parts kind rid rest :
  PyStr.contains "/" kind = false ->
  PyStr.contains "/" rid = false ->
  trailing rest ->
  PyStr.contains scheme (kind ++ "/" ++ rid ++ rest) = false ->
  exists more,
    PyStr.split "/" (PyStr.replace_all scheme "" (resource_uri kind rid rest))
    = kind :: rid :: more.
Proof.
  intros Hk Hr Hrest Hs. unfold resource_uri.
  rewrite (@replace_scheme _ Hs).
  rewrite (@split_first kind _ Hk).
  destruct Hrest as [->|[t ->]].
  - rewrite append_empty, (@split_whole rid Hr). now exists [].
  - rewrite (@split_first rid _ Hr). now eexists.
Qed.

Lemma read_resource_run remote py_repr dumps_dataset dumps_service
    kind rid rest now done s :
  PyStr.contains "/" kind = false ->
  PyStr.contains "/" rid = false ->
  trailing rest ->
  PyStr.contains scheme (kind ++ "/" ++ rid ++ rest) = false ->
  let s' := exec (_refresh_datasets remote py_repr false now done) s in
  handle_read_resource remote py_repr dumps_dataset dumps_service
    (resource_uri kind rid rest) now done s =
  (match (kind =? "dataset")%string, dict_get rid (cached_datasets s') with
   | true, Some d => Ok (dumps_dataset d)
   | _, _ =>
       match (kind =? "service")%string, dict_get rid (cached_services s') with
       | true, Some e => Ok (dumps_service e)
       | _, _ =>
           Raise (ValueError ("Resource not found: "
                              ++ resource_uri kind rid rest))
       end
   end, s').
Proof.
  intros Hk Hr Hrest Hs s'.
  destruct (@resource_uri_parts kind rid rest Hk Hr Hrest Hs) as [more Hparts].
  unfold handle_read_resource. fold scheme.
  assert (Hp : String.prefix scheme (resource_uri kind rid rest) = true)
    by (apply prefix_app; unfold resource_uri; now eexists).
  rewrite Hp. cbn [negb]. cbv zeta. rewrite Hparts.
  rewrite refresh_then, bind_get_state. fold s'.
  destruct (kind =? "dataset")%string;
    [destruct (dict_get rid (cached_datasets s')); [reflexivity|]|];
    (destruct (kind =? "service")%string;
     [destruct (dict_get rid (cached_services s'))|]; reflexivity).
Qed.

(** X9. [handle_read_resource] takes the text between the scheme and the
    first slash as the kind of the resource and the text up to the next
    slash as its identifier. For a URI of this shape it refreshes the cache
    if it is stale and returns the serialised dataset cached under the
    identifier when the kind is [dataset], the serialised service cached
    under it when the kind is [service], and raises [Resource not found]
    in every other case. *)
Theorem X9_resource_uri_is_resolved :
  forall remote py_repr dumps_dataset dumps_service
         (kind rid rest : string) (now done : Q) (s : server),
    PyStr.contains "/" kind = false ->
    PyStr.contains "/" rid = false ->
    trailing rest ->
    PyStr.contains scheme (kind ++ "/" ++ rid ++ rest) = false ->
    let s' := exec (_refresh_datasets remote py_repr false now done) s in
    let run :=
      handle_read_resource remote py_repr dumps_dataset dumps_service
        (resource_uri kind rid rest) now done s in
    let missing :=
      Raise (ValueError ("Resource not found: " ++ resource_uri kind rid rest)) in
    snd run = s' /\
    (forall d, kind = "dataset" -> dict_get rid (cached_datasets s') = Some d ->
               fst run = Ok (dumps_dataset d)) /\
    (forall e, kind = "service" -> dict_get rid (cached_services s') = Some e ->
               fst run = Ok (dumps_service e)) /\
    (kind = "dataset" -> dict_get rid (cached_datasets s') = None ->
     fst run = missing) /\
    (kind = "service" -> dict_get rid (cached_services s') = None ->
     fst run = missing) /\
    (kind <> "dataset" -> kind <> "service" -> fst run = missing).
Proof.
  intros remote py_repr dumps_dataset dumps_service kind rid rest now done s
         Hk Hr Hrest Hs s' run missing.
  subst run missing.
  rewrite (@read_resource_run remote py_repr dumps_dataset dumps_service
             kind rid rest now done s Hk Hr Hrest Hs).
  cbv zeta. fold s'. cbn [fst snd].
  split; [reflexivity|]. split; [|split; [|split; [|split]]].
  - intros d -> Hd. now rewrite Hd.
  - intros e -> He. now rewrite He.
  - intros -> Hd. now rewrite Hd.
  - intros -> He. now rewrite He.
  - intros H1 H2. apply String.eqb_neq in H1, H2. now rewrite H1, H2.
Qed.

Lemma X9_resource_uri_is_resolved_witness :
  fst (handle_read_resource Demo.remote_up Demo.repr ds_name se_url
         (resource_uri "dataset" "planning_zoning" "") (20 # 1) (21 # 1)
         Demo.populated)
  = Ok "Planning/Zoning".
Proof.
  destruct (@X9_resource_uri_is_resolved Demo.remote_up Demo.repr ds_name se_url
              "dataset" "planning_zoning" "" (20 # 1) (21 # 1) Demo.populated
              eq_refl eq_refl (or_introl eq_refl) eq_refl)
    as (_ & H & _).
  cbv zeta in H.
  assert (Hd : exists d,
             dict_get "planning_zoning"
               (cached_datasets
                  (exec (_refresh_datasets Demo.remote_up Demo.repr false
                           (20 # 1) (21 # 1)) Demo.populated)) = Some d /\
             ds_name d = "Planning/Zoning").
  { eexists. split; vm_compute; reflexivity. }
  destruct Hd as (d & Hd & Hn).
  rewrite (H d eq_refl Hd). now rewrite Hn.
Defined.

(** X10. A service that was found in a folder is cached under the name
    [folder/name], but its resource URI is not read back under that name:
    the identifier ends at the slash, so the lookup is made under [folder],
    and the call raises [Resource not found] when no service is cached
    under [folder] alone. *)
Theorem X10_folder_service_uri_is_not_read :
  forall remote py_repr dumps_dataset dumps_service
         (folder name : string) (now done : Q) (s : server),
    PyStr.contains "/" folder = false ->
    PyStr.contains scheme ("service/" ++ folder ++ "/" ++ name) = false ->
    let s' := exec (_refresh_datasets remote py_repr false now done) s in
    let uri := scheme ++ "service/" ++ (folder ++ "/" ++ name) in
    dict_get folder (cached_services s') = None ->
    handle_read_resource remote py_repr dumps_dataset dumps_service
      uri now done s
    = (Raise (ValueError ("Resource not found: " ++ uri)), s').
Proof.
  intros remote py_repr dumps_dataset dumps_service folder name now done s
         Hf Hs s' uri Hnone.
  assert (Hu : uri = resource_uri "service" folder ("/" ++ name)) by reflexivity.
  rewrite Hu.
  rewrite (@read_resource_run remote py_repr dumps_dataset dumps_service
             "service" folder ("/" ++ name) now done s eq_refl Hf
             (or_intror (ex_intro _ name eq_refl)) Hs).
  cbv zeta. fold s'. now rewrite Hnone.
Qed.

Lemma X10_folder_service_uri_is_not_read_witness :
  In "Planning/Zoning" (dict_keys (cached_services Demo.populated)) /\
  fst (handle_read_resource Demo.remote_up Demo.repr ds_name se_url
         "ethekwini-gis://service/Planning/Zoning" (20 # 1) (21 # 1)
         Demo.populated)
  = Raise (ValueError
             "Resource not found: ethekwini-gis://service/Planning/Zoning").
Proof.
  split; [vm_compute; tauto|].
  assert (Hnone : dict_get "Planning"
                    (cached_services
                       (exec (_refresh_datasets Demo.remote_up Demo.repr false
                                (20 # 1) (21 # 1)) Demo.populated)) = None)
    by (vm_compute; reflexivity).
  exact (f_equal fst
           (@X10_folder_service_uri_is_not_read Demo.remote_up Demo.repr
              ds_name se_url "Planning" "Zoning" (20 # 1) (21 # 1)
              Demo.populated eq_refl eq_refl Hnone)).
Defined.

(** ** What every discovery pass does *)

Lemma server_type_some v ty :
  server_type v = Some ty -> ty = "FeatureServer" \/ ty = "MapServer".
Proof.
  destruct v as [| | | str | |]; cbn [server_type]; try discriminate.
  destruct (String.eqb_spec str "FeatureServer") as [->|_];
    [intros [= <-]; now left|].
  destruct (String.eqb_spec str "MapServer") as [->|_];
    [intros [= <-]; now right | discriminate].
Qed.

Ltac recorded_tac :=
  unfold recorded_from, dict_get_default; cbn;
  repeat lazymatch goal with
         | |- _ /\ _ => split
         | |- forall t, _ = Some t -> _ => intros t ->; reflexivity
         | |- exists more, _ => eexists; reflexivity
         | |- _ = _ => reflexivity
         end.

Lemma recorded_known n u info : recorded_from u info (known_dataset n u info).
Proof. unfold known_dataset. recorded_tac. now left. Qed.

Lemma recorded_root sn ty u info :
  ty = "FeatureServer" \/ ty = "MapServer" ->
  recorded_from u info (root_dataset sn ty u info).
Proof. intros Hty. unfold root_dataset. recorded_tac. now right. Qed.

Lemma recorded_folder py_repr f name ty u info :
  ty = "FeatureServer" \/ ty = "MapServer" ->
  recorded_from u info (folder_dataset py_repr f name ty u info).
Proof. intros Hty. unfold folder_dataset. recorded_tac. now right. Qed.

Section GrowsFacts.
Variable remote : list request -> request -> reply.
Variable py_repr : json -> string.
Context (R : pass -> pass -> Prop) `{!Grows remote R}.

Lemma grows_lift_client_get r : keeps R (lift_self (client_get remote r)).
Proof.
  intros p. unfold exec. rewrite lift_client_get_run. apply (@grows_sent remote R _).
Qed.

Lemma grows_known_service n u : keeps R (known_service remote n u).
Proof.
  intros p. rewrite known_service_exec.
  destruct (descriptor (probe remote u p)) as [info|] eqn:E.
  - apply (@grows_recorded remote R _ u info); [exact E | apply recorded_known].
  - apply (@grows_sent remote R _).
Qed.

Lemma grows_discover_known : keeps R (discover_known remote).
Proof. unfold discover_known. keeps_tac. apply grows_known_service. Qed.

Lemma grows_probed u (m : json -> M pass unit) p :
  (forall info,
      descriptor (probe remote u p) = Some info ->
      exists d,
        recorded_from u info d /\
        exec (m (JObj info)) (sent (info_request u) p)
        = inserted d (sent (info_request u) p) \/
        exec (m (JObj info)) (sent (info_request u) p)
        = sent (info_request u) p) ->
  (forall v q, descriptor v = None -> truthy v = true ->
               exec (m v) q = q) ->
  R p (exec (try_except
               (service_info <- lift_self (_get_service_info remote u) ;;
                if truthy service_info then m service_info else ret tt)
               (fun _ => ret tt)) p).
Proof.
  intros Hdict Hother. rewrite try_swallow_exec. unfold exec, bind at 1.
  rewrite lift_get_service_info_run. fold (probe remote u p).
  destruct (truthy (probe remote u p)) eqn:Et;
    [|apply (@grows_sent remote R _)].
  destruct (descriptor (probe remote u p)) as [info|] eqn:Ed.
  - assert (Hv : probe remote u p = JObj info).
    { destruct (probe remote u p) as [| | | | |[|x r]]; try discriminate Ed.
      now injection Ed as <-. }
    rewrite Hv. destruct (Hdict info eq_refl) as [d [[Hrec Hex]|Hex]];
      unfold exec in Hex; rewrite Hex.
    + now apply (@grows_recorded remote R _ u info).
    + apply (@grows_sent remote R _).
  - specialize (Hother (probe remote u p) (sent (info_request u) p) Ed Et).
    unfold exec in Hother. rewrite Hother. apply (@grows_sent remote R _).
Qed.

Lemma grows_root_service x : keeps R (root_service remote py_repr x).
Proof.
  intros p. destruct x as [| b | num | str | items | e];
    try apply rely_refl.
  unfold root_service, exec. cbn [py_get]. rewrite !bind_ret.
  destruct (server_type (dict_get_default "type" (JStr "") e)) as [ty|] eqn:Ety;
    [|apply rely_refl].
  apply server_type_some in Ety.
  rewrite bind_get_state.
  destruct (dict_get_default "name" (JStr "") e) as [| b | num | sn | items | o];
    cbn [py_in_dict]; try apply rely_refl; rewrite bind_ret;
    [ | | | destruct (dict_mem sn (known_services (self p)));
            [apply rely_refl|] ];
    cbn [negb]; cbv zeta;
    (apply grows_probed;
     [ intros info _
     | intros v q Hd Hv; destruct v as [| | | | |[|y r]];
       try discriminate Hd; try discriminate Hv; reflexivity ]).
  - exists (known_dataset "" "" info). now right.
  - exists (known_dataset "" "" info). now right.
  - exists (known_dataset "" "" info). now right.
  - eexists. left. split; [apply (recorded_root sn _ _ Ety)|]. reflexivity.
Qed.

Lemma grows_folder_service f x : keeps R (folder_service remote py_repr f x).
Proof.
  intros p. destruct x as [| b | num | str | items | e];
    try apply rely_refl.
  unfold folder_service, exec. cbn [py_get]. rewrite !bind_ret. cbv zeta.
  destruct (server_type (dict_get_default "type" (JStr "") e)) as [ty|] eqn:Ety;
    [|apply rely_refl].
  apply server_type_some in Ety.
  rewrite bind_get_state.
  apply grows_probed.
  - intros info _. eexists. left.
    split; [apply (recorded_folder py_repr f
                     (dict_get_default "name" (JStr "") e) _ _ Ety)|].
    reflexivity.
  - intros v q Hd Hv. destruct v as [| | | | |[|y r]];
      try discriminate Hd; try discriminate Hv; reflexivity.
Qed.

Lemma grows_folder_services f : keeps R (folder_services remote py_repr f).
Proof.
  unfold folder_services. keeps_tac;
    first [ apply grows_folder_service | apply grows_lift_client_get ].
Qed.

Lemma grows_discover_catalog : keeps R (discover_catalog remote py_repr).
Proof.
  unfold discover_catalog. keeps_tac;
    first [ apply grows_root_service | apply grows_folder_services
          | apply grows_lift_client_get ].
Qed.

Lemma grows_walk : keeps R (walk remote py_repr).
Proof.
  unfold walk. apply keeps_bind; [typeclasses eauto | |intros _].
  - apply grows_discover_known.
  - apply grows_discover_catalog.
Qed.

End GrowsFacts.

#[global] Instance log_extends_rely : Rely log_extends.
Proof.
  split.
  - intros p. exists []. now rewrite app_nil_r.
  - intros p1 p2 p3 [l1 H1] [l2 H2]. exists (l1 ++ l2)%list.
    now rewrite H2, H1, app_assoc.
Qed.

#[global] Instance log_extends_grows remote : Grows remote log_extends.
Proof.
  split.
  - typeclasses eauto.
  - intros r p. now exists [r].
  - intros u info d p _ _. now exists [info_request u].
Qed.

Lemma linked_inserted d datasets services :
  linked datasets services ->
  linked (dict_set (ds_id d) d datasets)
         (dict_set (ds_name d) (entry_of d) services).
Proof.
  intros (L1 & L2 & L3). split; [|split].
  - intros k e Hin. apply dict_set_In in Hin.
    destruct Hin as [[-> ->]|Hin].
    + split; [reflexivity|]. cbn [entry_of se_dataset_id].
      apply dict_set_keys. now left.
    + destruct (L1 k e Hin) as [H1 H2]. split; [exact H1|].
      apply dict_set_keys. now right.
  - intros k d' Hin. apply dict_set_In in Hin.
    destruct Hin as [[-> ->]|Hin].
    + apply dict_set_keys. now left.
    + apply dict_set_keys. right. exact (L2 k d' Hin).
  - now apply dict_set_NoDup.
Qed.

#[global] Instance linked_grows remote :
  Grows remote (fun p p' => linked (all_datasets p) (all_services p) ->
                            linked (all_datasets p') (all_services p')).
Proof.
  split.
  - split; [tauto | intros p1 p2 p3; tauto].
  - intros r p H. exact H.
  - intros u info d p _ _ H. now apply linked_inserted.
Qed.

Lemma descriptor_decoded rep info :
  descriptor (decoded rep) = Some info ->
  rep = Http 200 (Some (JObj info)) /\ info <> [].
Proof.
  destruct rep as [|status [v|]]; cbn [decoded]; try discriminate.
  destruct (status =? 200) eqn:E; [|discriminate].
  apply Z.eqb_eq in E. subst status.
  destruct v as [| | | | |[|x r]]; cbn [descriptor]; try discriminate.
  intros [= <-]. split; [reflexivity | discriminate].
Qed.

Lemma served_later remote before log d r :
  served remote before log d -> served remote before (log ++ [r])%list d.
Proof.
  intros (sooner & later & info & H1 & H2 & H3 & H4).
  exists sooner, (later ++ [r])%list, info.
  split; [|split; [exact H2|split; [exact H3|exact H4]]].
  now rewrite H1, <- app_assoc.
Qed.

#[global] Instance sourced_grows remote :
  Grows remote (fun p p' => forall before,
                  sourced remote before p -> sourced remote before p').
Proof.
  split.
  - split; [tauto | intros p1 p2 p3 H1 H2 before H; auto].
  - intros r p before [[l Hl] Hall]. split.
    + exists (l ++ [r])%list. cbn. now rewrite Hl, app_assoc.
    + intros k d Hin. cbn. apply served_later. now apply (Hall k d).
  - intros u info d p Hd Hrec before [[l Hl] Hall].
    apply descriptor_decoded in Hd. destruct Hd as [Hrep Hne].
    split.
    + exists (l ++ [info_request u])%list. cbn. now rewrite Hl, app_assoc.
    + intros k d' Hin. cbn in Hin. apply dict_set_In in Hin.
      destruct Hin as [[_ ->]|Hin].
      * assert (Hu : ds_url d = u) by apply Hrec.
        exists l, [], info. rewrite Hu. cbn. rewrite <- Hl.
        split; [reflexivity|].
        split; [exact Hrep|]. split; [exact Hne | exact Hrec].
      * cbn. apply served_later. now apply (Hall k d').
Qed.

(** X11. Nothing is cached that the remote did not serve: after a call of
    [_refresh_datasets] that runs a pass, every cached dataset goes back to
    a metadata probe of its URL sent during that pass, which the remote
    answered with status 200 and a dictionary that is not empty; that
    dictionary is the [service_info] of the record, its [layers] are the
    record's layers, and a title or a description that it gives is the
    record's. The type of the record is [Feature Service], [FeatureServer]
    or [MapServer]. *)
Theorem X11_cached_datasets_were_served :
  forall remote py_repr (force : bool) (now done : Q) (s : server),
    fresh force (last_refresh s) now = false ->
    let s' := exec (_refresh_datasets remote py_repr force now done) s in
    forall k d,
      In (k, d) (cached_datasets s') ->
      served remote (client_log s) (client_log s') d.
Proof.
  intros remote py_repr force now done s Hrun s' k d Hin.
  subst s'. unfold exec in *. rewrite refresh_runs in * by exact Hrun.
  cbn [snd self commit cached_datasets client_log] in *.
  destruct (@grows_walk remote py_repr _ (sourced_grows remote) (start s)
              (client_log s)) as [_ Hall].
  - split; [exists []; cbn; now rewrite app_nil_r | intros k' d' []].
  - exact (Hall k d Hin).
Qed.

Lemma X11_cached_datasets_were_served_witness :
  exists d,
    dict_get "planning_zoning"
      (cached_datasets
         (exec (_refresh_datasets Demo.remote_up Demo.repr true
                  (10 # 1) (11 # 1)) init_server)) = Some d /\
    served Demo.remote_up (client_log init_server)
      (client_log
         (exec (_refresh_datasets Demo.remote_up Demo.repr true
                  (10 # 1) (11 # 1)) init_server)) d.
Proof.
  assert (H : exists d,
             dict_get "planning_zoning"
               (cached_datasets
                  (exec (_refresh_datasets Demo.remote_up Demo.repr true
                           (10 # 1) (11 # 1)) init_server)) = Some d).
  { eexists. vm_compute. reflexivity. }
  destruct H as [d Hd]. exists d. split; [exact Hd|].
  exact (@X11_cached_datasets_were_served Demo.remote_up Demo.repr true
           (10 # 1) (11 # 1) init_server eq_refl "planning_zoning" d
           (dict_get_In _ _ Hd)).
Defined.

(** X12. After a call of [_refresh_datasets] that runs a pass the two
    caches refer to each other: every entry of [cached_services] is stored
    under its own name and its [dataset_id] is a key of [cached_datasets],
    every cached dataset has an entry of [cached_services] under its name,
    and no service name is cached twice. *)
Theorem X12_caches_refer_to_each_other :
  forall remote py_repr (force : bool) (now done : Q) (s : server),
    fresh force (last_refresh s) now = false ->
    let s' := exec (_refresh_datasets remote py_repr force now done) s in
    linked (cached_datasets s') (cached_services s').
Proof.
  intros remote py_repr force now done s Hrun s'.
  subst s'. unfold exec. rewrite refresh_runs by exact Hrun.
  cbn [snd self commit cached_datasets cached_services].
  apply (@grows_walk remote py_repr _ (linked_grows remote) (start s)).
  split; [intros k e [] | split; [intros k d [] | constructor]].
Qed.

Lemma X12_caches_refer_to_each_other_witness :
  linked (cached_datasets Demo.populated) (cached_services Demo.populated).
Proof.
  exact (@X12_caches_refer_to_each_other Demo.remote_up Demo.repr true
           (10 # 1) (11 # 1) init_server eq_refl).
Defined.

Section ProbeOrder.
Variable remote : list request -> request -> reply.
Variable py_repr : json -> string.

Lemma known_loop_log l : forall p,
  let p' := exec (for_each l (fun item =>
                    known_service remote (fst item) (snd item))) p in
  client_log (self p')
  = (client_log (self p) ++ map info_request (dict_values l))%list /\
  api_base (self p') = api_base (self p).
Proof.
  induction l as [|[n u] r IH]; intros p; cbv zeta.
  - cbn. now rewrite app_nil_r.
  - rewrite for_each_cons_exec by apply known_service_total.
    destruct (IH (exec (known_service remote n u) p)) as [H1 H2].
    cbv zeta in H1, H2. cbn [fst snd] in *. rewrite H1, H2.
    rewrite known_service_exec.
    destruct (descriptor (probe remote u p)); cbn;
      now rewrite <- app_assoc.
Qed.

Lemma catalog_first p :
  exists rest,
    client_log (self (exec (discover_catalog remote py_repr) p))
    = (client_log (self p) ++ catalog_request (api_base (self p)) :: rest)%list.
Proof.
  unfold discover_catalog. rewrite try_swallow_exec. unfold exec.
  rewrite bind_get_state, bind_lift_client_get.
  destruct (remote (client_log (self p)) (catalog_request (api_base (self p))))
    as [|status body].
  - exists []. reflexivity.
  - match goal with
    | |- context [snd (?m (sent ?r0 p))] =>
        assert (K : keeps log_extends m)
    end.
    { cbn [fst snd]. keeps_tac;
        first [ apply (@grows_root_service remote py_repr log_extends _)
              | apply (@grows_folder_services remote py_repr log_extends _) ]. }
    match goal with
    | |- context [snd (?m (sent ?r0 p))] =>
        destruct (K (sent r0 p)) as [rest Hrest]
    end.
    unfold exec in Hrest. exists rest. rewrite Hrest. cbn.
    now rewrite <- app_assoc.
Qed.

End ProbeOrder.

(** X13. A call of [_refresh_datasets] that runs a pass keeps the requests
    that were sent before, then probes every known service, one request
    each in the order of the registry and whatever the answers are, and
    only then asks for the root catalog; all other requests come later. *)
Theorem X13_known_services_are_probed_first :
  forall remote py_repr (force : bool) (now done : Q) (s : server),
    fresh force (last_refresh s) now = false ->
    exists rest,
      client_log (exec (_refresh_datasets remote py_repr force now done) s)
      = (client_log s
         ++ map info_request (dict_values (known_services s))
         ++ catalog_request (api_base s) :: rest)%list.
Proof.
  intros remote py_repr force now done s Hrun.
  unfold exec. rewrite refresh_runs by exact Hrun.
  cbn [snd self commit client_log]. rewrite walk_exec.
  destruct (catalog_first remote py_repr (exec (discover_known remote) (start s)))
    as [rest Hrest].
  exists rest. rewrite Hrest.
  unfold discover_known, exec at 1 2. rewrite bind_get_state.
  destruct (known_loop_log remote (known_services (self (start s))) (start s))
    as [H1 H2].
  cbv zeta in H1, H2. unfold exec in H1, H2. rewrite H1, H2.
  cbn [self start]. now rewrite <- app_assoc.
Qed.

Lemma X13_known_services_are_probed_first_witness :
  exists rest,
    client_log Demo.populated
    = ([] ++ map info_request [Demo.leases_url]
       ++ catalog_request Demo.base :: rest)%list.
Proof.
  exact (@X13_known_services_are_probed_first Demo.remote_up Demo.repr true
           (10 # 1) (11 # 1) init_server eq_refl).
Defined.

(** ** A limit below one *)




(** ** A pass reads neither the cache nor the timestamp *)

Section Respects.
Variable remote : list request -> request -> reply.
Variable py_repr : json -> string.
Variable L : list request -> list request -> Prop.
Hypothesis remote_blind : blind remote L.

Lemma respects_ret {A} (a : A) : respects L (ret a).
Proof. intros p q H. now split. Qed.

Lemma respects_raise {A} e : respects L (@raise pass A e).
Proof. intros p q H. now split. Qed.

Lemma respects_bind {A B} (m : M pass A) (k : A -> M pass B) :
  respects L m -> (forall a, respects L (k a)) -> respects L (bind m k).
Proof.
  intros Hm Hk p q H. unfold bind. destruct (Hm p q H) as [E1 E2].
  destruct (m p) as [[a|e] p'], (m q) as [[a'|e'] q']; cbn [fst snd] in *;
    try discriminate E1.
  - injection E1 as <-. now apply Hk.
  - injection E1 as <-. now split.
Qed.

Lemma respects_try {A} (m : M pass A) h :
  respects L m -> (forall e, respects L (h e)) -> respects L (try_except m h).
Proof.
  intros Hm Hh p q H. unfold try_except. destruct (Hm p q H) as [E1 E2].
  destruct (m p) as [[a|e] p'], (m q) as [[a'|e'] q']; cbn [fst snd] in *;
    try discriminate E1.
  - injection E1 as <-. now split.
  - injection E1 as <-. now apply Hh.
Qed.

Lemma respects_for_each {A} (l : list A) (body : A -> M pass unit) :
  (forall x, respects L (body x)) -> respects L (for_each l body).
Proof.
  intros Hb. induction l as [|x r IH]; cbn [for_each].
  - apply respects_ret.
  - apply respects_bind; [apply Hb | intros _; exact IH].
Qed.

(** A block that starts by reading the state respects the agreement when
    what it does with the state it read does. *)
Lemma respects_get_state {B} (k : pass -> M pass B) :
  (forall p q, agree L p q ->
     fst (k p p) = fst (k q q) /\ agree L (snd (k p p)) (snd (k q q))) ->
  respects L (bind get_state k).
Proof. intros Hk p q H. rewrite !bind_get_state. now apply Hk. Qed.

Lemma respects_py_get v k d : respects L (@py_get pass v k d).
Proof. destruct v; first [apply respects_ret | apply respects_raise]. Qed.

Lemma respects_py_iter v : respects L (@py_iter pass v).
Proof. destruct v; first [apply respects_ret | apply respects_raise]. Qed.

Lemma respects_py_lower v : respects L (@py_lower pass v).
Proof. destruct v; first [apply respects_ret | apply respects_raise]. Qed.

Lemma respects_py_len v : respects L (@py_len pass v).
Proof. destruct v; first [apply respects_ret | apply respects_raise]. Qed.

Lemma respects_py_in_dict {V} v (d : pydict V) : respects L (@py_in_dict pass V v d).
Proof. destruct v; first [apply respects_ret | apply respects_raise]. Qed.

Lemma respects_response_json body : respects L (@response_json pass body).
Proof. destruct body; first [apply respects_ret | apply respects_raise]. Qed.

Lemma agree_sent r p q : agree L p q -> agree L (sent r p) (sent r q).
Proof.
  intros ((Hb & Hk & Hl) & Hd & Hs).
  split; [|split; assumption].
  split; [exact Hb|]. split; [exact Hk|].
  cbn. now apply (proj2 remote_blind).
Qed.

Lemma respects_client_get r : respects L (lift_self (client_get remote r)).
Proof.
  intros p q H. rewrite !lift_client_get_run. cbn [fst snd].
  split; [|now apply agree_sent].
  destruct H as ((_ & _ & Hl) & _).
  now rewrite (proj1 remote_blind _ _ r Hl).
Qed.

Lemma respects_get_service_info u :
  respects L (lift_self (_get_service_info remote u)).
Proof.
  intros p q H. rewrite !lift_get_service_info_run. cbn [fst snd].
  split; [|now apply agree_sent].
  destruct H as ((_ & _ & Hl) & _).
  now rewrite (proj1 remote_blind _ _ (info_request u) Hl).
Qed.

Lemma respects_set_dataset k d : respects L (set_dataset k d).
Proof.
  intros p q (Hi & Hd & Hs). split; [reflexivity|].
  repeat split; cbn; try apply Hi; congruence.
Qed.

Lemma respects_set_service k e : respects L (set_service k e).
Proof.
  intros p q (Hi & Hd & Hs). split; [reflexivity|].
  repeat split; cbn; try apply Hi; congruence.
Qed.

(** One step of a proof that a block respects the agreement. After the
    state was read, the address and the registry of the one state are
    written as those of the other. *)
Ltac respects_step :=
  lazymatch goal with
  | |- respects L (bind get_state _) =>
      let p := fresh "p" in
      let q := fresh "q" in
      let H := fresh "H" in
      apply respects_get_state; intros p q H;
      let Hb := fresh "Hb" in
      let Hk := fresh "Hk" in
      assert (Hb : api_base (self p) = api_base (self q)) by apply H;
      assert (Hk : known_services (self p) = known_services (self q))
        by apply H;
      rewrite ?Hb, ?Hk; clear Hb Hk;
      lazymatch goal with
      | |- fst (?m p) = fst (?m q) /\ _ =>
          let Hm := fresh "Hm" in
          enough (Hm : respects L m) by exact (Hm p q H);
          clear H; try clear p
      end
  | |- respects L (bind _ _) => apply respects_bind; [|intros ?]
  | |- respects L (try_except _ _) => apply respects_try; [|intros ?]
  | |- respects L (ret _) => apply respects_ret
  | |- respects L (raise _) => apply respects_raise
  | |- respects L (for_each _ _) => apply respects_for_each; intros ?
  | |- respects L (py_get _ _ _) => apply respects_py_get
  | |- respects L (py_iter _) => apply respects_py_iter
  | |- respects L (py_lower _) => apply respects_py_lower
  | |- respects L (py_len _) => apply respects_py_len
  | |- respects L (py_in_dict _ _) => apply respects_py_in_dict
  | |- respects L (response_json _) => apply respects_response_json
  | |- respects L (set_dataset _ _) => apply respects_set_dataset
  | |- respects L (set_service _ _) => apply respects_set_service
  | |- respects L (lift_self (client_get _ _)) => apply respects_client_get
  | |- respects L (lift_self (_get_service_info _ _)) =>
      apply respects_get_service_info
  | |- respects L (if ?b then _ else _) => destruct b
  | |- respects L (match ?x with _ => _ end) => destruct x
  end.

Ltac respects_tac := repeat (cbv zeta; respects_step).

Lemma respects_known_service n u : respects L (known_service remote n u).
Proof. unfold known_service. respects_tac. Qed.

Lemma respects_root_service x : respects L (root_service remote py_repr x).
Proof. unfold root_service. respects_tac. Qed.

Lemma respects_folder_service f x :
  respects L (folder_service remote py_repr f x).
Proof. unfold folder_service. respects_tac. Qed.

Lemma respects_folder_services f : respects L (folder_services remote py_repr f).
Proof.
  unfold folder_services. respects_tac. apply respects_folder_service.
Qed.

Lemma respects_discover_catalog : respects L (discover_catalog remote py_repr).
Proof.
  unfold discover_catalog. respects_tac;
    first [apply respects_root_service | apply respects_folder_services].
Qed.

Lemma respects_discover_known : respects L (discover_known remote).
Proof.
  unfold discover_known. respects_tac. apply respects_known_service.
Qed.

Lemma respects_walk : respects L (walk remote py_repr).
Proof.
  unfold walk. apply respects_bind; [|intros _].
  - apply respects_discover_known.
  - apply respects_discover_catalog.
Qed.

End Respects.

Lemma blind_eq remote : blind remote eq.
Proof. split; intros h h' r ->; reflexivity. Qed.

Lemma blind_stateless remote :
  stateless remote -> blind remote (fun _ _ => True).
Proof. intros H. split; [intros h h' r _; apply H | trivial]. Qed.

(** X15. A pass starts from nothing and reads neither the cache nor the
    timestamp: two calls of [_refresh_datasets] that both run a pass, on
    servers with the same address, the same registry and the same requests
    behind them, against the same remote and stamped at the same time,
    leave the same state, whatever the two servers had cached before. *)
Theorem X15_pass_forgets_the_previous_cache :
  forall remote py_repr (force1 force2 : bool) (now1 now2 done : Q)
         (s1 s2 : server),
    same_inputs s1 s2 ->
    fresh force1 (last_refresh s1) now1 = false ->
    fresh force2 (last_refresh s2) now2 = false ->
    exec (_refresh_datasets remote py_repr force1 now1 done) s1
    = exec (_refresh_datasets remote py_repr force2 now2 done) s2.
Proof.
  intros remote py_repr force1 force2 now1 now2 done s1 s2 Hin H1 H2.
  unfold exec. rewrite !refresh_runs by assumption. cbn [snd].
  assert (Hstart : agree eq (start s1) (start s2)) by (now split).
  destruct (@respects_walk remote py_repr eq (blind_eq remote)
              (start s1) (start s2) Hstart)
    as (_ & (Hb & Hk & Hl) & Hd & Hs).
  unfold exec, commit. cbn [self]. now rewrite Hb, Hk, Hl, Hd, Hs.
Qed.

Lemma X15_pass_forgets_the_previous_cache_witness :
  exec (_refresh_datasets Demo.remote_catalog_broken Demo.repr true
          (30 # 1) (31 # 1)) Demo.populated
  = exec (_refresh_datasets Demo.remote_catalog_broken Demo.repr false
            (30 # 1) (31 # 1))
      (set_client_log (client_log Demo.populated) init_server).
Proof.
  apply X15_pass_forgets_the_previous_cache.
  - repeat split; vm_compute; reflexivity.
  - reflexivity.
  - reflexivity.
Defined.

(** ** Registering a service, then looking it up *)

Section RegisterThenLookup.
Variable remote : list request -> request -> reply.
Variable py_repr : json -> string.

(** After any call of [_refresh_datasets] on a server whose cache came from
    a pass, a known service that the remote serves is in the cache, and the
    cache has its keys in order. *)
Lemma served_known_is_cached force now done s n u info :
  In (n, u) (known_services s) ->
  serves remote u info ->
  (fresh force (last_refresh s) now = true ->
   In (PyStr.lower n) (dict_keys (cached_datasets s)) /\
   cache_ok (cached_datasets s)) ->
  let s' := exec (_refresh_datasets remote py_repr force now done) s in
  In (PyStr.lower n) (dict_keys (cached_datasets s')) /\
  cache_ok (cached_datasets s') /\
  known_services s' = known_services s.
Proof.
  intros Hin Hserves Hold s'. subst s'. unfold exec.
  destruct (fresh force (last_refresh s) now) eqn:Hf.
  - rewrite refresh_skips by exact Hf. cbn [snd].
    destruct (Hold eq_refl) as [H1 H2].
    split; [exact H1|]. split; [exact H2 | reflexivity].
  - rewrite refresh_runs by exact Hf.
    cbn [snd self commit cached_datasets known_services].
    split; [|split].
    + apply (@known_found remote py_repr s n u info Hin Hserves).
    + apply walk_cache_ok.
    + apply (walk_same_fields remote py_repr s).
Qed.

Lemma get_dataset_info_by_key dataset_id now done s :
  let s' := exec (_refresh_datasets remote py_repr false now done) s in
  In dataset_id (dict_keys (cached_datasets s')) ->
  cache_ok (cached_datasets s') ->
  exists d,
    eval (_get_dataset_info remote py_repr dataset_id now done) s = Ok d /\
    ds_id d = dataset_id.
Proof.
  intros s' Hin [_ Hid].
  destruct (dict_get dataset_id (cached_datasets s')) as [d|] eqn:E.
  - exists d. split.
    + unfold _get_dataset_info, eval. rewrite refresh_then, bind_get_state.
      fold s'. now rewrite E.
    + apply dict_get_In in E. exact (Hid _ _ E).
  - apply dict_get_None in E. contradiction.
Qed.

End RegisterThenLookup.

(** X16. Registering a service that the remote serves makes it findable:
    [_add_known_service(name, url)] then reports success with the number of
    cached datasets (the text of the handler is never produced), the cache
    it leaves holds a dataset under the lowercase name and a service under
    the name, and every later [_get_dataset_info] of the lowercase name,
    whether it refreshes again or not, returns a record with that
    identifier. *)
Theorem X16_registered_service_is_found :
  forall remote py_repr exn_str (name url : string) (info : pydict json)
         (now done : Q) (s : server),
    serves remote url info ->
    let run := _add_known_service remote py_repr exn_str name url now done s in
    fst run
    = Ok ("Successfully added service '" ++ name ++ "' at " ++ url
          ++ ". Found "
          ++ PyStr.of_nat (List.length (cached_datasets (snd run)))
          ++ " total datasets.") /\
    cached (snd run) (PyStr.lower name) name /\
    forall now' done',
      exists d,
        eval (_get_dataset_info remote py_repr (PyStr.lower name) now' done')
          (snd run) = Ok d /\
        ds_id d = PyStr.lower name.
Proof.
  intros remote py_repr exn_str name url info now done s Hserves run.
  subst run. rewrite add_known_service_run. cbv zeta. cbn [fst snd].
  split; [reflexivity|].
  assert (Hin : In (name, url) (known_services (registered name url s))).
  { apply dict_get_In. cbn. apply dict_get_set_same. }
  pose proof (@known_found remote py_repr (registered name url s) name url
                info Hin Hserves) as Hfound.
  assert (Hs1 : exec (_refresh_datasets remote py_repr true now done)
                  (registered name url s)
                = self (commit done (exec (walk remote py_repr)
                                       (start (registered name url s))))).
  { unfold exec at 1. now rewrite refresh_forced. }
  rewrite Hs1. split; [exact Hfound|].
  intros now' done'.
  assert (Hin1 : In (name, url)
                   (known_services
                      (self (commit done (exec (walk remote py_repr)
                                            (start (registered name url s))))))).
  { cbn [self commit known_services].
    rewrite (proj2 (proj2 (proj2 (proj2
               (walk_same_fields remote py_repr (registered name url s)))))).
    exact Hin. }
  destruct (@served_known_is_cached remote py_repr false now' done' _
              name url info Hin1 Hserves) as (A & B & _).
  - intros _. split; [apply Hfound | apply walk_cache_ok].
  - now apply get_dataset_info_by_key.
Qed.

Lemma X16_registered_service_is_found_witness :
  cached
    (snd (_add_known_service Demo.remote_same Demo.repr Demo.exn_text
            "Roads" "https://example.org/Roads/FeatureServer"
            (10 # 1) (11 # 1) init_server))
    (PyStr.lower "Roads") "Roads".
Proof.
  assert (Hserves : serves Demo.remote_same
                      "https://example.org/Roads/FeatureServer"
                      [("layers", JArr [])])
    by (split; [reflexivity | discriminate]).
  exact (proj1 (proj2
           (@X16_registered_service_is_found Demo.remote_same Demo.repr
              Demo.exn_text "Roads" "https://example.org/Roads/FeatureServer"
              [("layers", JArr [])] (10 # 1) (11 # 1) init_server Hserves))).
Defined.

(** ** What the guard of the root loop passes over *)

Section Guard.
Variable remote : list request -> request -> reply.
Variable py_repr : json -> string.

Lemma root_service_passes x p :
  passed_over (known_services (self p)) x ->
  root_service remote py_repr x p = (Ok tt, p).
Proof.
  intros (e & -> & H). unfold root_service. cbn [py_get]. rewrite !bind_ret.
  destruct H as [->|(sn & Hn & Hk)]; [reflexivity|].
  destruct (server_type (dict_get_default "type" (JStr "") e)); [|reflexivity].
  rewrite bind_get_state, Hn. cbn [py_in_dict]. now rewrite bind_ret, Hk.
Qed.

Lemma root_loop_passes items : forall p,
  Forall (passed_over (known_services (self p))) items ->
  for_each items (root_service remote py_repr) p = (Ok tt, p).
Proof.
  induction items as [|x r IH]; intros p H; [reflexivity|].
  inversion H as [|? ? Hx Hr]; subst. cbn [for_each]. unfold bind.
  rewrite (@root_service_passes x p Hx). now apply IH.
Qed.

Lemma passed_over_ok known x : passed_over known x -> root_entry_ok x.
Proof.
  intros (e & -> & [H|(sn & Hn & _)]); exists e; split; try reflexivity.
  - now left.
  - right. now rewrite Hn.
Qed.

End Guard.

(** X17. The guard of the root loop sends nothing: when the root catalog
    lists no folder and only services whose type is neither [FeatureServer]
    nor [MapServer] or whose name is in the registry, a pass sends the
    probes of the known services and the catalog request and nothing else;
    no listed service is probed. *)
Theorem X17_listed_known_services_are_not_probed :
  forall remote py_repr (force : bool) (now done : Q) (s : server)
         (cat : pydict json) (items : list json),
    fresh force (last_refresh s) now = false ->
    lists remote (api_base s) cat ->
    dict_get_default "services" (JArr []) cat = JArr items ->
    dict_get_default "folders" (JArr []) cat = JArr [] ->
    Forall (passed_over (known_services s)) items ->
    client_log (exec (_refresh_datasets remote py_repr force now done) s)
    = (client_log s
       ++ map info_request (dict_values (known_services s))
       ++ [catalog_request (api_base s)])%list.
Proof.
  intros remote py_repr force now done s cat items Hrun Hlists Hsv Hfo Hall.
  unfold exec. rewrite refresh_runs by exact Hrun.
  cbn [snd self commit client_log].
  assert (Hok : Forall root_entry_ok items).
  { rewrite Forall_forall in *. intros x Hx.
    exact (@passed_over_ok (known_services s) x (Hall x Hx)). }
  rewrite (@walk_lists remote py_repr s cat items Hlists Hsv Hok).
  rewrite (@folders_part_list remote py_repr _ cat [] Hfo).
  destruct (known_loop_log remote (known_services s) (start s)) as [H1 H2].
  cbv zeta in H1, H2. cbn [self start] in H1, H2.
  assert (Hk : known_services (self (at_catalog remote s)) = known_services s).
  { exact (@extends_known (start s) (at_catalog remote s)
             (at_catalog_extends remote s)). }
  unfold exec at 2.
  rewrite (@root_loop_passes remote py_repr items (at_catalog remote s))
    by (rewrite Hk; exact Hall).
  cbn [snd for_each exec ret]. unfold at_catalog, sent.
  cbn [self set_client_log client_log].
  unfold discover_known, exec at 1. rewrite bind_get_state.
  cbn [self start]. unfold exec in H1. rewrite H1.
  now rewrite <- app_assoc.
Qed.

Lemma X17_listed_known_services_are_not_probed_witness :
  let remote := fun (h : list request) (r : request) =>
    Http 200 (Some (JObj
      [("services",
        JArr [JObj [("name", JStr "Leases"); ("type", JStr "FeatureServer")];
              JObj [("name", JStr "Tiles"); ("type", JStr "ImageServer")]])])) in
  List.length
    (client_log (exec (_refresh_datasets remote Demo.repr true (10 # 1) (11 # 1))
                   init_server)) = 2%nat.
Proof.
  intros remote.
  rewrite (@X17_listed_known_services_are_not_probed remote Demo.repr true
             (10 # 1) (11 # 1) init_server
             [("services",
               JArr [JObj [("name", JStr "Leases"); ("type", JStr "FeatureServer")];
                     JObj [("name", JStr "Tiles"); ("type", JStr "ImageServer")]])]
             [JObj [("name", JStr "Leases"); ("type", JStr "FeatureServer")];
              JObj [("name", JStr "Tiles"); ("type", JStr "ImageServer")]]).
  - reflexivity.
  - reflexivity.
  - intros h. reflexivity.
  - reflexivity.
  - reflexivity.
  - constructor; [|constructor; [|constructor]].
    + eexists. split; [reflexivity|]. right. exists "Leases". now split.
    + eexists. split; [reflexivity|]. now left.
Defined.

(** ** The Leases query *)

(** X18. [_query_leases_dataset] sends one request, to the layer of the
    Leases service that the constructor registers, whatever the registry
    and the address of the server hold by now. The format goes out as it
    was given, and [returnGeometry=true] is added exactly when the format
    is [geojson] up to case. *)
Theorem X18_leases_query_request :
  forall remote (where_ : string) (layer : Z) (format : string)
         (max_records : Z) (s : server),
    let s' :=
      exec (_query_leases_dataset remote where_ layer format max_records) s in
    dict_get "Leases" (known_services init_server) = Some leases_service /\
    exists r,
      client_log s' = (client_log s ++ [r])%list /\
      req_url r = leases_service ++ "/" ++ PyStr.of_Z layer ++ "/query" /\
      dict_get "where" (req_params r) = Some (PStr where_) /\
      dict_get "outFields" (req_params r) = Some (PStr "*") /\
      dict_get "f" (req_params r) = Some (PStr format) /\
      dict_get "resultRecordCount" (req_params r)
      = Some (PNum (NInt max_records)) /\
      dict_get "returnGeometry" (req_params r)
      = (if (PyStr.lower format =? "geojson")%string
         then Some (PStr "true") else None).
Proof.
  intros remote where_ layer format max_records s s'. subst s'.
  split; [reflexivity|].
  unfold _query_leases_dataset, exec. cbv zeta. rewrite fetch_run.
  cbn [snd set_client_log client_log].
  eexists. split; [reflexivity|]. cbn [req_url req_params].
  split; [reflexivity|].
  destruct (PyStr.lower format =? "geojson")%string; repeat split.
Qed.

(** ** What the readers change *)

Lemma search_loop_exec {S} query category limit items :
  forall results (s : S),
    exec (search_loop query category limit items results) s = s.
Proof.
  induction items as [|[k d] rest IH]; intros results s;
    cbn [search_loop]; [reflexivity|].
  unfold exec. destruct (matches_run query category d s) as (r & E & _ & _).
  rewrite E. destruct r as [b|e]; [|reflexivity].
  destruct b; [|apply IH]. cbv zeta.
  destruct (Z.of_nat (List.length (results ++ [d])) >=? limit);
    [reflexivity | apply IH].
Qed.

(** X19. The four readers change the server through the refresh only: the
    state that [_search_datasets], [_get_dataset_info],
    [_list_municipal_services] and [handle_read_resource] leave, whether
    they return or raise, is the state that [_refresh_datasets()] leaves;
    so on a fresh cache they send nothing and change nothing. A URI of
    another scheme is rejected before the refresh: the call raises
    [Unsupported URI scheme] and leaves the state as it was. *)
Theorem X19_readers_change_only_by_refresh :
  forall remote py_repr dumps_dataset dumps_service (now done : Q) (s : server),
    let s' := exec (_refresh_datasets remote py_repr false now done) s in
    (forall query category limit,
        exec (_search_datasets remote py_repr query category limit now done) s
        = s') /\
    (forall dataset_id,
        exec (_get_dataset_info remote py_repr dataset_id now done) s = s') /\
    exec (_list_municipal_services remote py_repr now done) s = s' /\
    (forall uri,
        exec (handle_read_resource remote py_repr dumps_dataset dumps_service
                uri now done) s
        = if String.prefix scheme uri then s' else s) /\
    (fresh false (last_refresh s) now = true -> s' = s) /\
    (forall uri,
        String.prefix scheme uri = false ->
        handle_read_resource remote py_repr dumps_dataset dumps_service
          uri now done s
        = (Raise (ValueError ("Unsupported URI scheme: " ++ uri)), s)).
Proof.
  intros remote py_repr dumps_dataset dumps_service now done s s'.
  split; [|split; [|split; [|split; [|split]]]].
  - intros query category limit. unfold _search_datasets, exec.
    rewrite refresh_then, bind_get_state. apply search_loop_exec.
  - intros dataset_id. unfold _get_dataset_info, exec.
    rewrite refresh_then, bind_get_state. fold s'.
    destruct (dict_get dataset_id (cached_datasets s')); [reflexivity|].
    apply find_by_name_exec.
  - destruct (list_services_run remote py_repr now done s) as [Hok Hbad].
    cbv zeta in Hok, Hbad. fold s' in Hok, Hbad. unfold exec at 1.
    destruct (hashable_categories_or_not (cached_datasets s')) as [H|H].
    + now rewrite (Hok H).
    + now rewrite (Hbad H).
  - intros uri. unfold handle_read_resource, exec at 1. fold scheme.
    destruct (String.prefix scheme uri); cbn [negb]; [|reflexivity].
    cbv zeta. rewrite refresh_then, bind_get_state. fold s'.
    destruct (_ =? "dataset")%string;
      [destruct (dict_get _ (cached_datasets s')); [reflexivity|]|];
      (destruct (_ =? "service")%string;
       [destruct (dict_get _ (cached_services s'))|]; reflexivity).
  - intros Hf. subst s'. unfold exec. now rewrite refresh_skips.
  - intros uri Hp. unfold handle_read_resource. fold scheme.
    now rewrite Hp.
Qed.

Lemma X19_readers_change_only_by_refresh_witness :
  exec (_refresh_datasets Demo.remote_up Demo.repr false (200 # 1) (201 # 1))
    Demo.refreshed_at_100 = Demo.refreshed_at_100 /\
  handle_read_resource Demo.remote_up Demo.repr ds_name se_url
    "https://example.org/dataset/leases" (200 # 1) (201 # 1)
    Demo.refreshed_at_100
  = (Raise (ValueError
              ("Unsupported URI scheme: " ++ "https://example.org/dataset/leases")),
     Demo.refreshed_at_100).
Proof.
  destruct (@X19_readers_change_only_by_refresh Demo.remote_up Demo.repr
              ds_name se_url (200 # 1) (201 # 1) Demo.refreshed_at_100)
    as (_ & _ & _ & _ & Hfresh & Hscheme).
  split.
  - apply Hfresh. reflexivity.
  - apply Hscheme. reflexivity.
Defined.

(** ** A refresh never fails *)

(** X20. [_refresh_datasets] never raises, whatever the remote answers and
    however its answers are shaped. Every failure inside a pass is caught
    by one of the inner handlers, so the handler of line 646 is never
    entered: a call that runs a pass always reaches the three assignments
    that end it, and leaves the working dictionaries of the pass as the two
    caches and the clock reading as the timestamp. It never changes the
    address or the registry, and it only adds to the requests that were
    sent. *)
Theorem X20_refresh_never_raises :
  forall remote py_repr (force : bool) (now done : Q) (s : server),
    let run := _refresh_datasets remote py_repr force now done s in
    fst run = Ok tt /\
    api_base (snd run) = api_base s /\
    known_services (snd run) = known_services s /\
    (exists l, client_log (snd run) = (client_log s ++ l)%list) /\
    (fresh force (last_refresh s) now = false ->
     let p := exec (walk remote py_repr) (start s) in
     last_refresh (snd run) = Some done /\
     cached_datasets (snd run) = all_datasets p /\
     cached_services (snd run) = all_services p).
Proof.
  intros remote py_repr force now done s run. subst run.
  split; [apply refresh_total|].
  destruct (fresh force (last_refresh s) now) eqn:Hf.
  - rewrite refresh_skips by exact Hf. cbn [snd].
    split; [reflexivity|]. split; [reflexivity|].
    split; [exists []; now rewrite app_nil_r | discriminate].
  - rewrite refresh_runs by exact Hf.
    cbn [snd self commit api_base known_services client_log].
    destruct (walk_same_fields remote py_repr s) as (Hb & _ & _ & _ & Hk).
    split; [exact Hb|]. split; [exact Hk|]. split.
    + exact (@grows_walk remote py_repr _ (log_extends_grows remote) (start s)).
    + intros _. cbv zeta. now repeat split.
Qed.

Lemma X20_refresh_never_raises_witness :
  let run :=
    _refresh_datasets (fun _ _ => Http 200 None) Demo.repr true
      (10 # 1) (11 # 1) init_server in
  fst run = Ok tt /\ last_refresh (snd run) = Some (11 # 1).
Proof.
  intros run.
  destruct (@X20_refresh_never_raises (fun _ _ => Http 200 None) Demo.repr
              true (10 # 1) (11 # 1) init_server)
    as (Hok & _ & _ & _ & Hrun).
  split; [exact Hok|]. apply (Hrun eq_refl).
Defined.

(** ** A malformed entry of the root listing *)

Lemma for_each_stops {S A} (body : A -> M S unit) x e (l1 l2 : list A) :
  (forall y s, In y l1 -> eval (body y) s = Ok tt) ->
  (forall s, body x s = (Raise e, s)) ->
  forall s,
    for_each (l1 ++ x :: l2)%list body s
    = (Raise e, exec (for_each l1 body) s).
Proof.
  intros Hok Hx. induction l1 as [|y r IH]; intros s; cbn [app for_each].
  - unfold bind. now rewrite Hx.
  - unfold exec, bind.
    pose proof (Hok y s (or_introl eq_refl)) as Hy. unfold eval in Hy.
    destruct (body y s) as [r0 s1]. cbn [fst] in Hy. subst r0.
    rewrite IH by (intros z s' Hz; apply Hok; now right).
    reflexivity.
Qed.

Section Malformed.
Variable remote : list request -> request -> reply.
Variable py_repr : json -> string.

Lemma root_service_raises x :
  ~ root_entry_ok x ->
  exists e, forall p, root_service remote py_repr x p = (Raise e, p).
Proof.
  intros Hbad. destruct x as [| b | num | str | items | o];
    try (exists AttributeError; reflexivity).
  unfold root_service. cbn [py_get].
  destruct (server_type (dict_get_default "type" (JStr "") o)) as [ty|] eqn:Et.
  - destruct (dict_get_default "name" (JStr "") o) as [| b | num | sn | l | l]
      eqn:En;
      try (exfalso; apply Hbad; exists o; split; [reflexivity|]; right;
           rewrite En; exact I).
    + exists TypeError. intros p. rewrite !bind_ret, ?Et, bind_get_state, ?En.
      reflexivity.
    + exists TypeError. intros p. rewrite !bind_ret, ?Et, bind_get_state, ?En.
      reflexivity.
  - exfalso. apply Hbad. exists o. split; [reflexivity|]. now left.
Qed.

Lemma discover_catalog_stops p cat good bad rest :
  catalog_reply remote p = Http 200 (Some (JObj cat)) ->
  dict_get_default "services" (JArr []) cat
  = JArr (good ++ bad :: rest)%list ->
  Forall root_entry_ok good ->
  ~ root_entry_ok bad ->
  exec (discover_catalog remote py_repr) p =
  exec (for_each good (root_service remote py_repr))
    (sent (catalog_request (api_base (self p))) p).
Proof.
  intros Hrep Hsv Hok Hbad. unfold discover_catalog. rewrite try_swallow_exec.
  unfold exec at 1. rewrite bind_get_state, bind_lift_client_get.
  fold (catalog_reply remote p). rewrite Hrep.
  cbn [fst snd Z.eqb Pos.eqb response_json]. rewrite bind_ret.
  cbn [py_get]. rewrite bind_ret, Hsv. cbn [py_iter]. rewrite bind_ret.
  destruct (root_service_raises Hbad) as [e He].
  unfold bind at 1.
  rewrite (@for_each_stops pass json (root_service remote py_repr) bad e
             good rest).
  - reflexivity.
  - intros y s Hy. apply root_service_total.
    rewrite Forall_forall in Hok. now apply Hok.
  - exact He.
Qed.

End Malformed.

(** X21. An entry of the root listing that is not a dictionary, or whose
    name cannot be hashed although its type qualifies, ends the discovery:
    the failure is not caught inside the loop, so the services listed
    after it are not probed and no folder is visited. What the pass
    recorded before stays and is committed. *)
Theorem X21_malformed_entry_ends_the_catalog :
  forall remote py_repr (force : bool) (now done : Q) (s : server)
         (cat : pydict json) (good rest : list json) (bad : json),
    fresh force (last_refresh s) now = false ->
    lists remote (api_base s) cat ->
    dict_get_default "services" (JArr []) cat
    = JArr (good ++ bad :: rest)%list ->
    Forall root_entry_ok good ->
    ~ root_entry_ok bad ->
    _refresh_datasets remote py_repr force now done s
    = (Ok tt,
       self (commit done
               (exec (for_each good (root_service remote py_repr))
                  (at_catalog remote s)))).
Proof.
  intros remote py_repr force now done s cat good rest bad
         Hrun Hlists Hsv Hok Hbad.
  rewrite refresh_runs by exact Hrun. f_equal. f_equal. f_equal.
  rewrite walk_exec.
  assert (Hb : api_base (self (exec (discover_known remote) (start s)))
               = api_base s).
  { apply (@extends_api_base (start s)).
    apply (keeps_discover_known remote (R := extends)). }
  rewrite (@discover_catalog_stops remote py_repr _ cat good bad rest);
    [unfold at_catalog; now rewrite Hb | | exact Hsv | exact Hok | exact Hbad].
  unfold catalog_reply. rewrite Hb. apply Hlists.
Qed.

Lemma X21_malformed_entry_ends_the_catalog_witness :
  let remote := fun (h : list request) (r : request) =>
    Http 200 (Some (JObj
      [("services",
        JArr [JStr "Roads";
              JObj [("name", JStr "Zoning"); ("type", JStr "FeatureServer")]]);
       ("folders", JArr [JStr "Planning"])])) in
  dict_keys
    (cached_datasets
       (exec (_refresh_datasets remote Demo.repr true (10 # 1) (11 # 1))
          init_server))
  = ["leases"].
Proof.
  intros remote. unfold exec.
  rewrite (@X21_malformed_entry_ends_the_catalog remote Demo.repr true
             (10 # 1) (11 # 1) init_server
             [("services",
               JArr [JStr "Roads";
                     JObj [("name", JStr "Zoning");
                           ("type", JStr "FeatureServer")]]);
              ("folders", JArr [JStr "Planning"])]
             []
             [JObj [("name", JStr "Zoning"); ("type", JStr "FeatureServer")]]
             (JStr "Roads")).
  - vm_compute. reflexivity.
  - reflexivity.
  - intros h. reflexivity.
  - reflexivity.
  - constructor.
  - intros (e & He & _). discriminate He.
Defined.

(** ** The case of a query *)

Lemma lower_empty q : (PyStr.lower q =? "")%string = (q =? "")%string.
Proof. now destruct q. Qed.

Lemma text_matches_case {S} q1 q2 d :
  PyStr.lower q1 = PyStr.lower q2 ->
  @text_matches S q1 d = text_matches q2 d.
Proof.
  intros H. unfold text_matches.
  rewrite <- (lower_empty q1), <- (lower_empty q2), H.
  reflexivity.
Qed.

Lemma category_case {S} c1 c2 d :
  option_map PyStr.lower c1 = option_map PyStr.lower c2 ->
  category_given c1 = category_given c2 /\
  @category_matches S c1 d = category_matches c2 d.
Proof.
  destruct c1 as [c1|], c2 as [c2|]; cbn [option_map]; try discriminate.
  - intros [= H]. cbn [category_given category_matches].
    rewrite <- (lower_empty c1), <- (lower_empty c2), H. now split.
  - now split.
Qed.

Lemma search_loop_case {S} q1 q2 c1 c2 limit items :
  PyStr.lower q1 = PyStr.lower q2 ->
  option_map PyStr.lower c1 = option_map PyStr.lower c2 ->
  forall results (s : S),
    search_loop q1 c1 limit items results s
    = search_loop q2 c2 limit items results s.
Proof.
  intros Hq Hc. induction items as [|[k d] rest IH]; intros results s;
    cbn [search_loop]; [reflexivity|].
  destruct (@category_case S c1 c2 d Hc) as [Hg Hm].
  rewrite (@text_matches_case S q1 q2 d Hq), Hg, Hm.
  unfold bind.
  destruct (text_matches q2 d s) as [[b|e] s1]; [|reflexivity].
  destruct ((if category_given c2 && b then category_matches c2 d else ret b) s1)
    as [[m|e] s2]; [|reflexivity].
  destruct m; [|apply IH]. cbv zeta.
  destruct (Z.of_nat (List.length (results ++ [d])) >=? limit);
    [reflexivity | apply IH].
Qed.

(** X22. [_search_datasets] does not see the case of its arguments: two
    queries that are equal up to case, with two categories that are equal
    up to case or both absent, give the same result, the same error when
    there is one, and the same state. *)
Theorem X22_search_ignores_case :
  forall remote py_repr (q1 q2 : string) (c1 c2 : option string)
         (limit : Z) (now done : Q) (s : server),
    PyStr.lower q1 = PyStr.lower q2 ->
    option_map PyStr.lower c1 = option_map PyStr.lower c2 ->
    _search_datasets remote py_repr q1 c1 limit now done s
    = _search_datasets remote py_repr q2 c2 limit now done s.
Proof.
  intros remote py_repr q1 q2 c1 c2 limit now done s Hq Hc.
  unfold _search_datasets. rewrite !refresh_then, !bind_get_state.
  now apply search_loop_case.
Qed.

Lemma X22_search_ignores_case_witness :
  _search_datasets Demo.remote_up Demo.repr "ZONING" (Some "Planning") 5
    (20 # 1) (21 # 1) Demo.populated
  = _search_datasets Demo.remote_up Demo.repr "zoning" (Some "PLANNING") 5
      (20 # 1) (21 # 1) Demo.populated.
Proof.
  apply X22_search_ignores_case; reflexivity.
Defined.

(** ** Refreshing again *)

Lemma pass_repeatable remote py_repr (s1 s2 : server) :
  stateless remote ->
  api_base s1 = api_base s2 ->
  known_services s1 = known_services s2 ->
  all_datasets (exec (walk remote py_repr) (start s1))
  = all_datasets (exec (walk remote py_repr) (start s2)) /\
  all_services (exec (walk remote py_repr) (start s1))
  = all_services (exec (walk remote py_repr) (start s2)).
Proof.
  intros Hst Hb Hk.
  assert (Hstart : agree (fun _ _ => True) (start s1) (start s2)).
  { split; [|split; reflexivity]. split; [exact Hb|]. split; [exact Hk|exact I]. }
  destruct (@respects_walk remote py_repr (fun _ _ => True)
              (blind_stateless Hst) (start s1) (start s2) Hstart)
    as (_ & _ & Hd & Hs).
  now split.
Qed.

(** X23. Against a remote whose answers do not depend on what was asked
    before, what a pass caches depends on the address and the registry
    only: two calls of [_refresh_datasets] that run a pass on servers with
    the same address and registry leave the same two caches. Hence
    refreshing again, forced or not, changes neither cache. *)
Theorem X23_refresh_is_repeatable :
  forall remote py_repr (force1 force2 : bool) (now1 now2 done1 done2 : Q)
         (s1 s2 : server),
    stateless remote ->
    fresh force1 (last_refresh s1) now1 = false ->
    let a := exec (_refresh_datasets remote py_repr force1 now1 done1) s1 in
    (api_base s1 = api_base s2 ->
     known_services s1 = known_services s2 ->
     fresh force2 (last_refresh s2) now2 = false ->
     let b := exec (_refresh_datasets remote py_repr force2 now2 done2) s2 in
     cached_datasets a = cached_datasets b /\
     cached_services a = cached_services b) /\
    (let c := exec (_refresh_datasets remote py_repr force2 now2 done2) a in
     cached_datasets c = cached_datasets a /\
     cached_services c = cached_services a).
Proof.
  intros remote py_repr force1 force2 now1 now2 done1 done2 s1 s2 Hst H1 a.
  assert (Ha : a = self (commit done1 (exec (walk remote py_repr) (start s1)))).
  { subst a. unfold exec at 1. now rewrite refresh_runs. }
  split.
  - intros Hb Hk H2 b.
    assert (Hbv : b = self (commit done2 (exec (walk remote py_repr) (start s2)))).
    { subst b. unfold exec at 1. now rewrite refresh_runs. }
    rewrite Ha, Hbv. cbn [self commit cached_datasets cached_services].
    now apply pass_repeatable.
  - intros c. subst c. unfold exec.
    destruct (fresh force2 (last_refresh a) now2) eqn:Hf.
    + rewrite refresh_skips by exact Hf. now split.
    + rewrite refresh_runs by exact Hf.
      cbn [snd self commit cached_datasets cached_services].
      assert (Hb : api_base a = api_base s1).
      { rewrite Ha. cbn [self commit api_base].
        apply (walk_same_fields remote py_repr s1). }
      assert (Hk : known_services a = known_services s1).
      { rewrite Ha. cbn [self commit known_services].
        apply (walk_same_fields remote py_repr s1). }
      destruct (@pass_repeatable remote py_repr a s1 Hst Hb Hk) as [E1 E2].
      rewrite E1, E2, Ha. now split.
Qed.

Lemma X23_refresh_is_repeatable_witness :
  let a := exec (_refresh_datasets Demo.remote_same Demo.repr true
                   (10 # 1) (11 # 1)) init_server in
  let c := exec (_refresh_datasets Demo.remote_same Demo.repr true
                   (20 # 1) (21 # 1)) a in
  cached_datasets c = cached_datasets a /\
  cached_services c = cached_services a.
Proof.
  assert (Hst : stateless Demo.remote_same) by (intros h h' r; reflexivity).
  exact (proj2 (@X23_refresh_is_repeatable Demo.remote_same Demo.repr
                  true true (10 # 1) (20 # 1) (11 # 1) (21 # 1)
                  init_server init_server Hst eq_refl)).
Defined.
